(** * The code runner: supervising a child process

    A shallow embedding of [code_runner.py] and [web_utils.py]: the three
    entry points [execute_python_code], [run_main_web_app] (with
    [run_web_server]) and [run_main_as_console_app], and the helpers
    [_is_port_open], [_create_output_reader_thread], [_open_browser_if_needed]
    and [_kill_process_tree].  Their caller, [run_project] of [agent.py], is
    embedded as well.

    The Python code talks to an operating system that changes under its
    feet: the child prints, binds a port, forks, exits; the reader thread
    appends to the shared list; the user presses Ctrl+C.  The embedding is a
    state-and-exception monad over a [world], and every operation that
    reaches outside the interpreter first lets the environment play the next
    batch of its [event]s. *)

From Stdlib Require Import ZArith List String Ascii Bool Lia.
From Stdlib Require Import Floats.PrimFloat Floats.SpecFloat Floats.FloatOps.
From Stdlib Require Import DecimalString.
From stdpp Require Import gmap strings.

Set Warnings "-inexact-float".

Local Open Scope string_scope.
Local Open Scope list_scope.
Local Open Scope Z_scope.

(** ** Python values and strings *)

Module Py.

(** The values stored in the result dictionaries. [VProc] is a [Popen]
    handle, [VLines] the reference to the one shared list [output_lines]
    of the session (its contents live in the world). *)
Inductive pyval :=
| VNone
| VBool (b : bool)
| VInt (n : Z)
| VStr (s : string)
| VProc (pid : Z)
| VList (l : list string)
| VLines.

(** A dictionary with string keys. *)
Abbreviation dict := (gmap string pyval).

(** [d.get(k)] and [d.get(k, dflt)]. *)
Definition get (d : dict) (k : string) : pyval := default VNone (d !! k).
Definition get_or (d : dict) (k : string) (dflt : pyval) : pyval :=
  default dflt (d !! k).

(** [k in d]. *)
Definition has_key (d : dict) (k : string) : bool := bool_decide (is_Some (d !! k)).

(** The optional timeout: [None], or an [int] number of seconds. Its truth
    value is Python's: [None] and [0] are false. *)
Definition truthy (t : option Z) : bool :=
  match t with
  | None => false
  | Some n => negb (n =? 0)
  end.

(** [x > n] for a float [x] and an [int] [n]. Python converts neither
    side: it compares the two numbers exactly, whatever the size of [n]. A
    finite float is [m * 2^e] up to its sign. *)
Definition float_gt_int (x : float) (n : Z) : bool :=
  match Prim2SF x with
  | S754_nan => false
  | S754_infinity s => negb s
  | S754_zero _ => n <? 0
  | S754_finite s m e =>
      let v := if s then Z.neg m else Z.pos m in
      if 0 <=? e then n <? v * 2 ^ e else n * 2 ^ (- e) <? v
  end.

(** [x > t] for the time [x] gone by and the optional timeout [t], which
    the guard has found set. *)
Definition exceeds (x : float) (t : option Z) : bool :=
  match t with
  | Some n => float_gt_int x n
  | None => false
  end.

(** [float(n)]: the nearest float, ties to even; [None] when [n] is too
    large for a float ([OverflowError]). *)
Definition float_of_int (n : Z) : option float :=
  match binary_normalize prec emax n 0 false with
  | S754_infinity _ => None
  | f => Some (SF2Prim f)
  end.

Definition nl : string := String "010"%char EmptyString.

(** [str(n)] for an [int]. *)
Definition str_int (n : Z) : string := NilZero.string_of_int (Z.to_int n).

(** [str(t)] for the optional timeout. *)
Definition str_opt_int (t : option Z) : string :=
  match t with
  | None => "None"
  | Some n => str_int n
  end.

(** [needle in hay]: Python's substring test. *)
Fixpoint contains (needle hay : string) : bool :=
  String.prefix needle hay
  || match hay with
     | EmptyString => false
     | String _ rest => contains needle rest
     end.

(** [sep.join(l)]. *)
Definition join (sep : string) (l : list string) : string := String.concat sep l.

(** [c.isspace()] on the ASCII range. *)
Definition isspace (c : ascii) : bool :=
  let n := N_of_ascii c in
  ((9 <=? n) && (n <=? 13) || (28 <=? n) && (n <=? 32))%N.

(** [s.rstrip()]: drop the trailing white space. *)
Fixpoint rstrip (s : string) : string :=
  match s with
  | EmptyString => EmptyString
  | String c rest =>
      match rstrip rest with
      | EmptyString => if isspace c then EmptyString else String c EmptyString
      | r => String c r
      end
  end.

(** [os.path.dirname] of a POSIX path: what stands before the last slash,
    without its trailing slashes unless it is made of slashes only. *)
Fixpoint split_last_slash (s : string) : option (string * string) :=
  match s with
  | EmptyString => None
  | String c rest =>
      match split_last_slash rest with
      | Some (h, t) => Some (String c h, t)
      | None => if Ascii.eqb c "/" then Some (String c EmptyString, rest) else None
      end
  end.

Fixpoint all_slashes (s : string) : bool :=
  match s with
  | EmptyString => true
  | String c rest => Ascii.eqb c "/" && all_slashes rest
  end.

Fixpoint rstrip_slashes (s : string) : string :=
  match s with
  | EmptyString => EmptyString
  | String c rest =>
      match rstrip_slashes rest with
      | EmptyString => if Ascii.eqb c "/" then EmptyString else String c EmptyString
      | r => String c r
      end
  end.

Definition dirname (p : string) : string :=
  match split_last_slash p with
  | None => ""
  | Some (h, _) => if all_slashes h then h else rstrip_slashes h
  end.

(** [s.split('/')]. *)
Fixpoint split_slash (s : string) : list string :=
  match s with
  | EmptyString => [EmptyString]
  | String c rest =>
      if Ascii.eqb c "/" then EmptyString :: split_slash rest
      else match split_slash rest with
           | [] => [String c EmptyString]
           | comp :: comps => String c comp :: comps
           end
  end.

(** The loop of [posixpath.normpath] over the components: empty ones and
    [.] are skipped; [..] takes back the component before it, unless there
    is none (then it is dropped under the root and kept in a relative path)
    or that one is itself a [..] that was kept. [new_comps] is held in
    reverse. *)
Fixpoint norm_comps (initial_slashes : bool) (comps new_comps : list string)
  : list string :=
  match comps with
  | [] => rev new_comps
  | comp :: rest =>
      if String.eqb comp "" || String.eqb comp "." then
        norm_comps initial_slashes rest new_comps
      else if negb (String.eqb comp "..")
              || (negb initial_slashes && match new_comps with [] => true | _ => false end)
              || match new_comps with last :: _ => String.eqb last ".." | [] => false end
      then norm_comps initial_slashes rest (comp :: new_comps)
      else norm_comps initial_slashes rest (tl new_comps)
  end.

(** [os.path.normpath]: exactly two slashes at the start are kept, any
    other number of them is one. *)
Definition normpath (path : string) : string :=
  if String.eqb path "" then "."
  else
    let initial_slashes := String.prefix "/" path in
    let lead :=
      if negb initial_slashes then ""
      else if String.prefix "//" path && negb (String.prefix "///" path) then "//"
      else "/" in
    let p := lead +:+ String.concat "/" (norm_comps initial_slashes (split_slash path) []) in
    if String.eqb p "" then "." else p.

(** [a.endswith('/')]. *)
Fixpoint ends_with_slash (a : string) : bool :=
  match a with
  | EmptyString => false
  | String c rest =>
      match rest with
      | EmptyString => Ascii.eqb c "/"
      | _ => ends_with_slash rest
      end
  end.

(** [os.path.join(a, b)]. *)
Definition path_join (a b : string) : string :=
  if String.prefix "/" b then b
  else if String.eqb a "" || ends_with_slash a then a +:+ b
  else a +:+ "/" +:+ b.

(** [os.path.abspath] against the working directory [cwd]: a relative
    path is joined to [cwd], and the result is normalised. *)
Definition abspath (cwd p : string) : string :=
  normpath (if String.prefix "/" p then p else path_join cwd p).

End Py.

Import Py.

(** ** The operating system as the code sees it *)

(** A process of the table runs; or it has ended with a return code that
    its parent has not collected yet (a zombie: the system still lists it,
    [psutil] finds it and it takes signals); or its code has been collected
    and the process is gone. *)
Inductive pstate :=
| Running
| Exited (code : Z)
| Reaped (code : Z).

(** [denied]: signalling the process is refused ([psutil.AccessDenied]). *)
Record proc := mkproc {
  p_pid : Z;
  p_ppid : Z;
  p_state : pstate;
  p_denied : bool
}.

(** What a run does to the system and what it sees of it, in the order
    of its calls: the trace of the run. *)
Inductive oscall :=
| Spawned (pid : Z) (script : string)        (* [Popen] started [pid] *)
| Polled (pid : Z) (code : option Z)         (* [poll()] returned [code] *)
| Connected (port : Z) (ok : bool)           (* a connect to [port] of the host asked for *)
| Slept (secs : float)                       (* [time.sleep] *)
| Sliced (start : nat) (lines : list string) (* [output_lines[start:]] gave [lines] *)
| Measured (n : nat)                         (* [len(output_lines)] gave [n] *)
| Enumerated (pid : Z) (children : list Z)   (* [children(recursive=True)] *)
| SigTerm (pid : Z)                          (* SIGTERM sent to [pid] *)
| SigKill (pid : Z)                          (* SIGKILL sent to [pid] *)
| BrowserOpened (url : string).

(** What the environment does on its own. Whether and when a process
    that was sent a signal ends is the environment's business too. *)
Inductive event :=
| EvExit (pid code : Z)        (* a process ends, by itself or of a signal *)
| EvReap (pid : Z)             (* the parent of a process that has ended collects its code *)
| EvFork (parent child : Z) (denied : bool)          (* a process forks *)
| EvWrite (raw : string)       (* the child writes one raw line to its stdout pipe *)
| EvRead                       (* the reader thread runs one round of its loop *)
| EvStderr (s : string)        (* the child writes to its stderr *)
| EvListen (port : Z)          (* somebody starts to accept on 127.0.0.1:port *)
| EvClose (port : Z)
| EvClock (dt : float)         (* time passes *)
| EvSigint                     (* Ctrl+C *)
| EvFault (msg : string).      (* the process handle becomes invalid *)

Record world := mkworld {
  w_cwd : string;                 (* working directory of the interpreter *)
  w_exists : list string;         (* the paths that exist on disk *)
  w_procs : list proc;            (* the process table, in the order the system lists it *)
  w_listen : list Z;              (* the ports of the loopback interface that accept *)
  w_remote : list (string * Z);   (* the ports of other hosts that accept *)
  w_clock : float;                (* [time.time()] *)
  w_pipe : list string;           (* raw lines written to the pipe, not read yet *)
  w_reader : option Z;            (* the reader thread, with the pid it reads from *)
  w_output : list string;         (* the shared list [output_lines] *)
  w_stderr : string;              (* what the child wrote to stderr *)
  w_container : dict;             (* the dictionary [result_container] *)
  w_sigint : bool;                (* a Ctrl+C not delivered yet *)
  w_fault : option string;        (* a fault the next use of the handle raises *)
  w_log : list oscall;            (* the trace of the run so far *)
  w_sched : list (list event)     (* what the environment does before each next operation *)
}.

Module W.

Definition set_procs (f : list proc -> list proc) (w : world) : world :=
  mkworld (w_cwd w) (w_exists w) (f (w_procs w)) (w_listen w) (w_remote w) (w_clock w) (w_pipe w)
    (w_reader w) (w_output w) (w_stderr w) (w_container w) (w_sigint w) (w_fault w)
    (w_log w) (w_sched w).

Definition set_listen (f : list Z -> list Z) (w : world) : world :=
  mkworld (w_cwd w) (w_exists w) (w_procs w) (f (w_listen w)) (w_remote w) (w_clock w) (w_pipe w)
    (w_reader w) (w_output w) (w_stderr w) (w_container w) (w_sigint w) (w_fault w)
    (w_log w) (w_sched w).

Definition set_clock (f : float -> float) (w : world) : world :=
  mkworld (w_cwd w) (w_exists w) (w_procs w) (w_listen w) (w_remote w) (f (w_clock w)) (w_pipe w)
    (w_reader w) (w_output w) (w_stderr w) (w_container w) (w_sigint w) (w_fault w)
    (w_log w) (w_sched w).

Definition set_pipe (f : list string -> list string) (w : world) : world :=
  mkworld (w_cwd w) (w_exists w) (w_procs w) (w_listen w) (w_remote w) (w_clock w) (f (w_pipe w))
    (w_reader w) (w_output w) (w_stderr w) (w_container w) (w_sigint w) (w_fault w)
    (w_log w) (w_sched w).

Definition set_reader (r : option Z) (w : world) : world :=
  mkworld (w_cwd w) (w_exists w) (w_procs w) (w_listen w) (w_remote w) (w_clock w) (w_pipe w)
    r (w_output w) (w_stderr w) (w_container w) (w_sigint w) (w_fault w)
    (w_log w) (w_sched w).

Definition set_output (f : list string -> list string) (w : world) : world :=
  mkworld (w_cwd w) (w_exists w) (w_procs w) (w_listen w) (w_remote w) (w_clock w) (w_pipe w)
    (w_reader w) (f (w_output w)) (w_stderr w) (w_container w) (w_sigint w) (w_fault w)
    (w_log w) (w_sched w).

Definition set_stderr (f : string -> string) (w : world) : world :=
  mkworld (w_cwd w) (w_exists w) (w_procs w) (w_listen w) (w_remote w) (w_clock w) (w_pipe w)
    (w_reader w) (w_output w) (f (w_stderr w)) (w_container w) (w_sigint w) (w_fault w)
    (w_log w) (w_sched w).

Definition set_container (f : dict -> dict) (w : world) : world :=
  mkworld (w_cwd w) (w_exists w) (w_procs w) (w_listen w) (w_remote w) (w_clock w) (w_pipe w)
    (w_reader w) (w_output w) (w_stderr w) (f (w_container w)) (w_sigint w) (w_fault w)
    (w_log w) (w_sched w).

Definition set_sigint (b : bool) (w : world) : world :=
  mkworld (w_cwd w) (w_exists w) (w_procs w) (w_listen w) (w_remote w) (w_clock w) (w_pipe w)
    (w_reader w) (w_output w) (w_stderr w) (w_container w) b (w_fault w)
    (w_log w) (w_sched w).

Definition set_fault (o : option string) (w : world) : world :=
  mkworld (w_cwd w) (w_exists w) (w_procs w) (w_listen w) (w_remote w) (w_clock w) (w_pipe w)
    (w_reader w) (w_output w) (w_stderr w) (w_container w) (w_sigint w) o
    (w_log w) (w_sched w).

Definition log (c : oscall) (w : world) : world :=
  mkworld (w_cwd w) (w_exists w) (w_procs w) (w_listen w) (w_remote w) (w_clock w) (w_pipe w)
    (w_reader w) (w_output w) (w_stderr w) (w_container w) (w_sigint w) (w_fault w)
    (w_log w ++ [c]) (w_sched w).

Definition set_sched (s : list (list event)) (w : world) : world :=
  mkworld (w_cwd w) (w_exists w) (w_procs w) (w_listen w) (w_remote w) (w_clock w) (w_pipe w)
    (w_reader w) (w_output w) (w_stderr w) (w_container w) (w_sigint w) (w_fault w)
    (w_log w) s.

End W.

(** *** The process table *)

Definition find_proc (tbl : list proc) (pid : Z) : option proc :=
  find (fun p => p_pid p =? pid) tbl.

Definition proc_running (p : proc) : bool :=
  match p_state p with
  | Running => true
  | _ => false
  end.

(** The process is in the system: it runs, or it has ended and its code
    has not been collected. *)
Definition proc_present (p : proc) : bool :=
  match p_state p with
  | Reaped _ => false
  | _ => true
  end.

Definition is_running (tbl : list proc) (pid : Z) : bool :=
  match find_proc tbl pid with
  | Some p => proc_running p
  | None => false
  end.

Definition pid_exists (tbl : list proc) (pid : Z) : bool :=
  match find_proc tbl pid with
  | Some p => proc_present p
  | None => false
  end.

(** The [returncode] of the [Popen] handle of a process: [None] until the
    code of the process has been collected. *)
Definition returncode (tbl : list proc) (pid : Z) : option Z :=
  match find_proc tbl pid with
  | Some p => match p_state p with
              | Reaped c => Some c
              | _ => None
              end
  | None => None
  end.

(** The code of [pid] is collected, if [pid] has ended: what the
    [waitpid] inside [poll()], [wait()] and [send_signal()] does. *)
Definition reap (pid : Z) (tbl : list proc) : list proc :=
  map (fun p =>
         if p_pid p =? pid
         then match p_state p with
              | Exited c => mkproc (p_pid p) (p_ppid p) (Reaped c) (p_denied p)
              | _ => p
              end
         else p) tbl.

(** The pid of [init], which adopts the orphans. *)
Definition init_pid : Z := 1.

(** The pid of the interpreter that runs the supervisor. *)
Definition self_pid : Z := 0.

(** Process [pid] ends with [code]; its children are orphaned. *)
Definition end_proc (pid code : Z) (tbl : list proc) : list proc :=
  map (fun p =>
         if p_pid p =? pid
         then mkproc (p_pid p) (p_ppid p) (Exited code) (p_denied p)
         else if p_ppid p =? pid
         then mkproc (p_pid p) init_pid (p_state p) (p_denied p)
         else p) tbl.

Definition fresh_pid (tbl : list proc) : Z :=
  1 + fold_right Z.max init_pid (map p_pid tbl).

(** The children of [pid] that are in the system, as the system lists
    them. *)
Definition children_of (tbl : list proc) (pid : Z) : list Z :=
  map p_pid (filter (fun p => (p_ppid p =? pid) && proc_present p) tbl).

(** The loop of [children(recursive=True)]: [psutil] keeps a stack of the
    processes whose children it has still to list, which starts with the
    process itself. It takes the process pushed last, appends the children
    of that process to its result in the order of the system, and pushes
    them. The head of [stack] is the process pushed last. *)
Fixpoint walk_children (steps : nat) (tbl : list proc) (stack seen : list Z) : list Z :=
  match steps with
  | O => []
  | S n =>
      match stack with
      | [] => []
      | pid :: rest =>
          if existsb (Z.eqb pid) seen then walk_children n tbl rest seen
          else
            let children := children_of tbl pid in
            children ++ walk_children n tbl (rev children ++ rest) (pid :: seen)
      end
  end.

(** Each process of the table is pushed once at most: the loop ends
    within as many steps as the table is long, and one. *)
Definition children_recursive (tbl : list proc) (pid : Z) : list Z :=
  walk_children (S (length tbl)) tbl [pid] [].

(** *** The reader thread *)

(** [if not line and process.poll() is not None: break], for an empty
    [line]: the thread polls the process, which collects the code of a
    process that has ended, and ends if there is a code. *)
Definition reader_poll (pid : Z) (w : world) : world :=
  let w1 := W.set_procs (reap pid) w in
  match returncode (w_procs w1) pid with
  | Some _ => W.set_reader None w1
  | None => w1
  end.

(** One round of the loop of [read_output], the body of the thread that
    [_create_output_reader_thread] starts. [readline] takes the next raw
    line of the pipe: a line that is not empty is stripped and appended to
    [output_lines]; on an empty one the thread polls the process. With
    nothing in the pipe, [readline] returns the empty line once the process
    has ended, and waits otherwise. *)
Definition read_output (w : world) : world :=
  match w_reader w with
  | None => w
  | Some pid =>
      match w_pipe w with
      | line :: rest =>
          let w1 := W.set_pipe (fun _ => rest) w in
          if negb (String.eqb line "")
          then W.set_output (fun out => out ++ [rstrip line]) w1
          else reader_poll pid w1
      | [] => if is_running (w_procs w) pid then w else reader_poll pid w
      end
  end.

(** *** The environment's moves *)

Definition apply_event (e : event) (w : world) : world :=
  match e with
  | EvExit pid code =>
      if is_running (w_procs w) pid then W.set_procs (end_proc pid code) w else w
  | EvReap pid =>
      match find_proc (w_procs w) pid with
      | Some p => if p_ppid p =? self_pid then w else W.set_procs (reap pid) w
      | None => w
      end
  | EvFork parent child denied =>
      if is_running (w_procs w) parent && negb (bool_decide (is_Some (find_proc (w_procs w) child)))
      then W.set_procs (fun tbl => tbl ++ [mkproc child parent Running denied]) w
      else w
  | EvWrite raw => W.set_pipe (fun q => q ++ [raw]) w
  | EvRead => read_output w
  | EvStderr s => W.set_stderr (fun old => old +:+ s) w
  | EvListen port => W.set_listen (fun l => port :: l) w
  | EvClose port => W.set_listen (filter (fun q => negb (q =? port))) w
  | EvClock dt => W.set_clock (fun t => PrimFloat.add t dt) w
  | EvSigint => W.set_sigint true w
  | EvFault msg => W.set_fault (Some msg) w
  end.

Definition apply_events (evs : list event) (w : world) : world :=
  fold_left (fun w e => apply_event e w) evs w.

(** ** The monad of the supervisor *)

(** The exceptions the code can meet. Only [KeyboardInterrupt] is not an
    [Exception]. *)
Inductive exn :=
| KeyboardInterrupt
| NoSuchProcess (pid : Z)
| AccessDenied (pid : Z)
| OSError (msg : string)
| OverflowError
| TimeoutExpired.

Definition is_Exception (e : exn) : bool :=
  match e with
  | KeyboardInterrupt => false
  | _ => true
  end.

(** [str(e)]. *)
Definition str_exn (e : exn) : string :=
  match e with
  | KeyboardInterrupt => ""
  | NoSuchProcess pid => "process no longer exists (pid=" +:+ str_int pid +:+ ")"
  | AccessDenied pid => "(pid=" +:+ str_int pid +:+ ")"
  | OSError msg => msg
  | OverflowError => "int too large to convert to float"
  | TimeoutExpired => "timed out"
  end.

(** [traceback.format_exc()], down to its first and last lines. *)
Definition format_exc (e : exn) : string :=
  "Traceback (most recent call last):" +:+ nl +:+ str_exn e +:+ nl.

(** A computation returns, raises, or is cut short when the steps allotted
    to its loops are used up. *)
Inductive res (A : Type) :=
| Ok (a : A)
| Raise (e : exn)
| NoFuel.

Arguments Ok {A} a.
Arguments Raise {A} e.
Arguments NoFuel {A}.

Definition M (A : Type) : Type := world -> res A * world.

Definition ret {A} (a : A) : M A := fun w => (Ok a, w).

Definition raise {A} (e : exn) : M A := fun w => (Raise e, w).

Definition out_of_fuel {A} : M A := fun w => (NoFuel, w).

Definition bind {A B} (m : M A) (k : A -> M B) : M B :=
  fun w =>
    match m w with
    | (Ok a, w1) => k a w1
    | (Raise e, w1) => (Raise e, w1)
    | (NoFuel, w1) => (NoFuel, w1)
    end.

(** [try: body except ...: handler]; the handler says which exceptions it
    takes. *)
Definition try_except {A} (body : M A) (handler : exn -> option (M A)) : M A :=
  fun w =>
    match body w with
    | (Raise e, w1) =>
        match handler e with
        | Some h => h w1
        | None => (Raise e, w1)
        end
    | r => r
    end.

Declare Scope py_scope.
Delimit Scope py_scope with py.
Notation "x <- c ;; k" := (bind c (fun x => k))
  (at level 100, c at next level, right associativity) : py_scope.
Notation "c ;; k" := (bind c (fun _ => k))
  (at level 100, right associativity) : py_scope.
Local Open Scope py_scope.

Fixpoint for_each {A} (l : list A) (body : A -> M unit) : M unit :=
  match l with
  | [] => ret tt
  | x :: rest => body x ;; for_each rest body
  end.

(** The environment plays its next batch; a pending Ctrl+C is then
    delivered to the main thread. *)
Definition env_step : M unit :=
  fun w =>
    let w1 :=
      match w_sched w with
      | [] => w
      | evs :: rest => apply_events evs (W.set_sched rest w)
      end in
    if w_sigint w1 then (Raise KeyboardInterrupt, W.set_sigint false w1)
    else (Ok tt, w1).

(** An operation on the outside world: the environment moves first. *)
Definition prim {A} (op : M A) : M A := env_step ;; op.

(** The process handle is used: a pending fault is raised. *)
Definition use_handle : M unit :=
  fun w =>
    match w_fault w with
    | Some msg => (Raise (OSError msg), W.set_fault None w)
    | None => (Ok tt, w)
    end.

(** *** Library calls *)

Module Lib.

Definition os_path_abspath (p : string) : M string :=
  fun w => (Ok (abspath (w_cwd w) p), w).

Definition os_path_exists (p : string) : M bool :=
  prim (fun w => (Ok (existsb (String.eqb p) (w_exists w)), w)).

(** [subprocess.Popen([sys.executable, script], cwd=cwd, ...)]: fails when
    the working directory does not exist; the script is the interpreter's
    business. The new process is a child of ours. *)
Definition Popen (script cwd : string) : M Z :=
  prim (fun w =>
    if existsb (String.eqb cwd) (w_exists w) then
      let pid := fresh_pid (w_procs w) in
      (Ok pid,
       W.log (Spawned pid script)
         (W.set_procs (fun tbl => tbl ++ [mkproc pid self_pid Running false]) w))
    else (Raise (OSError ("No such file or directory: " +:+ cwd)), w)).

(** [process.poll()]: the code of a process that has ended is collected
    and kept in the handle. *)
Definition poll (process : Z) : M (option Z) :=
  prim (use_handle ;; fun w =>
    let w1 := W.set_procs (reap process) w in
    let code := returncode (w_procs w1) process in
    (Ok code, W.log (Polled process code) w1)).

(** [process.kill()]: [send_signal] polls first and does nothing for a
    process that has ended; otherwise it sends SIGKILL and returns, without
    waiting for the process to end. *)
Definition kill (process : Z) : M unit :=
  prim (use_handle ;; fun w =>
    let w1 := W.set_procs (reap process) w in
    if is_running (w_procs w1) process
    then (Ok tt, W.log (SigKill process) w1)
    else (Ok tt, w1)).

(** [psutil.Process(pid)]: a process that has ended is found as long as
    its code has not been collected. *)
Definition psutil_Process (pid : Z) : M Z :=
  prim (fun w =>
    if pid_exists (w_procs w) pid then (Ok pid, w) else (Raise (NoSuchProcess pid), w)).

(** [parent.children(recursive=True)]: a snapshot. *)
Definition psutil_children (parent : Z) : M (list Z) :=
  prim (fun w =>
    if pid_exists (w_procs w) parent
    then
      let children := children_recursive (w_procs w) parent in
      (Ok children, W.log (Enumerated parent children) w)
    else (Raise (NoSuchProcess parent), w)).

(** [p.terminate()]: SIGTERM is sent to a process that is in the system,
    and the call returns; what the process does with the signal comes
    later. *)
Definition psutil_terminate (pid : Z) : M unit :=
  prim (fun w =>
    match find_proc (w_procs w) pid with
    | Some p =>
        if negb (proc_present p) then (Raise (NoSuchProcess pid), w)
        else if p_denied p then (Raise (AccessDenied pid), w)
        else (Ok tt, W.log (SigTerm pid) w)
    | None => (Raise (NoSuchProcess pid), w)
    end).

(** The names under which the interpreter reaches its own loopback
    interface. *)
Definition is_loopback (host : string) : bool :=
  String.eqb host "127.0.0.1" || String.eqb host "localhost".

(** Whether a connection to [port] of [host] is accepted. *)
Definition accepts (w : world) (host : string) (port : Z) : bool :=
  if is_loopback host then existsb (Z.eqb port) (w_listen w)
  else existsb (fun hp => String.eqb host (fst hp) && (port =? snd hp)) (w_remote w).

(** [socket.create_connection((host, port), timeout)], closed at once. *)
Definition socket_create_connection (host : string) (port : Z) : M unit :=
  prim (fun w =>
    if accepts w host port
    then (Ok tt, W.log (Connected port true) w)
    else (Raise (OSError "Connection refused"), W.log (Connected port false) w)).

Definition time_time : M float :=
  prim (fun w => (Ok (w_clock w), w)).

Definition time_sleep (secs : float) : M unit :=
  prim (fun w => (Ok tt, W.log (Slept secs) (W.set_clock (fun t => PrimFloat.add t secs) w))).

Definition webbrowser_open (url : string) : M unit :=
  prim (fun w => (Ok tt, W.log (BrowserOpened url) w)).

(** [err_file.seek(0); err_file.read()]. *)
Definition err_file_read : M string :=
  prim (fun w => (Ok (w_stderr w), w)).

(** [threading.Thread(target=read_output, daemon=True).start()]. *)
Definition thread_start (process : Z) : M unit :=
  prim (fun w => (Ok tt, W.set_reader (Some process) w)).

(** [output_lines = []]. *)
Definition new_output_lines : M unit :=
  fun w => (Ok tt, W.set_output (fun _ => []) w).

(** [output_lines[last_len:]] and [len(output_lines)]: two reads of the
    shared list, with the reader thread free to run in between. *)
Definition output_lines_from (last_len : nat) : M (list string) :=
  prim (fun w =>
    let lines := skipn last_len (w_output w) in
    (Ok lines, W.log (Sliced last_len lines) w)).

Definition len_output_lines : M nat :=
  prim (fun w =>
    let n := length (w_output w) in
    (Ok n, W.log (Measured n) w)).

(** [result_container[k] = v] and [k in result_container]. *)
Definition setitem (k : string) (v : pyval) : M unit :=
  fun w => (Ok tt, W.set_container (insert k v) w).

Definition in_container (k : string) : M bool :=
  fun w => (Ok (has_key (w_container w) k), w).

(** The wait inside [process.communicate]: it goes on until the process
    has ended, collects its code and returns what the process wrote to
    stdout and stderr; [TimeoutExpired] once [timeout] seconds have gone by
    since [started]. *)
Fixpoint communicate_wait (fuel : nat) (process : Z) (timeout : option float)
    (started : float) : M (string * string) :=
  match fuel with
  | O => out_of_fuel
  | S fuel' =>
      env_step ;;
      fun w =>
        let w1 := W.set_procs (reap process) w in
        match returncode (w_procs w1) process with
        | Some _ => (Ok (String.concat "" (w_pipe w1), w_stderr w1), w1)
        | None =>
            match timeout with
            | Some t =>
                if PrimFloat.leb t (PrimFloat.sub (w_clock w1) started)
                then (Raise TimeoutExpired, w1)
                else communicate_wait fuel' process timeout started w1
            | None => communicate_wait fuel' process timeout started w1
            end
        end
  end.

(** [process.communicate(input, timeout)]: the end of the wait is
    [time() + timeout], which converts an [int] timeout to a float. What
    the child does with its input is the environment's business. *)
Definition communicate (fuel : nat) (process : Z) (input : option string)
    (timeout : option Z) : M (string * string) :=
  match timeout with
  | None => fun w => communicate_wait fuel process None (w_clock w) w
  | Some t =>
      match float_of_int t with
      | Some secs => fun w => communicate_wait fuel process (Some secs) (w_clock w) w
      | None => raise OverflowError
      end
  end.

End Lib.

Import Lib.

(** ** web_utils.py *)

Definition mkdict (l : list (string * pyval)) : dict := list_to_map l.

Definition _start_web_process (abs_filepath : string) : M Z :=
  Popen abs_filepath (dirname abs_filepath).

Definition _is_port_open (host : string) (port : Z) : M bool :=
  try_except
    (socket_create_connection host port ;; ret true)
    (fun e => if is_Exception e then Some (ret false) else None).

(** The thread body is [read_output] above; the environment schedules it. *)
Definition _create_output_reader_thread (process : Z) : M unit :=
  thread_start process.

Definition _open_browser_if_needed (url : string) (open_browser : bool) : M unit :=
  if open_browser then
    try_except (webbrowser_open url)
      (fun e => if is_Exception e then Some (ret tt) else None)
  else ret tt.

Definition _kill_process_tree (proc : Z) : M unit :=
  try_except
    (parent <- psutil_Process proc ;;
     children <- psutil_children parent ;;
     for_each children psutil_terminate ;;
     psutil_terminate parent)
    (fun e => match e with
              | NoSuchProcess _ => Some (ret tt)
              | _ => None
              end).

(** ** code_runner.py *)

Definition execute_python_code (fuel : nat) (filepath : string) (timeout : option Z)
    (input_text : option string) : M dict :=
  try_except
    (abs_filepath <- os_path_abspath filepath ;;
     found <- os_path_exists abs_filepath ;;
     if negb found then
       ret (mkdict [("success", VBool false);
                    ("error", VStr ("file not found " +:+ abs_filepath))])
     else
       process <- Popen abs_filepath (dirname abs_filepath) ;;
       try_except
         (out <- communicate fuel process input_text timeout ;;
          rc <- (fun w => (Ok (returncode (w_procs w) process), w)) ;;
          ret (mkdict [("success", VBool (bool_decide (rc = Some 0)));
                       ("stdout", VStr (fst out));
                       ("stderr", VStr (snd out));
                       ("returncode", from_option VInt VNone rc);
                       ("filepath", VStr abs_filepath)]))
         (fun e =>
            match e with
            | TimeoutExpired =>
                Some (kill process ;;
                      out <- communicate fuel process None None ;;
                      rc <- (fun w => (Ok (returncode (w_procs w) process), w)) ;;
                      ret (mkdict [("success", VBool false);
                                   ("error", VStr ("timeout " +:+ str_opt_int timeout +:+ " seconds"));
                                   ("stdout", VStr (fst out));
                                   ("stderr", VStr (snd out));
                                   ("returncode", from_option VInt VNone rc);
                                   ("filepath", VStr abs_filepath)]))
            | _ => None
            end))
    (fun e =>
       if is_Exception e then
         Some (ret (mkdict [("success", VBool false);
                            ("error", VStr ("Execution exception: " +:+ str_exn e));
                            ("stdout", VStr "");
                            ("stderr", VStr (format_exc e));
                            ("filepath", VStr filepath)]))
       else None).

(** *** Start Web Server *)

Definition default_ports : list Z := [5000; 8000; 8080; 3000; 8501].

Definition poll_interval : float := 0.2%float.

Definition server_url_of (p : Z) : string := "http://127.0.0.1:" +:+ str_int p.

(** The [for p in default_ports] loop with its [break]. *)
Fixpoint probe_ports (ports : list Z) : M (option string) :=
  match ports with
  | [] => ret None
  | p :: rest =>
      open <- _is_port_open "127.0.0.1" p ;;
      if open then ret (Some (server_url_of p)) else probe_ports rest
  end.

(** The [while waited < max_wait] loop: [inl] is the early [return] from
    inside it, [inr] the value of [server_url] when it is left. *)
Fixpoint wait_for_port (fuel : nat) (process : Z) (waited max_wait : float)
  : M (dict + option string) :=
  match fuel with
  | O => out_of_fuel
  | S fuel' =>
      if PrimFloat.ltb waited max_wait then
        code <- poll process ;;
        match code with
        | Some _ =>
            ret (inl (mkdict [("success", VBool false);
                              ("error", VStr "Server exited unexpectedly");
                              ("process", VProc process);
                              ("output_lines", VLines)]))
        | None =>
            server_url <- probe_ports default_ports ;;
            match server_url with
            | Some url => ret (inr (Some url))
            | None =>
                time_sleep poll_interval ;;
                wait_for_port fuel' process (PrimFloat.add waited poll_interval) max_wait
            end
        end
      else ret (inr None)
  end.

Definition run_web_server (fuel : nat) (filepath : string) (open_browser : bool)
    (max_wait : float) : M dict :=
  abs_filepath <- os_path_abspath filepath ;;
  process <- _start_web_process abs_filepath ;;
  new_output_lines ;;
  _create_output_reader_thread process ;;
  r <- wait_for_port fuel process 0%float max_wait ;;
  match r with
  | inl failed => ret failed
  | inr None =>
      ret (mkdict [("success", VBool false);
                   ("error", VStr "Server did not start in time");
                   ("process", VProc process);
                   ("output_lines", VLines)])
  | inr (Some server_url) =>
      _open_browser_if_needed server_url open_browser ;;
      ret (mkdict [("success", VBool true);
                   ("process", VProc process);
                   ("url", VStr server_url);
                   ("output_lines", VLines)])
  end.

(** *** Run main.py *)

Definition crash_marker : string := "Traceback (most recent call last)".

(** [for i, line in enumerate(new_lines)]: the first index whose line
    holds the marker, counting from [i]. *)
Fixpoint first_crash_index (lines : list string) (i : nat) : option nat :=
  match lines with
  | [] => None
  | line :: rest =>
      if contains crash_marker line then Some i else first_crash_index rest (S i)
  end.

(** The value of a dictionary entry that holds a bool, a handle. *)
Definition as_bool (v : pyval) : bool :=
  match v with
  | VBool b => b
  | _ => false
  end.

Definition as_handle (v : pyval) : Z :=
  match v with
  | VProc pid => pid
  | _ => self_pid
  end.

Definition max_wait_default : float := 15%float.

(** The [while True] loop of the service supervisor. *)
Fixpoint serve_loop (fuel : nat) (process : Z) (run_timeout : option Z)
    (start_time : float) (last_len : nat) : M bool :=
  match fuel with
  | O => out_of_fuel
  | S fuel' =>
      new_lines <- output_lines_from last_len ;;
      last_len <- len_output_lines ;;
      match first_crash_index new_lines 0 with
      | Some i =>
          let tb := join nl (skipn i new_lines) in
          setitem "server_error" (VStr tb) ;;
          _kill_process_tree process ;;
          ret false
      | None =>
          code <- poll process ;;
          match code with
          | Some _ =>
              known <- in_container "server_error" ;;
              (if negb known
               then setitem "server_error" (VStr "Web server stopped unexpectedly")
               else ret tt) ;;
              ret false
          | None =>
              expired <- (if truthy run_timeout then
                            now <- time_time ;;
                            ret (exceeds (PrimFloat.sub now start_time) run_timeout)
                          else ret false) ;;
              if expired then
                _kill_process_tree process ;;
                ret true
              else
                time_sleep 1%float ;;
                serve_loop fuel' process run_timeout start_time last_len
          end
      end
  end.

(** The [except KeyboardInterrupt] clause of [run_main_web_app]. *)
Definition on_interrupt (process : Z) : M bool :=
  code <- poll process ;;
  match code with
  | None => _kill_process_tree process ;; ret true
  | Some _ => ret true
  end.

Definition run_main_web_app (fuel : nat) (main_path : string) (open_browser : bool)
    (run_timeout : option Z) (result_container : option dict) : M bool :=
  (fun w => (Ok tt, W.set_container (fun _ => default ∅ result_container) w)) ;;
  server_info <- run_web_server fuel main_path open_browser max_wait_default ;;
  setitem "server_process" (get server_info "process") ;;
  setitem "server_output" (get_or server_info "output_lines" (VList [])) ;;
  setitem "server_url" (get server_info "url") ;;
  if negb (as_bool (get server_info "success")) then
    setitem "server_error" (get_or server_info "error" (VStr "failed to run web server")) ;;
    ret false
  else
    let process := as_handle (get server_info "process") in
    start_time <- time_time ;;
    try_except
      (serve_loop fuel process run_timeout start_time 0%nat)
      (fun e =>
         match e with
         | KeyboardInterrupt => Some (on_interrupt process)
         | _ => None
         end).

(** The [while True] loop of the console supervisor. *)
Fixpoint console_loop (fuel : nat) (process : Z) (run_timeout : option Z)
    (start_time : float) (abs_main : string) : M dict :=
  match fuel with
  | O => out_of_fuel
  | S fuel' =>
      code <- poll process ;;
      match code with
      | Some r =>
          stderr_content <- err_file_read ;;
          ret (mkdict [("success", VBool (r =? 0));
                       ("returncode", VInt r);
                       ("stdout", VStr "");
                       ("stderr", VStr stderr_content);
                       ("error", if r =? 0 then VNone else VStr "failed to run");
                       ("filepath", VStr abs_main)])
      | None =>
          expired <- (if truthy run_timeout then
                        now <- time_time ;;
                        ret (exceeds (PrimFloat.sub now start_time) run_timeout)
                      else ret false) ;;
          if expired then
            kill process ;;
            stderr_content <- err_file_read ;;
            ret (mkdict [("success", VBool false);
                         ("error", VStr ("time out" +:+ str_opt_int run_timeout
                                         +:+ "seconds. terminate now"));
                         ("stdout", VStr "");
                         ("stderr", VStr stderr_content);
                         ("returncode", VNone);
                         ("filepath", VStr abs_main)])
          else
            time_sleep 0.1%float ;;
            console_loop fuel' process run_timeout start_time abs_main
      end
  end.

Definition run_main_as_console_app (fuel : nat) (main_path : string)
    (run_timeout : option Z) : M dict :=
  abs_main <- os_path_abspath main_path ;;
  let cwd := dirname abs_main in
  process <- Popen abs_main cwd ;;
  start_time <- time_time ;;
  try_except
    (console_loop fuel process run_timeout start_time abs_main)
    (fun e =>
       if is_Exception e then
         Some (kill process ;;
               stderr_content <- err_file_read ;;
               ret (mkdict [("success", VBool false);
                            ("error", VStr (str_exn e));
                            ("stdout", VStr "");
                            ("stderr", VStr stderr_content);
                            ("returncode", VNone);
                            ("filepath", VStr abs_main)]))
       else None).

(** A freshly booted system: nothing runs, nothing listens. *)
Definition boot (cwd : string) (paths : list string) (sched : list (list event)) : world :=
  mkworld cwd paths [] [] [] 0%float [] None [] "" ∅ false None [] sched.

(** The signals of a trace, and the batches the poll loop drained. *)
Definition is_signal (c : oscall) : bool :=
  match c with
  | SigTerm _ | SigKill _ => true
  | _ => false
  end.

Definition signals (t : list oscall) : list oscall := filter is_signal t.

Fixpoint batches (t : list oscall) : list (list string) :=
  match t with
  | [] => []
  | Sliced _ lines :: rest => lines :: batches rest
  | _ :: rest => batches rest
  end.

(** A trace drains the list [out] from the cursor [c]: each batch sliced
    is the piece of [out] that starts at the cursor and has the length of
    the batch; each length read moves the cursor forward, to or beyond the
    end of the batch sliced just before ([pend] is the length of that
    batch), and not beyond the end of [out]. *)
Fixpoint drained_from (out : list string) (c pend : nat) (t : list oscall) : Prop :=
  match t with
  | [] => True
  | Sliced s lines :: rest =>
      pend = 0%nat /\ s = c
      /\ lines = firstn (length lines) (skipn c out)
      /\ drained_from out c (length lines) rest
  | Measured n :: rest =>
      (c + pend <= n)%nat /\ (n <= length out)%nat /\ drained_from out n 0 rest
  | _ :: rest => drained_from out c pend rest
  end.

(** No line is appended between a slice and the reading of the length
    that follows it: every length read is the cursor plus the batch. *)
Fixpoint reads_agree (c pend : nat) (t : list oscall) : Prop :=
  match t with
  | [] => True
  | Sliced s lines :: rest => reads_agree s (length lines) rest
  | Measured n :: rest => n = (c + pend)%nat /\ reads_agree n 0 rest
  | _ :: rest => reads_agree c pend rest
  end.

(** The batches the loop went on to scan: those whose slice is followed
    by the reading of the length (a tick cut by Ctrl+C between the two
    drops its batch unscanned). *)
Fixpoint scanned (t : list oscall) : list (list string) :=
  match t with
  | [] => []
  | Sliced _ lines :: rest =>
      match rest with
      | Measured _ :: _ => lines :: scanned rest
      | _ => scanned rest
      end
  | _ :: rest => scanned rest
  end.

(** No scanned batch of the trace holds the crash marker. *)
Definition clean (t : list oscall) : Prop :=
  Forall (fun lines => first_crash_index lines 0 = None) (scanned t).

(** ** The vocabulary of the statements *)

(** A computation keeps the relation [R] between the world it starts in
    and the world it ends in. *)
Definition preserves (R : world -> world -> Prop) {A} (m : M A) : Prop :=
  forall w, R w (snd (m w)).

(** A computation never runs out of steps. *)
Definition returns_or_raises {A} (m : M A) : Prop := forall w, fst (m w) <> NoFuel.

(** One round of the probe loop that finds the process alive and every
    candidate closed. *)
Definition closed_round (process : Z) : list oscall :=
  Polled process None
    :: map (fun p => Connected p false) default_ports ++ [Slept poll_interval].

(** The value of [waited] after [k] more rounds. *)
Fixpoint waited_after (k : nat) (waited : float) : float :=
  match k with
  | O => waited
  | S k' => waited_after k' (PrimFloat.add waited poll_interval)
  end.

(** What a returned [run_web_server] has done: the spawn, then [k] rounds
    that found the process alive and every candidate closed, then a poll
    that finds the process ended, or a round in which a candidate accepts,
    or nothing more once the window has elapsed. *)
Definition probe_outcome (filepath : string) (open_browser : bool) (max_wait : float)
    (w : world) (info : dict) (w' : world) : Prop :=
  exists process k,
    let rounds :=
      Spawned process (abspath (w_cwd w) filepath)
        :: concat (replicate k (closed_round process)) in
    (forall i, (i < k)%nat -> PrimFloat.ltb (waited_after i 0%float) max_wait = true)
    /\ ((exists c,
            info = mkdict [("success", VBool false);
                           ("error", VStr "Server exited unexpectedly");
                           ("process", VProc process);
                           ("output_lines", VLines)]
            /\ w_log w' = w_log w ++ rounds ++ [Polled process (Some c)])
        \/ (exists j p,
               default_ports !! j = Some p
               /\ info = mkdict [("success", VBool true);
                                 ("process", VProc process);
                                 ("url", VStr ("http://127.0.0.1:" +:+ str_int p));
                                 ("output_lines", VLines)]
               /\ w_log w' = w_log w ++ rounds
                               ++ Polled process None
                               :: map (fun q => Connected q false) (take j default_ports)
                               ++ Connected p true
                               :: (if open_browser
                                   then [BrowserOpened ("http://127.0.0.1:" +:+ str_int p)]
                                   else []))
        \/ (info = mkdict [("success", VBool false);
                           ("error", VStr "Server did not start in time");
                           ("process", VProc process);
                           ("output_lines", VLines)]
            /\ PrimFloat.ltb (waited_after k 0%float) max_wait = false
            /\ w_log w' = w_log w ++ rounds)).

(** Whether the timeout check of a tick lets the loop go on: there is no
    timeout, or the clock read at [w3] is not past it. [w4] is the world
    after the check. *)
Definition not_expired (run_timeout : option Z) (start_time : float) (w3 w4 : world) : Prop :=
  (truthy run_timeout = false /\ w4 = w3)
  \/ (truthy run_timeout = true
      /\ exists now,
           time_time w3 = (Ok now, w4)
           /\ exceeds (PrimFloat.sub now start_time) run_timeout = false).

(** The result of the supervisor after the terminator returned [rk]. *)
Definition after_kill (rk : res unit) (b : bool) : res bool :=
  match rk with
  | Ok _ => Ok b
  | Raise e => Raise e
  | NoFuel => NoFuel
  end.

(** The runs of [serve_loop] from the cursor [last_len] in the world [w]:
    one constructor for each way a tick can go. *)
Inductive serve_run (process : Z) (run_timeout : option Z) (start_time : float)
  : nat -> world -> res bool -> world -> Prop :=
| sr_out_of_steps last_len w :
    serve_run process run_timeout start_time last_len w NoFuel w
| sr_slice_raises last_len w e w' :
    output_lines_from last_len w = (Raise e, w') ->
    serve_run process run_timeout start_time last_len w (Raise e) w'
| sr_len_raises last_len w new_lines w1 e w' :
    output_lines_from last_len w = (Ok new_lines, w1) ->
    len_output_lines w1 = (Raise e, w') ->
    serve_run process run_timeout start_time last_len w (Raise e) w'
| sr_crash last_len w new_lines w1 n w2 i rk w' :
    output_lines_from last_len w = (Ok new_lines, w1) ->
    len_output_lines w1 = (Ok n, w2) ->
    first_crash_index new_lines 0 = Some i ->
    _kill_process_tree process
      (W.set_container (insert "server_error" (VStr (join nl (skipn i new_lines)))) w2)
    = (rk, w') ->
    serve_run process run_timeout start_time last_len w (after_kill rk false) w'
| sr_poll_raises last_len w new_lines w1 n w2 e w' :
    output_lines_from last_len w = (Ok new_lines, w1) ->
    len_output_lines w1 = (Ok n, w2) ->
    first_crash_index new_lines 0 = None ->
    poll process w2 = (Raise e, w') ->
    serve_run process run_timeout start_time last_len w (Raise e) w'
| sr_exited last_len w new_lines w1 n w2 c w3 :
    output_lines_from last_len w = (Ok new_lines, w1) ->
    len_output_lines w1 = (Ok n, w2) ->
    first_crash_index new_lines 0 = None ->
    poll process w2 = (Ok (Some c), w3) ->
    serve_run process run_timeout start_time last_len w (Ok false)
      (if has_key (w_container w3) "server_error" then w3
       else W.set_container (insert "server_error" (VStr "Web server stopped unexpectedly")) w3)
| sr_clock_raises last_len w new_lines w1 n w2 w3 e w' :
    output_lines_from last_len w = (Ok new_lines, w1) ->
    len_output_lines w1 = (Ok n, w2) ->
    first_crash_index new_lines 0 = None ->
    poll process w2 = (Ok None, w3) ->
    truthy run_timeout = true ->
    time_time w3 = (Raise e, w') ->
    serve_run process run_timeout start_time last_len w (Raise e) w'
| sr_timed_out last_len w new_lines w1 n w2 w3 now w4 rk w' :
    output_lines_from last_len w = (Ok new_lines, w1) ->
    len_output_lines w1 = (Ok n, w2) ->
    first_crash_index new_lines 0 = None ->
    poll process w2 = (Ok None, w3) ->
    truthy run_timeout = true ->
    time_time w3 = (Ok now, w4) ->
    exceeds (PrimFloat.sub now start_time) run_timeout = true ->
    _kill_process_tree process w4 = (rk, w') ->
    serve_run process run_timeout start_time last_len w (after_kill rk true) w'
| sr_sleep_raises last_len w new_lines w1 n w2 w3 w4 e w' :
    output_lines_from last_len w = (Ok new_lines, w1) ->
    len_output_lines w1 = (Ok n, w2) ->
    first_crash_index new_lines 0 = None ->
    poll process w2 = (Ok None, w3) ->
    not_expired run_timeout start_time w3 w4 ->
    time_sleep 1%float w4 = (Raise e, w') ->
    serve_run process run_timeout start_time last_len w (Raise e) w'
| sr_next_tick last_len w new_lines w1 n w2 w3 w4 w5 r w' :
    output_lines_from last_len w = (Ok new_lines, w1) ->
    len_output_lines w1 = (Ok n, w2) ->
    first_crash_index new_lines 0 = None ->
    poll process w2 = (Ok None, w3) ->
    not_expired run_timeout start_time w3 w4 ->
    time_sleep 1%float w4 = (Ok tt, w5) ->
    serve_run process run_timeout start_time n w5 r w' ->
    serve_run process run_timeout start_time last_len w r w'.

(** [k] ticks of the poll loop that end in its sleep, from the cursor [c]
    in the world [w] to the cursor [c'] in the world [w']: each of them
    scans no marker, finds the process running and the timeout not
    reached. *)
Inductive idle_ticks (process : Z) (run_timeout : option Z) (start_time : float)
  : nat -> nat -> world -> nat -> world -> Prop :=
| idle_none c w :
    idle_ticks process run_timeout start_time 0 c w c w
| idle_next k c w new_lines w1 n w2 w3 w4 w5 c' w' :
    output_lines_from c w = (Ok new_lines, w1) ->
    len_output_lines w1 = (Ok n, w2) ->
    first_crash_index new_lines 0 = None ->
    poll process w2 = (Ok None, w3) ->
    not_expired run_timeout start_time w3 w4 ->
    time_sleep 1%float w4 = (Ok tt, w5) ->
    idle_ticks process run_timeout start_time k n w5 c' w' ->
    idle_ticks process run_timeout start_time (S k) c w c' w'.

(** The shared list only grows. *)
Definition output_grows (w w' : world) : Prop := w_output w `prefix_of` w_output w'.

(** The shared list only grows and the dictionary is the same. *)
Definition untouched (w w' : world) : Prop :=
  output_grows w w' /\ w_container w' = w_container w.

(** The trace grows by calls that are [allowed]. *)
Definition grows_by (allowed : oscall -> bool) (w w' : world) : Prop :=
  exists t, w_log w' = w_log w ++ t /\ forallb allowed t = true.

Definition any_call (c : oscall) : bool := true.

Definition not_signal (c : oscall) : bool := negb (is_signal c).

Definition not_drain (c : oscall) : bool :=
  match c with
  | Sliced _ _ | Measured _ => false
  | _ => true
  end.

(** The calls of the tree terminator. *)
Definition is_kill_call (c : oscall) : bool :=
  match c with
  | Enumerated _ _ | SigTerm _ => true
  | _ => false
  end.

(** What [run_main_web_app] stores in the dictionary after the probe. *)
Definition store_server_info (info : dict) (d : dict) : dict :=
  <["server_url" := get info "url"]>
    (<["server_output" := get_or info "output_lines" (VList [])]>
       (<["server_process" := get info "process"]> d)).

(** Neither a drain nor a signal. *)
Definition quiet (c : oscall) : bool := not_drain c && not_signal c.

(** The call [run_main_web_app fuel main_path open_browser run_timeout rc]
    started in [w] is watching the server: it has spawned [process], found
    a port bound and stored the handle; its poll loop, begun at
    [start_time], has gone through [k] ticks and is about to begin the next
    one with the cursor [c] in the world [wa]. *)
Definition watching (fuel : nat) (main_path : string) (open_browser : bool)
    (run_timeout : option Z) (rc : option dict) (w : world)
    (process : Z) (start_time : float) (k c : nat) (wa : world) : Prop :=
  exists info w1 w2,
    run_web_server fuel main_path open_browser max_wait_default
      (W.set_container (fun _ => default ∅ rc) w) = (Ok info, w1)
    /\ as_bool (get info "success") = true
    /\ get info "process" = VProc process
    /\ time_time (W.set_container (store_server_info info) w1) = (Ok start_time, w2)
    /\ idle_ticks process run_timeout start_time k 0 w2 c wa
    /\ (k < fuel)%nat.


(** What a call of the tree terminator on [proc] adds to the trace:
    nothing, when the process is not found at the start; otherwise the
    listing of the descendants and SIGTERMs to the first [j] of "the
    descendants listed, then the process". *)
Definition terminator_trace (proc : Z) (t : list oscall) : Prop :=
  t = []
  \/ exists cs j,
       (j <= length cs + 1)%nat
       /\ t = Enumerated proc cs :: map SigTerm (take j (cs ++ [proc])).

(** The tick that begins with the cursor [c] in the world [wa] finds the
    crash marker: it drains the batch [lines], whose first line with the
    marker is at index [i], records the diagnostic and calls the tree
    terminator, which ends with [rk] in the world [wk]. *)
Definition crash_tick (process : Z) (c : nat) (wa : world) (lines : list string) (i : nat)
    (rk : res unit) (wk : world) : Prop :=
  exists w1 n w2,
    output_lines_from c wa = (Ok lines, w1)
    /\ len_output_lines w1 = (Ok n, w2)
    /\ first_crash_index lines 0 = Some i
    /\ _kill_process_tree process
         (W.set_container (insert "server_error" (VStr (join nl (skipn i lines)))) w2)
       = (rk, wk).


(** How the call ends once the terminator, called from the poll loop,
    has ended with [rk] in the world [wk]: [b] is returned when the
    terminator returned; a refusal goes to the caller; a Ctrl+C taken
    inside the terminator goes to the handler of the call. *)
Definition after_terminator (process : Z) (rk : res unit) (wk : world) (b : bool)
    (r : res bool) (w' : world) : Prop :=
  (rk = Ok tt /\ r = Ok b /\ w' = wk)
  \/ (exists q, rk = Raise (AccessDenied q) /\ r = Raise (AccessDenied q) /\ w' = wk)
  \/ (rk = Raise KeyboardInterrupt /\ on_interrupt process wk = (r, w')).




(** The outcome of the call [run_main_web_app fuel main_path open_browser
    run_timeout rc] started in [w], whose dictionary starts without a
    ["server_error"], with the trace [t] of the call: the probe reported a
    failure; or the poll loop recorded a crash, in a tick of this call, and
    called the terminator; or no marker was scanned, and then a failure is
    reported only for a process found ended. *)
Definition run_outcome (fuel : nat) (main_path : string) (open_browser : bool)
    (run_timeout : option Z) (rc : option dict) (w : world)
    (t : list oscall) (r : res bool) (w' : world) : Prop :=
  (* the probe failed *)
  (r = Ok false /\ scanned t = [] /\ forallb not_signal t = true
   /\ exists process msg,
        (msg = "Server exited unexpectedly" \/ msg = "Server did not start in time")
        /\ w_container w' !! "server_error" = Some (VStr msg)
        /\ w_container w' !! "server_process" = Some (VProc process))
  (* a crash was recorded *)
  \/ (exists process s0 lines i start_time k c wa rk wk t0 tk t1,
         scanned t = s0 ++ [lines]
         /\ Forall (fun l => first_crash_index l 0 = None) s0
         /\ first_crash_index lines 0 = Some i
         /\ w_container w' !! "server_error" = Some (VStr (join nl (skipn i lines)))
         /\ w_container w' !! "server_process" = Some (VProc process)
         /\ watching fuel main_path open_browser run_timeout rc w process start_time k c wa
         /\ crash_tick process c wa lines i rk wk
         /\ after_terminator process rk wk false r w'
         /\ t = t0 ++ tk ++ t1
         /\ forallb not_signal t0 = true
         /\ terminator_trace process tk
         /\ (rk <> Raise KeyboardInterrupt -> t1 = []))
  (* no marker was scanned *)
  \/ (clean t
      /\ ((r = Ok false /\ forallb not_signal t = true
           /\ exists process,
                w_container w' !! "server_error"
                = Some (VStr "Web server stopped unexpectedly")
                /\ w_container w' !! "server_process" = Some (VProc process))
          \/ r <> Ok false)).

(** The dictionary is the same. *)
Definition same_container (w w' : world) : Prop := w_container w' = w_container w.

(** ** Concrete systems *)

Module Scenario.

(** A system in which the processes of [tbl] run. *)
Definition with_procs (tbl : list proc) (sched : list (list event)) : world :=
  mkworld "/" [] tbl [] [] 0%float [] None [] "" ∅ false None [] sched.

(** A server (pid 2, our child) with two workers. *)
Definition family : list proc :=
  [mkproc 2 0 Running false;
   mkproc 3 2 Running false;
   mkproc 4 2 Running false].

(** The server binds port 8000 while the reader thread is started. *)
Definition binds_8000 : world :=
  boot "/" ["/app"] [[]; [EvListen 8000]].

(** The server binds port 5000 at once, prints nothing while it is
    watched, then prints "bye" and ends between the drain and the poll of
    the first tick. One batch of the schedule for each operation: the
    spawn, the start of the thread, the poll and the connect of the probe,
    the clock, the slice, the length, the poll. *)
Definition last_words : world :=
  boot "/" ["/app"]
    [[]; []; [EvListen 5000]; []; []; []; [];
     [EvWrite ("bye" +:+ nl); EvRead; EvExit 2 0]].

(** The server prints "hello" before the first drain and "world" before
    the second, and ends before the second poll. *)
Definition two_lines : world :=
  boot "/" ["/app"]
    [[]; []; [EvListen 5000]; []; [];
     [EvWrite ("hello" +:+ nl); EvRead]; []; []; [];
     [EvWrite ("world" +:+ nl); EvRead]; []; [EvExit 2 0]].

(** The server binds port 5000, prints a greeting and then a traceback of
    two lines, all before the first drain. *)
Definition crashes : world :=
  boot "/" ["/app"]
    [[]; []; [EvListen 5000]; []; [];
     [EvWrite ("hello" +:+ nl); EvRead;
      EvWrite ("Traceback (most recent call last):" +:+ nl); EvRead;
      EvWrite ("ZeroDivisionError: division by zero" +:+ nl); EvRead]].

(** The server prints a traceback and ends before it binds any port. *)
Definition crashes_at_start : world :=
  boot "/" ["/app"]
    [[]; [];
     [EvWrite ("Traceback (most recent call last):" +:+ nl); EvRead; EvExit 2 1]].

(** The server never binds a port and never ends. *)
Definition never_binds : world := boot "/" ["/app"] [].


(** The same server with two workers it forked at once. The first worker
    ends, and the server collects its code, after the terminator has listed
    the workers and before it signals the first. The three batches after
    the clock are for the look-up of the process, the listing and the first
    [terminate()]. *)
Definition overdue_family : world :=
  boot "/" ["/app"]
    [[]; [EvFork 2 3 false; EvFork 2 4 false]; [EvListen 5000]; []; []; []; []; [];
     [EvClock 7%float]; []; []; [EvExit 3 0; EvReap 3]].



(** The directory of the entry file exists, the entry file does not: the
    interpreter that is spawned complains and ends with code 2. One batch
    for the spawn, the clock, the poll. *)
Definition missing_entry : world :=
  boot "/" ["/app"]
    [[]; []; [EvStderr "can't open file '/app/main.py'"; EvExit 2 2]].


(** The process handle is invalid at the first poll of the console
    supervisor, and again when the handler calls [process.kill()]. One
    batch for the spawn, the clock, the poll, the kill. *)
Definition console_double_fault : world :=
  boot "/" ["/app"; "/app/main.py"]
    [[]; []; [EvFault "handle is invalid"]; [EvFault "handle is invalid again"]].


End Scenario.

(** ** The reader thread, round after round *)

(** What the reader appends for the raw lines [raw] it reads: each line
    that is not empty, stripped, in the order of the reads. *)
Definition captured (raw : list string) : list string :=
  map rstrip (List.filter (fun line => negb (String.eqb line "")) raw).

(** The raw lines read before the first empty read, and those left in
    the pipe after it. *)
Fixpoint before_empty (raw : list string) : list string :=
  match raw with
  | [] => []
  | line :: rest => if String.eqb line "" then [] else line :: before_empty rest
  end.

Fixpoint after_empty (raw : list string) : list string :=
  match raw with
  | [] => []
  | line :: rest => if String.eqb line "" then rest else after_empty rest
  end.

(** The process has ended, whether its code has been collected or not. *)
Definition has_ended (tbl : list proc) (pid : Z) : bool :=
  match find_proc tbl pid with
  | Some p => negb (proc_running p)
  | None => false
  end.

(** [n] rounds of the loop of the reader thread. *)
Fixpoint read_rounds (n : nat) (w : world) : world :=
  match n with
  | O => w
  | S n' => read_rounds n' (read_output w)
  end.

(** A line that [rstrip] leaves as it is. *)
Definition stripped (line : string) : Prop := rstrip line = line.

(** The lines of the shared list stay stripped from one world to the
    next. *)
Definition keeps_stripped (w w' : world) : Prop :=
  Forall stripped (w_output w) -> Forall stripped (w_output w').

(** ** The process table, process by process *)

(** What the table says of a process: its state, and whether it refuses
    signals. *)
Definition view (tbl : list proc) (pid : Z) : option (pstate * bool) :=
  option_map (fun p => (p_state p, p_denied p)) (find_proc tbl pid).

(** The process is in the system and takes signals. *)
Definition signalable (tbl : list proc) (pid : Z) : Prop :=
  pid_exists tbl pid = true /\ exists s, view tbl pid = Some (s, false).

(** The process is in the system and refuses signals. *)
Definition refuses (tbl : list proc) (pid : Z) : Prop :=
  pid_exists tbl pid = true /\ exists s, view tbl pid = Some (s, true).

(** The table knows the process; the code of the process has been
    collected. *)
Definition known (tbl : list proc) (pid : Z) : Prop := is_Some (find_proc tbl pid).

Definition ended (tbl : list proc) (pid : Z) : Prop :=
  exists c, returncode tbl pid = Some c.

(** The environment is at rest: nothing is scheduled and no Ctrl+C is
    pending. *)
Definition at_rest (w : world) : Prop := w_sched w = [] /\ w_sigint w = false.

(** ** One tick of a supervisor *)

(** The check of the timeout of one tick, in the console loop and in the
    service loop. *)
Definition expiry_check (run_timeout : option Z) (start_time : float) : M bool :=
  if truthy run_timeout then
    now <- time_time ;;
    ret (exceeds (PrimFloat.sub now start_time) run_timeout)
  else ret false.

(** ** The result records of the console supervisor *)

(** The record for a process found ended with the code [r]. *)
Definition console_exited (abs_main : string) (r : Z) (stderr_content : string) : dict :=
  mkdict [("success", VBool (r =? 0));
          ("returncode", VInt r);
          ("stdout", VStr "");
          ("stderr", VStr stderr_content);
          ("error", if r =? 0 then VNone else VStr "failed to run");
          ("filepath", VStr abs_main)].

(** The record for a run stopped at its timeout. *)
Definition console_timed_out (abs_main : string) (run_timeout : option Z)
    (stderr_content : string) : dict :=
  mkdict [("success", VBool false);
          ("error", VStr ("time out" +:+ str_opt_int run_timeout
                          +:+ "seconds. terminate now"));
          ("stdout", VStr "");
          ("stderr", VStr stderr_content);
          ("returncode", VNone);
          ("filepath", VStr abs_main)].

(** The record for a run cut short by the exception [e]. *)
Definition console_failed (abs_main : string) (e : exn) (stderr_content : string) : dict :=
  mkdict [("success", VBool false);
          ("error", VStr (str_exn e));
          ("stdout", VStr "");
          ("stderr", VStr stderr_content);
          ("returncode", VNone);
          ("filepath", VStr abs_main)].

(** A trace that sends at most one signal, a SIGKILL to [process] at its
    very end. *)
Definition at_most_a_kill (process : Z) (t : list oscall) : Prop :=
  exists t0, forallb not_signal t0 = true /\ (t = t0 ++ [SigKill process] \/ t = t0).

(** ** The result records of [execute_python_code] *)

Definition exec_not_found (abs_filepath : string) : dict :=
  mkdict [("success", VBool false);
          ("error", VStr ("file not found " +:+ abs_filepath))].

(** The record for a child that ended by itself with the code [c]. *)
Definition exec_finished (abs_filepath : string) (c : Z) (out : string * string) : dict :=
  mkdict [("success", VBool (bool_decide (Some c = Some 0)));
          ("stdout", VStr (fst out));
          ("stderr", VStr (snd out));
          ("returncode", VInt c);
          ("filepath", VStr abs_filepath)].

(** The record for a child killed at the timeout, reaped with the code
    [c]. *)
Definition exec_timed_out (abs_filepath : string) (timeout : option Z) (c : Z)
    (out : string * string) : dict :=
  mkdict [("success", VBool false);
          ("error", VStr ("timeout " +:+ str_opt_int timeout +:+ " seconds"));
          ("stdout", VStr (fst out));
          ("stderr", VStr (snd out));
          ("returncode", VInt c);
          ("filepath", VStr abs_filepath)].

(** The record for an [Exception]; it carries the path as it was given. *)
Definition exec_exception (filepath : string) (e : exn) : dict :=
  mkdict [("success", VBool false);
          ("error", VStr ("Execution exception: " +:+ str_exn e));
          ("stdout", VStr "");
          ("stderr", VStr (format_exc e));
          ("filepath", VStr filepath)].

(** ** Runs nobody interrupts *)

Definition is_sigint (e : event) : bool :=
  match e with
  | EvSigint => true
  | _ => false
  end.

(** No Ctrl+C is pending and none is to come. *)
Definition calm (w : world) : Prop :=
  w_sigint w = false /\ Forall (fun evs => existsb is_sigint evs = false) (w_sched w).

(** A computation that, started in a calm world, ends in a calm world
    and does not raise [KeyboardInterrupt]. *)
Definition uninterrupted {A} (m : M A) : Prop :=
  forall w, calm w -> calm (snd (m w)) /\ fst (m w) <> Raise KeyboardInterrupt.

(** ** agent.py *)

(** The truth value of a Python value ([if v:], [not v], [a or b]); that
    of the shared list is whether it holds a line. *)
Definition truth_of (out : list string) (v : pyval) : bool :=
  match v with
  | VNone => false
  | VBool b => b
  | VInt n => negb (n =? 0)
  | VStr s => negb (String.eqb s "")
  | VProc _ => true
  | VList l => match l with [] => false | _ => true end
  | VLines => match out with [] => false | _ => true end
  end.

Definition truth (v : pyval) : M bool :=
  fun w => (Ok (truth_of (w_output w) v), w).

(** [result_container.get(k, dflt)]. *)
Definition container_get (k : string) (dflt : pyval) : M pyval :=
  fun w => (Ok (get_or (w_container w) k dflt), w).

(** The exceptions that the expressions of [run_project] itself can
    raise; nothing in [run_project] catches them. *)
Inductive own_exn :=
| TypeError
| AttributeError
| KeyError (key : string).

(** A step that may raise one of them, followed by the rest. *)
Definition and_then {A B} (m : M (own_exn + A)) (k : A -> M (own_exn + B))
  : M (own_exn + B) :=
  r <- m ;;
  match r with
  | inl e => ret (inl e)
  | inr a => k a
  end.

(** [if server_process and server_process.poll() is None:
        _kill_process_tree(server_process)]. *)
Definition cleanup (server_process : pyval) : M (own_exn + unit) :=
  alive <- truth server_process ;;
  if alive then
    match server_process with
    | VProc process =>
        code <- poll process ;;
        match code with
        | None => _kill_process_tree process ;; ret (inr tt)
        | Some _ => ret (inr tt)
        end
    | _ => ret (inl AttributeError)
    end
  else ret (inr tt).

(** The running method: [is_web_app], or by default whether the project
    type is ["web"]. *)
Definition run_as_web (result : dict) (is_web_app : option bool) : bool :=
  match is_web_app with
  | None =>
      match get_or result "project_type" (VStr "python") with
      | VStr s => String.eqb s "web"
      | _ => false
      end
  | Some b => b
  end.

Definition run_succeeded : dict := mkdict [("success", VBool true)].

Definition run_failed (result : dict) (error_message : pyval) : dict :=
  mkdict [("success", VBool false);
          ("error", error_message);
          ("project_root", get_or result "project_root" (VStr ""));
          ("project_folder_name", get_or result "project_folder_name" (VStr ""))].

(** [run_project], without what it prints. The first stage runs the
    project and yields [server_process] and [error_message]; the second is
    the final clean up and the return. [DEFAULT_TIMEOUT] comes from the
    configuration: [run_timeout] is always given here. *)
Definition run_project (fuel : nat) (result : dict) (run_main : bool)
    (is_web_app open_browser : option bool) (run_timeout : option Z)
  : M (own_exn + dict) :=
  let open_browser_effective := default (run_as_web result is_web_app) open_browser in
  and_then
    (if run_main then
       match get result "project_root" with
       | VStr root =>
           let main_path := root +:+ "/main.py" in
           if negb (truth_of [] (VStr main_path)) (* [if not main_path] *) then
             ret (inr (VNone, VStr "can't find main.py"))
           else if run_as_web result is_web_app then
             web_app_success <- run_main_web_app fuel main_path open_browser_effective
                                  run_timeout (Some ∅) ;;
             recorded <- in_container "server_error" ;;
             let failed := negb web_app_success || recorded in
             error_message <- (if failed
                               then container_get "server_error"
                                      (VStr "failed to run web server")
                               else ret VNone) ;;
             server_process <- container_get "server_process" VNone ;;
             and_then (if failed then cleanup server_process else ret (inr tt))
               (fun _ => ret (inr (server_process, error_message)))
           else
             console_result <- run_main_as_console_app fuel main_path run_timeout ;;
             match console_result !! "success" with
             | None => ret (inl (KeyError "success"))
             | Some success =>
                 ok <- truth success ;;
                 if ok then ret (inr (VNone, VNone))
                 else
                   has_stderr <- truth (get console_result "stderr") ;;
                   ret (inr (VNone,
                             if has_stderr then get console_result "stderr"
                             else get_or console_result "error" (VStr "failed to run")))
             end
       | _ => ret (inl TypeError)
       end
     else ret (inr (VNone, VNone)))
    (fun state =>
       let server_process := fst state in
       let error_message := snd state in
       and_then (cleanup server_process)
         (fun _ =>
            failed <- truth error_message ;;
            if failed then ret (inr (run_failed result error_message))
            else ret (inr run_succeeded))).

(** What the clean up adds to the trace when it meets the handle of
    [process]: a poll that finds the process ended, or a poll that finds
    it running and then the calls of the tree terminator. *)
Definition liveness_check (process : Z) (t : list oscall) : Prop :=
  (exists c, t = [Polled process (Some c)])
  \/ (exists k, t = Polled process None :: k /\ forallb is_kill_call k = true).

(** ** More concrete systems *)

Module Stage.

(** The reader thread is attached to process 2, which runs, and four raw
    lines wait in the pipe: a line with blanks at its end, an empty read,
    a bare newline, and a last line without a newline. *)
Definition chatty : world :=
  mkworld "/" [] [mkproc 2 0 Running false] [] [] 0%float
    ["ready   " +:+ nl; ""; nl; "done"] (Some 2) ["boot"] "" ∅ false None [] [].

(** The same, the process having ended. *)
Definition last_words : world :=
  mkworld "/" [] [mkproc 2 0 (Exited 0) false] [] [] 0%float
    ["ready   " +:+ nl; ""; nl; "done"] (Some 2) ["boot"] "" ∅ false None [] [].

(** The server binds port 5000, prints "hello" and "world" with blanks
    at the end of the lines, one before each of the first two drains, and
    ends before the second poll. *)
Definition trailing_blanks : world :=
  boot "/" ["/app"]
    [[]; []; [EvListen 5000]; []; [];
     [EvWrite ("hello   " +:+ nl); EvRead]; []; []; [];
     [EvWrite ("world " +:+ nl); EvRead]; []; [EvExit 2 0]].


(** A script that prints "tick" and hangs; two seconds go by while
    [communicate] waits, and the script dies of the SIGKILL while the
    second [communicate] waits. One batch for the existence test, the
    spawn, the first wait, the kill, the second wait. *)
Definition script_hangs : world :=
  boot "/" ["/app"; "/app/main.py"]
    [[]; []; [EvWrite "tick"; EvClock 2%float]; []; [EvExit 2 (-9)]].

(** The server binds port 5000; the user presses Ctrl+C before the first
    drain. One batch for the spawn, the start of the thread, the poll and
    the connect of the probe, the clock, the slice. *)
Definition interrupted : world :=
  boot "/" ["/app"] [[]; []; [EvListen 5000]; []; []; [EvSigint]].

(** Somebody starts to accept on port 5000 just before the server is
    spawned. *)
Definition already_listening : world := boot "/" ["/app"] [[EvListen 5000]].

(** Somebody accepts on port 5000 from the start, and nothing else
    happens. *)
Definition port_in_use : world :=
  mkworld "/" ["/app"] [] [5000] [] 0%float [] None [] "" ∅ false None [] [].

(** The handle of the console program becomes invalid before the first
    poll, with an exception that has no text. *)
Definition silent_fault : world :=
  boot "/" ["/app"; "/app/main.py"] [[]; []; [EvFault ""]].

(** A server with two workers, the first of which refuses signals. *)
Definition guarded_family : world :=
  Scenario.with_procs
    [mkproc 2 0 Running false;
     mkproc 3 2 Running true;
     mkproc 4 2 Running false] [].

(** The records the generator hands to [run_project]. *)
Definition web_project : dict :=
  mkdict [("project_root", VStr "/app");
          ("project_folder_name", VStr "app");
          ("project_type", VStr "web")].

Definition console_project : dict :=
  mkdict [("project_root", VStr "/app");
          ("project_folder_name", VStr "app");
          ("project_type", VStr "python")].

(** The record the generator returns when it could not create the
    project. *)
Definition failed_creation : dict :=
  mkdict [("success", VBool false);
          ("stage", VStr "creation");
          ("error", VStr "failed to create project")].

End Stage.

(** ** The helpers, on examples *)

Example dirname_examples :
  dirname "/app/main.py" = "/app"
  /\ dirname "main.py" = ""
  /\ dirname "/main.py" = "/"
  /\ dirname "/srv//app/main.py" = "/srv//app"
  /\ dirname "out/" = "out".
Proof. repeat split. Qed.

Example abspath_examples :
  abspath "/work" "main.py" = "/work/main.py"
  /\ abspath "/" "main.py" = "/main.py"
  /\ abspath "/work" "/app/main.py" = "/app/main.py"
  /\ abspath "/work" "sub/../x.py" = "/work/x.py"
  /\ abspath "/work" "./app/missing.py" = "/work/app/missing.py"
  /\ abspath "/work" "../../.." = "/"
  /\ abspath "/work" "a//b/" = "/work/a/b"
  /\ abspath "/work" "" = "/work".
Proof. vm_compute. repeat split. Qed.

Example contains_examples :
  contains crash_marker "  Traceback (most recent call last):" = true
  /\ contains crash_marker "Traceback (most recent call first)" = false
  /\ contains "" "" = true.
Proof. repeat split. Qed.

Example rstrip_examples :
  rstrip ("listening  " +:+ nl) = "listening"
  /\ rstrip "  a b" = "  a b"
  /\ rstrip "   " = "".
Proof. repeat split. Qed.

Example str_examples :
  str_int 8000 = "8000" /\ str_int 0 = "0" /\ str_int (-15) = "-15"
  /\ str_opt_int None = "None"
  /\ join nl ["a"; "b"] = "a" +:+ nl +:+ "b".
Proof. repeat split. Qed.

Example truthy_examples :
  truthy None = false /\ truthy (Some 0) = false /\ truthy (Some 30) = true
  /\ truthy (Some (-1)) = true.
Proof. repeat split. Qed.

(** ** Reasoning about computations *)

Section Monad_facts.

Context {A B : Type}.

Lemma bind_ok (m : M A) (k : A -> M B) w a w1 :
  m w = (Ok a, w1) -> bind m k w = k a w1.
Proof. intros H. unfold bind. now rewrite H. Qed.


Lemma bind_nofuel (m : M A) (k : A -> M B) w w1 :
  m w = (NoFuel, w1) -> bind m k w = (NoFuel, w1).
Proof. intros H. unfold bind. now rewrite H. Qed.

Lemma bind_ret_l (a : A) (k : A -> M B) w : bind (ret a) k w = k a w.
Proof. reflexivity. Qed.

Lemma bind_ext (m : M A) (k1 k2 : A -> M B) w :
  (forall a w1, k1 a w1 = k2 a w1) -> bind m k1 w = bind m k2 w.
Proof. intros H. unfold bind. destruct (m w) as [[a | e |] w1]; auto. Qed.

Lemma bind_ok_inv (m : M A) (k : A -> M B) w b w' :
  bind m k w = (Ok b, w') ->
  exists a w1, m w = (Ok a, w1) /\ k a w1 = (Ok b, w').
Proof.
  unfold bind. destruct (m w) as [[a | e |] w1]; intros H; try discriminate.
  now exists a, w1.
Qed.

End Monad_facts.

Lemma try_except_ext {A} (b1 b2 : M A) (h : exn -> option (M A)) w :
  b1 w = b2 w -> try_except b1 h w = try_except b2 h w.
Proof. intros H. unfold try_except. now rewrite H. Qed.

(** *** Relations every step of a computation keeps *)

Section Preserves.

Variable R : world -> world -> Prop.
Hypothesis R_refl : forall w, R w w.
Hypothesis R_trans : forall w1 w2 w3, R w1 w2 -> R w2 w3 -> R w1 w3.

Lemma preserves_ret {A} (a : A) : preserves R (ret a).
Proof. intros w. apply R_refl. Qed.

Lemma preserves_raise {A} (e : exn) : preserves R (@raise A e).
Proof. intros w. apply R_refl. Qed.

Lemma preserves_out_of_fuel {A} : preserves R (@out_of_fuel A).
Proof. intros w. apply R_refl. Qed.

Lemma preserves_bind {A B} (m : M A) (k : A -> M B) :
  preserves R m -> (forall a, preserves R (k a)) -> preserves R (bind m k).
Proof.
  intros Hm Hk w. unfold bind. specialize (Hm w).
  destruct (m w) as [[a | e |] w1]; simpl in *; auto.
  eapply R_trans; [exact Hm | apply Hk].
Qed.

Lemma preserves_try_except {A} (body : M A) (handler : exn -> option (M A)) :
  preserves R body ->
  (forall e h, handler e = Some h -> preserves R h) ->
  preserves R (try_except body handler).
Proof.
  intros Hb Hh w. unfold try_except. specialize (Hb w).
  destruct (body w) as [[a | e |] w1]; simpl in *; auto.
  destruct (handler e) as [h |] eqn:E; simpl; auto.
  eapply R_trans; [exact Hb | eapply Hh; eauto].
Qed.

Lemma preserves_for_each {A} (l : list A) (body : A -> M unit) :
  (forall x, preserves R (body x)) -> preserves R (for_each l body).
Proof.
  intros Hb. induction l as [| x l IH]; simpl.
  - apply preserves_ret.
  - apply preserves_bind; auto.
Qed.

Lemma preserves_if {A} (b : bool) (m1 m2 : M A) :
  preserves R m1 -> preserves R m2 -> preserves R (if b then m1 else m2).
Proof. destruct b; auto. Qed.

(** [R] holds between two worlds with the same shared list and the same
    result dictionary, the trace of the second extending that of the
    first by calls that are [allowed]; and every move of the environment
    keeps it. *)
Variable allowed : oscall -> bool.

Hypothesis R_same :
  forall w w',
    w_output w' = w_output w -> w_container w' = w_container w ->
    (exists t, w_log w' = w_log w ++ t /\ forallb allowed t = true) ->
    R w w'.
Hypothesis R_event : forall e w, R w (apply_event e w).

Hypothesis allowed_Spawned : forall pid script, allowed (Spawned pid script) = true.
Hypothesis allowed_Polled : forall pid code, allowed (Polled pid code) = true.
Hypothesis allowed_Connected : forall port ok, allowed (Connected port ok) = true.
Hypothesis allowed_Slept : forall secs, allowed (Slept secs) = true.
Hypothesis allowed_Sliced : forall c lines, allowed (Sliced c lines) = true.
Hypothesis allowed_Measured : forall n, allowed (Measured n) = true.
Hypothesis allowed_Enumerated : forall pid cs, allowed (Enumerated pid cs) = true.
Hypothesis allowed_SigTerm : forall pid, allowed (SigTerm pid) = true.
Hypothesis allowed_SigKill : forall pid, allowed (SigKill pid) = true.
Hypothesis allowed_BrowserOpened : forall url, allowed (BrowserOpened url) = true.

Lemma R_apply_events evs w : R w (apply_events evs w).
Proof.
  revert w. induction evs as [| e evs IH]; intros w; simpl.
  - apply R_refl.
  - eapply R_trans; [apply R_event | apply IH].
Qed.

Lemma preserves_env_step : preserves R env_step.
Proof.
  intros w. unfold env_step.
  set (w1 := match w_sched w with [] => w | evs :: rest => _ end).
  assert (H1 : R w w1).
  { subst w1. destruct (w_sched w) as [| evs rest]; [apply R_refl |].
    eapply R_trans; [| apply R_apply_events].
    apply R_same; auto. exists []. simpl. now rewrite app_nil_r. }
  destruct (w_sigint w1); simpl; auto.
  eapply R_trans; [exact H1 |].
  apply R_same; auto. exists []. simpl. now rewrite app_nil_r.
Qed.

Lemma preserves_prim {A} (op : M A) : preserves R op -> preserves R (prim op).
Proof. intros H. apply preserves_bind; [apply preserves_env_step | auto]. Qed.

(** An operation that touches neither the list nor the dictionary. *)
Lemma preserves_same {A} (op : M A) :
  (forall w, w_output (snd (op w)) = w_output w
             /\ w_container (snd (op w)) = w_container w
             /\ exists t, w_log (snd (op w)) = w_log w ++ t /\ forallb allowed t = true) ->
  preserves R op.
Proof. intros H w. destruct (H w) as (? & ? & ?). now apply R_same. Qed.

Ltac same_world :=
  simpl; split; [reflexivity |]; split; [reflexivity |];
  first [ exists []; split; [simpl; symmetry; apply app_nil_r | reflexivity]
        | eexists; split; [reflexivity |]; simpl;
          rewrite ?allowed_Spawned, ?allowed_Polled, ?allowed_Connected, ?allowed_Slept,
            ?allowed_Sliced, ?allowed_Measured, ?allowed_Enumerated, ?allowed_SigTerm,
            ?allowed_SigKill, ?allowed_BrowserOpened; reflexivity ].

Lemma preserves_use_handle : preserves R use_handle.
Proof.
  apply preserves_same. intros w. unfold use_handle. destruct (w_fault w); same_world.
Qed.

Lemma preserves_poll process : preserves R (poll process).
Proof.
  apply preserves_prim, preserves_bind; [apply preserves_use_handle |].
  intros _. apply preserves_same. intros w. same_world.
Qed.

Lemma preserves_kill process : preserves R (kill process).
Proof.
  apply preserves_prim, preserves_bind; [apply preserves_use_handle |].
  intros _. apply preserves_same. intros w. cbv zeta.
  destruct (is_running _ process); same_world.
Qed.

Lemma preserves_Popen script cwd : preserves R (Popen script cwd).
Proof.
  apply preserves_prim, preserves_same. intros w.
  destruct (existsb _ _); same_world.
Qed.

Lemma preserves_time_time : preserves R time_time.
Proof. apply preserves_prim, preserves_same. intros w. same_world. Qed.

Lemma preserves_time_sleep secs : preserves R (time_sleep secs).
Proof. apply preserves_prim, preserves_same. intros w. same_world. Qed.

Lemma preserves_err_file_read : preserves R err_file_read.
Proof. apply preserves_prim, preserves_same. intros w. same_world. Qed.

Lemma preserves_os_path_exists p : preserves R (os_path_exists p).
Proof. apply preserves_prim, preserves_same. intros w. same_world. Qed.

Lemma preserves_thread_start process : preserves R (thread_start process).
Proof. apply preserves_prim, preserves_same. intros w. same_world. Qed.

Lemma preserves_output_lines_from n : preserves R (output_lines_from n).
Proof. apply preserves_prim, preserves_same. intros w. same_world. Qed.

Lemma preserves_len_output_lines : preserves R len_output_lines.
Proof. apply preserves_prim, preserves_same. intros w. same_world. Qed.

Lemma preserves_psutil_terminate pid : preserves R (psutil_terminate pid).
Proof.
  apply preserves_prim, preserves_same. intros w.
  destruct (find_proc (w_procs w) pid) as [p |]; [| same_world].
  destruct (negb (proc_present p)); [same_world |].
  destruct (p_denied p); same_world.
Qed.

Lemma preserves_kill_process_tree proc : preserves R (_kill_process_tree proc).
Proof.
  apply preserves_try_except.
  - apply preserves_bind.
    { apply preserves_prim, preserves_same. intros w.
      destruct (pid_exists (w_procs w) proc); same_world. }
    intros parent. apply preserves_bind.
    { apply preserves_prim, preserves_same. intros w.
      destruct (pid_exists (w_procs w) parent); same_world. }
    intros children. apply preserves_bind.
    + apply preserves_for_each. intros x. apply preserves_psutil_terminate.
    + intros _. apply preserves_psutil_terminate.
  - intros e h. destruct e; try discriminate. intros [= <-]. apply preserves_ret.
Qed.

Lemma preserves_is_port_open host port : preserves R (_is_port_open host port).
Proof.
  apply preserves_try_except.
  - apply preserves_bind; [| intros; apply preserves_ret].
    apply preserves_prim, preserves_same. intros w. destruct (accepts _ _ _); same_world.
  - intros e h. destruct (is_Exception e); [| discriminate].
    intros [= <-]. apply preserves_ret.
Qed.

Lemma preserves_probe_ports ports : preserves R (probe_ports ports).
Proof.
  induction ports as [| p ports IH]; simpl; [apply preserves_ret |].
  apply preserves_bind; [apply preserves_is_port_open |].
  intros [|]; [apply preserves_ret | exact IH].
Qed.

Lemma preserves_open_browser url open_browser :
  preserves R (_open_browser_if_needed url open_browser).
Proof.
  unfold _open_browser_if_needed. destruct open_browser; [| apply preserves_ret].
  apply preserves_try_except.
  - apply preserves_prim, preserves_same. intros w. same_world.
  - intros e h. destruct (is_Exception e); [| discriminate].
    intros [= <-]. apply preserves_ret.
Qed.

Lemma preserves_wait_for_port fuel process max_wait :
  forall waited, preserves R (wait_for_port fuel process waited max_wait).
Proof.
  induction fuel as [| fuel IH]; intros waited; cbn [wait_for_port].
  - apply preserves_out_of_fuel.
  - destruct (PrimFloat.ltb waited max_wait); [| apply preserves_ret].
    apply preserves_bind; [apply preserves_poll |].
    intros [c |]; [apply preserves_ret |].
    apply preserves_bind; [apply preserves_probe_ports |].
    intros [url |]; [apply preserves_ret |].
    apply preserves_bind; [apply preserves_time_sleep | intros _; apply IH].
Qed.

(** The console supervisor touches neither the list nor the dictionary. *)
Lemma preserves_console_loop fuel process run_timeout start_time abs_main :
  preserves R (console_loop fuel process run_timeout start_time abs_main).
Proof.
  induction fuel as [| fuel IH]; cbn [console_loop].
  - apply preserves_out_of_fuel.
  - apply preserves_bind; [apply preserves_poll |].
    intros [r |].
    + apply preserves_bind; [apply preserves_err_file_read | intros; apply preserves_ret].
    + apply preserves_bind.
      * destruct (truthy run_timeout); [| apply preserves_ret].
        apply preserves_bind; [apply preserves_time_time | intros; apply preserves_ret].
      * intros [|].
        -- apply preserves_bind; [apply preserves_kill | intros _].
           apply preserves_bind; [apply preserves_err_file_read | intros; apply preserves_ret].
        -- apply preserves_bind; [apply preserves_time_sleep | intros _; exact IH].
Qed.

(** [R] may also allow the dictionary to change; then the service loop
    keeps it too. *)
Hypothesis R_container : forall f w, R w (W.set_container f w).

Lemma preserves_setitem k v : preserves R (setitem k v).
Proof. intros w. apply R_container. Qed.

Lemma preserves_serve_loop fuel process run_timeout start_time :
  forall last_len, preserves R (serve_loop fuel process run_timeout start_time last_len).
Proof.
  induction fuel as [| fuel IH]; intros last_len; cbn [serve_loop].
  - apply preserves_out_of_fuel.
  - apply preserves_bind; [apply preserves_output_lines_from | intros new_lines].
    apply preserves_bind; [apply preserves_len_output_lines | intros n].
    destruct (first_crash_index new_lines 0).
    + apply preserves_bind; [apply preserves_setitem | intros _].
      apply preserves_bind; [apply preserves_kill_process_tree | intros; apply preserves_ret].
    + apply preserves_bind; [apply preserves_poll |].
      intros [c |].
      * apply preserves_bind; [intros w; apply R_refl | intros known].
        apply preserves_bind; [| intros; apply preserves_ret].
        destruct (negb known); [apply preserves_setitem | apply preserves_ret].
      * apply preserves_bind.
        -- destruct (truthy run_timeout); [| apply preserves_ret].
           apply preserves_bind; [apply preserves_time_time | intros; apply preserves_ret].
        -- intros [|].
           ++ apply preserves_bind; [apply preserves_kill_process_tree |].
              intros; apply preserves_ret.
           ++ apply preserves_bind; [apply preserves_time_sleep | intros _; apply IH].
Qed.

(** [R] may also allow the shared list to be replaced; then starting the
    server keeps it too. *)
Hypothesis R_output : forall f w, R w (W.set_output f w).

Lemma preserves_run_web_server fuel filepath open_browser max_wait :
  preserves R (run_web_server fuel filepath open_browser max_wait).
Proof.
  unfold run_web_server.
  apply preserves_bind; [intros w; apply R_refl | intros abs_filepath].
  apply preserves_bind; [apply preserves_Popen | intros process].
  apply preserves_bind; [intros w; apply R_output | intros _].
  apply preserves_bind; [apply preserves_thread_start | intros _].
  apply preserves_bind; [apply preserves_wait_for_port |].
  intros [failed | [url |]]; try apply preserves_ret.
  apply preserves_bind; [apply preserves_open_browser | intros; apply preserves_ret].
Qed.

End Preserves.

(** ** A zero timeout *)

Lemma truthy_zero : truthy (Some 0) = truthy None.
Proof. reflexivity. Qed.

Lemma serve_loop_zero fuel process start_time :
  forall last_len w,
    serve_loop fuel process (Some 0) start_time last_len w
    = serve_loop fuel process None start_time last_len w.
Proof.
  induction fuel as [| fuel IH]; intros last_len w; [reflexivity |].
  cbn [serve_loop]. rewrite truthy_zero. cbn [truthy].
  apply bind_ext; intros new_lines w1.
  apply bind_ext; intros n w2.
  destruct (first_crash_index new_lines 0); [reflexivity |].
  apply bind_ext; intros code w3.
  destruct code; [reflexivity |].
  rewrite !bind_ret_l.
  apply bind_ext; intros _ w4. apply IH.
Qed.

Lemma console_loop_zero fuel process start_time abs_main :
  forall w,
    console_loop fuel process (Some 0) start_time abs_main w
    = console_loop fuel process None start_time abs_main w.
Proof.
  induction fuel as [| fuel IH]; intros w; [reflexivity |].
  cbn [console_loop]. rewrite truthy_zero. cbn [truthy].
  apply bind_ext; intros code w1.
  destruct code; [reflexivity |].
  rewrite !bind_ret_l.
  apply bind_ext; intros _ w2. apply IH.
Qed.

(** C10. A [run_timeout] of [0] is no timeout: in the service supervisor
    and in the console supervisor the run with [run_timeout = 0] is, step
    for step and in every environment, the run with [run_timeout = None];
    the guard tests the truth value of [run_timeout] and never reads the
    clock. *)
Theorem zero_timeout_is_no_timeout :
  (forall fuel main_path open_browser result_container w,
      run_main_web_app fuel main_path open_browser (Some 0) result_container w
      = run_main_web_app fuel main_path open_browser None result_container w)
  /\ (forall fuel main_path w,
         run_main_as_console_app fuel main_path (Some 0) w
         = run_main_as_console_app fuel main_path None w).
Proof.
  split.
  - intros fuel main_path open_browser rc w. unfold run_main_web_app.
    apply bind_ext; intros _ w1.
    apply bind_ext; intros server_info w2.
    do 3 (apply bind_ext; intros _ ?).
    destruct (negb (as_bool (get server_info "success"))); [reflexivity |].
    apply bind_ext; intros start_time w'.
    apply try_except_ext, serve_loop_zero.
  - intros fuel main_path w. unfold run_main_as_console_app.
    apply bind_ext; intros abs_main w1.
    apply bind_ext; intros process w2.
    apply bind_ext; intros start_time w3.
    apply try_except_ext, console_loop_zero.
Qed.

(** ** The environment leaves the trace alone *)

(** The poll of the reader thread changes the process table and the
    thread, and nothing else. *)
Lemma reader_poll_fields pid w :
  w_log (reader_poll pid w) = w_log w
  /\ w_output (reader_poll pid w) = w_output w
  /\ w_container (reader_poll pid w) = w_container w
  /\ w_exists (reader_poll pid w) = w_exists w
  /\ w_cwd (reader_poll pid w) = w_cwd w
  /\ w_sigint (reader_poll pid w) = w_sigint w
  /\ w_sched (reader_poll pid w) = w_sched w
  /\ w_pipe (reader_poll pid w) = w_pipe w.
Proof. unfold reader_poll. destruct (returncode _ pid); repeat split. Qed.

Lemma read_output_log w : w_log (read_output w) = w_log w.
Proof.
  unfold read_output. destruct (w_reader w) as [pid |]; [| reflexivity].
  destruct (w_pipe w) as [| line rest].
  - destruct (is_running (w_procs w) pid); [reflexivity | apply reader_poll_fields].
  - destruct (negb (String.eqb line "")); [reflexivity |].
    now rewrite (proj1 (reader_poll_fields pid _)).
Qed.

Lemma apply_event_log e w : w_log (apply_event e w) = w_log w.
Proof.
  destruct e; simpl; try reflexivity.
  - destruct (is_running (w_procs w) pid); reflexivity.
  - destruct (find_proc (w_procs w) pid) as [p |]; [| reflexivity].
    destruct (p_ppid p =? self_pid); reflexivity.
  - destruct (is_running (w_procs w) parent && _); reflexivity.
  - apply read_output_log.
Qed.

Lemma apply_events_log evs w : w_log (apply_events evs w) = w_log w.
Proof.
  revert w. induction evs as [| e evs IH]; intros w; simpl; [reflexivity |].
  unfold apply_events in IH. rewrite IH. apply apply_event_log.
Qed.

Lemma env_step_log w : w_log (snd (env_step w)) = w_log w.
Proof.
  unfold env_step.
  set (w1 := match w_sched w with [] => w | evs :: rest => _ end).
  assert (H : w_log w1 = w_log w).
  { subst w1. destruct (w_sched w); [reflexivity |]. now rewrite apply_events_log. }
  destruct (w_sigint w1); simpl; exact H.
Qed.

Lemma env_step_res w :
  fst (env_step w) = Ok tt \/ fst (env_step w) = Raise KeyboardInterrupt.
Proof.
  unfold env_step.
  destruct (w_sigint _); simpl; auto.
Qed.

(** An operation that follows the environment's move: either the move
    went through, or Ctrl+C was delivered and the operation did not run. *)
Lemma prim_cases {A} (op : M A) w :
  (exists w1, env_step w = (Ok tt, w1) /\ w_log w1 = w_log w /\ prim op w = op w1)
  \/ (exists w1, prim op w = (Raise KeyboardInterrupt, w1) /\ w_log w1 = w_log w).
Proof.
  pose proof (env_step_log w) as Hl. pose proof (env_step_res w) as Hr.
  unfold prim, bind. destruct (env_step w) as [r w1]; simpl in *.
  destruct Hr as [-> | ->]; [left | right]; exists w1; auto.
Qed.

(** Split a hypothesis [H : prim op w = _] along [prim_cases]. *)
Ltac prim_step H w1 Hl :=
  match type of H with
  | prim ?op ?w = _ =>
      let E := fresh "E" in
      destruct (prim_cases op w) as [(w1 & _ & Hl & E) | (w1 & E & Hl)];
      rewrite E in H; clear E
  end.

(** ** The tree terminator *)

(** What one [terminate()] leaves in the trace. *)
Lemma psutil_terminate_spec pid w r w' :
  psutil_terminate pid w = (r, w') ->
  (r = Ok tt /\ w_log w' = w_log w ++ [SigTerm pid])
  \/ ((r = Raise KeyboardInterrupt \/ r = Raise (NoSuchProcess pid)
       \/ r = Raise (AccessDenied pid))
      /\ w_log w' = w_log w).
Proof.
  unfold psutil_terminate. intros H. prim_step H w1 Hl.
  - destruct (find_proc (w_procs w1) pid) as [p |].
    + destruct (negb (proc_present p)).
      { inversion H; subst. right. auto. }
      destruct (p_denied p).
      { inversion H; subst. right. auto. }
      inversion H; subst; left; simpl; rewrite Hl; auto.
    + inversion H; subst. right. auto.
  - inversion H; subst. right. auto.
Qed.

(** The [for child in ...: child.terminate()] loop signals a prefix of
    its list, in order, and all of it when it runs to its end. *)
Lemma terminate_each_spec (l : list Z) :
  forall w r w',
    for_each l psutil_terminate w = (r, w') ->
    exists k,
      (k <= length l)%nat
      /\ w_log w' = w_log w ++ map SigTerm (take k l)
      /\ (r = Ok tt /\ k = length l
          \/ (k < length l)%nat
             /\ (r = Raise KeyboardInterrupt
                 \/ (exists q, r = Raise (NoSuchProcess q))
                 \/ (exists q, r = Raise (AccessDenied q)))).
Proof.
  induction l as [| x l IH]; intros w r w' H; simpl in H.
  - inversion H; subst. exists 0%nat. simpl. rewrite app_nil_r. auto.
  - unfold bind in H. destruct (psutil_terminate x w) as [r1 w1] eqn:E1.
    apply psutil_terminate_spec in E1.
    destruct E1 as [[-> Hl] | [Hr Hl]].
    + apply IH in H. destruct H as (k & Hk & Hlog & Hres).
      exists (S k). split; [simpl; lia |]. split.
      * rewrite Hlog, Hl. simpl. now rewrite <- app_assoc.
      * destruct Hres as [[-> ->] | [Hlt Hres]]; [left; auto | right].
        split; [simpl; lia | exact Hres].
    + exists 0%nat. split; [lia |]. split.
      * simpl. rewrite app_nil_r.
        destruct Hr as [-> | [-> | ->]]; inversion H; subst; exact Hl.
      * right. split; [simpl; lia |].
        destruct Hr as [-> | [-> | ->]]; inversion H; subst; eauto.
Qed.

Lemma psutil_Process_spec pid w r w' :
  psutil_Process pid w = (r, w') ->
  w_log w' = w_log w
  /\ (r = Ok pid \/ r = Raise KeyboardInterrupt \/ r = Raise (NoSuchProcess pid)).
Proof.
  unfold psutil_Process. intros H. prim_step H w1 Hl.
  - destruct (pid_exists (w_procs w1) pid); inversion H; subst; auto.
  - inversion H; subst; auto.
Qed.

Lemma psutil_children_spec pid w r w' :
  psutil_children pid w = (r, w') ->
  (exists cs, r = Ok cs /\ w_log w' = w_log w ++ [Enumerated pid cs])
  \/ (w_log w' = w_log w
      /\ (r = Raise KeyboardInterrupt \/ r = Raise (NoSuchProcess pid))).
Proof.
  unfold psutil_children. intros H. prim_step H w1 Hl.
  - destruct (pid_exists (w_procs w1) pid); inversion H; subst.
    + left. eexists. split; [reflexivity |]. simpl. now rewrite Hl.
    + right. auto.
  - inversion H; subst; auto.
Qed.

(** The trace of a call of the tree terminator: nothing, when the root is
    gone from the start; otherwise the enumeration of the descendants, then
    SIGTERM to a prefix of "the descendants, then the root", in that order.
    The call returns, or is cut by Ctrl+C or by a refusal; it never raises
    [NoSuchProcess]. *)
Lemma kill_process_tree_spec proc w r w' :
  _kill_process_tree proc w = (r, w') ->
  (r = Ok tt \/ r = Raise KeyboardInterrupt \/ exists q, r = Raise (AccessDenied q))
  /\ (w_log w' = w_log w
      \/ exists cs k,
           (k <= length cs + 1)%nat
           /\ w_log w' = w_log w ++ Enumerated proc cs :: map SigTerm (take k (cs ++ [proc]))).
Proof.
  unfold _kill_process_tree, try_except. intros H.
  destruct (bind (psutil_Process proc) _ w) as [r0 w0] eqn:E.
  unfold bind in E.
  destruct (psutil_Process proc w) as [r1 w1] eqn:E1.
  apply psutil_Process_spec in E1. destruct E1 as [Hl1 Hr1].
  destruct Hr1 as [-> | [-> | ->]]; try (inversion E; subst; inversion H; subst; auto; fail).
  destruct (psutil_children proc w1) as [r2 w2] eqn:E2.
  apply psutil_children_spec in E2.
  destruct E2 as [(cs & -> & Hl2) | [Hl2 [-> | ->]]];
    try (inversion E; subst; inversion H; subst; rewrite Hl2, Hl1; auto; fail).
  destruct (for_each cs psutil_terminate w2) as [r3 w3] eqn:E3.
  apply terminate_each_spec in E3. destruct E3 as (k & Hk & Hl3 & Hr3).
  assert (Hshape : forall j w4, (j <= length cs + 1)%nat ->
            w_log w4 = w_log w3 ++ map SigTerm (drop k (take j (cs ++ [proc]))) ->
            (k <= j)%nat ->
            w_log w4 = w_log w ++ Enumerated proc cs :: map SigTerm (take j (cs ++ [proc]))).
  { intros j w4 Hj Hw4 Hkj. rewrite Hw4, Hl3, Hl2, Hl1.
    rewrite <- !app_assoc. simpl. do 2 f_equal.
    rewrite <- map_app. f_equal.
    transitivity (take k (take j (cs ++ [proc])) ++ drop k (take j (cs ++ [proc])));
      [| apply take_drop].
    f_equal. rewrite take_take, Nat.min_l by lia.
    rewrite take_app_le by lia. reflexivity. }
  destruct Hr3 as [[-> ->] | [Hlt Hr3]].
  - destruct (psutil_terminate proc w3) as [r4 w4] eqn:E4.
    apply psutil_terminate_spec in E4.
    destruct E4 as [[-> Hl4] | [Hr4 Hl4]].
    + inversion E; subst. inversion H; subst. split; [auto |]. right.
      exists cs, (length cs + 1)%nat. split; [lia |].
      apply Hshape; [lia | | lia].
      rewrite Hl4. f_equal.
      rewrite take_ge by (rewrite length_app; simpl; lia).
      now rewrite drop_app_length.
    + assert (Hlog : w_log w4 = w_log w ++ Enumerated proc cs
                       :: map SigTerm (take (length cs) (cs ++ [proc]))).
      { apply Hshape; [lia | | lia].
        rewrite Hl4. rewrite take_app_length, drop_all. simpl. now rewrite app_nil_r. }
      destruct Hr4 as [-> | [-> | ->]]; inversion E; subst; inversion H; subst;
        (split; [eauto |]); right; exists cs, (length cs); (split; [lia | exact Hlog]).
  - assert (Hlog : w_log w3 = w_log w ++ Enumerated proc cs
                     :: map SigTerm (take k (cs ++ [proc]))).
    { apply Hshape; [lia | | lia].
      rewrite drop_ge by (rewrite length_take; lia). simpl. now rewrite app_nil_r. }
    destruct Hr3 as [-> | [[q ->] | [q ->]]]; inversion E; subst; inversion H; subst;
      (split; [eauto |]); right; exists cs, k; (split; [lia | exact Hlog]).
Qed.

(** *** Computations that do not run out of steps *)


Lemma ror_bind {A B} (m : M A) (k : A -> M B) :
  returns_or_raises m -> (forall a, returns_or_raises (k a)) ->
  returns_or_raises (bind m k).
Proof.
  intros Hm Hk w. unfold bind. specialize (Hm w).
  destruct (m w) as [[a | e |] w1]; simpl in *; try discriminate; [apply Hk | contradiction].
Qed.


Lemma ror_env_step : returns_or_raises env_step.
Proof. intros w. destruct (env_step_res w) as [H | H]; rewrite H; discriminate. Qed.

Lemma ror_prim {A} (op : M A) : returns_or_raises op -> returns_or_raises (prim op).
Proof. intros H. apply ror_bind; [apply ror_env_step | intros _; exact H]. Qed.

Lemma ror_use_handle : returns_or_raises use_handle.
Proof. intros w. unfold use_handle. destruct (w_fault w); discriminate. Qed.

Lemma ror_poll process : returns_or_raises (poll process).
Proof.
  apply ror_prim, ror_bind; [apply ror_use_handle |]. intros _ w. discriminate.
Qed.

Lemma ror_time_sleep secs : returns_or_raises (time_sleep secs).
Proof. apply ror_prim. intros w. discriminate. Qed.

Lemma ror_time_time : returns_or_raises time_time.
Proof. apply ror_prim. intros w. discriminate. Qed.



(** ** The port probe *)

Lemma poll_ok process w code w' :
  poll process w = (Ok code, w') -> w_log w' = w_log w ++ [Polled process code].
Proof.
  unfold poll. intros H. prim_step H w1 Hl; [| discriminate].
  unfold bind, use_handle in H. destruct (w_fault w1); [discriminate |].
  inversion H; subst. simpl. now rewrite Hl.
Qed.

Lemma time_sleep_ok secs w w' :
  time_sleep secs w = (Ok tt, w') -> w_log w' = w_log w ++ [Slept secs].
Proof.
  unfold time_sleep. intros H. prim_step H w1 Hl; [| discriminate].
  inversion H; subst. simpl. now rewrite Hl.
Qed.

Lemma is_port_open_ok host port w b w' :
  _is_port_open host port w = (Ok b, w') ->
  w_log w' = w_log w ++ [Connected port b].
Proof.
  unfold _is_port_open, try_except, bind, socket_create_connection. intros H.
  match type of H with context [prim ?op w] =>
    destruct (prim_cases op w) as [(w1 & _ & Hl & E) | (w1 & E & Hl)]; rewrite E in H
  end; [| discriminate].
  destruct (accepts _ _ _); inversion H; subst; simpl; now rewrite Hl.
Qed.

(** The [for] loop over the candidates tries them in list order and stops
    at the first that accepts. *)
Lemma probe_ports_ok ports :
  forall w r w',
    probe_ports ports w = (Ok r, w') ->
    (r = None /\ w_log w' = w_log w ++ map (fun p => Connected p false) ports)
    \/ (exists j p,
           ports !! j = Some p /\ r = Some (server_url_of p)
           /\ w_log w' = w_log w ++ map (fun p => Connected p false) (take j ports)
                           ++ [Connected p true]).
Proof.
  induction ports as [| p ports IH]; intros w r w' H; simpl in H.
  - inversion H; subst. left. simpl. now rewrite app_nil_r.
  - apply bind_ok_inv in H. destruct H as (b & w1 & Hb & H).
    apply is_port_open_ok in Hb. destruct b.
    + inversion H; subst. right. exists 0%nat, p. simpl. auto.
    + apply IH in H. destruct H as [[-> Hl] | (j & q & Hj & -> & Hl)].
      * left. split; [reflexivity |]. rewrite Hl, Hb. simpl. now rewrite <- app_assoc.
      * right. exists (S j), q. split; [exact Hj |]. split; [reflexivity |].
        rewrite Hl, Hb. simpl. now rewrite <- !app_assoc.
Qed.

(** The three ways the probe loop is left, with the trace of each: [k]
    rounds that found nothing, then the process found ended, or a port
    found open, or the window found elapsed. *)
Lemma wait_for_port_ok process max_wait fuel :
  forall waited w r w',
    wait_for_port fuel process waited max_wait w = (Ok r, w') ->
    exists k,
      (forall i, (i < k)%nat -> PrimFloat.ltb (waited_after i waited) max_wait = true)
      /\ ((exists c,
              r = inl (mkdict [("success", VBool false);
                               ("error", VStr "Server exited unexpectedly");
                               ("process", VProc process);
                               ("output_lines", VLines)])
              /\ PrimFloat.ltb (waited_after k waited) max_wait = true
              /\ w_log w' = w_log w ++ concat (replicate k (closed_round process))
                              ++ [Polled process (Some c)])
          \/ (exists j p,
                 default_ports !! j = Some p
                 /\ r = inr (Some (server_url_of p))
                 /\ PrimFloat.ltb (waited_after k waited) max_wait = true
                 /\ w_log w' = w_log w ++ concat (replicate k (closed_round process))
                                 ++ Polled process None
                                 :: map (fun q => Connected q false) (take j default_ports)
                                 ++ [Connected p true])
          \/ (r = inr None
              /\ PrimFloat.ltb (waited_after k waited) max_wait = false
              /\ w_log w' = w_log w ++ concat (replicate k (closed_round process)))).
Proof.
  induction fuel as [| fuel IH]; intros waited w r w' H; [discriminate |].
  cbn [wait_for_port] in H.
  destruct (PrimFloat.ltb waited max_wait) eqn:Hlt.
  2:{ inversion H; subst. exists 0%nat. split; [intros; lia |].
      right; right. simpl. rewrite app_nil_r. auto. }
  apply bind_ok_inv in H. destruct H as (code & w1 & Hp & H).
  apply poll_ok in Hp. destruct code as [c |].
  { inversion H; subst. exists 0%nat. split; [intros; lia |].
    left. exists c. simpl. auto. }
  apply bind_ok_inv in H. destruct H as (url & w2 & Hq & H).
  apply probe_ports_ok in Hq.
  destruct Hq as [[-> Hl2] | (j & p & Hj & -> & Hl2)].
  - apply bind_ok_inv in H. destruct H as ([] & w3 & Hs & H).
    apply time_sleep_ok in Hs. apply IH in H.
    destruct H as (k & Hbefore & Hcases).
    assert (Hpre : w_log w3 = w_log w ++ closed_round process).
    { rewrite Hs, Hl2, Hp. unfold closed_round. rewrite <- !app_assoc. reflexivity. }
    exists (S k). split.
    { intros [| i] Hi; simpl; [exact Hlt | apply Hbefore; lia]. }
    simpl waited_after. cbn [replicate concat].
    destruct Hcases as [(c & -> & Hw & Hl) | [(j & p & Hj & -> & Hw & Hl) | (-> & Hw & Hl)]].
    + left. exists c. repeat split; auto. rewrite Hl, Hpre, <- !app_assoc. reflexivity.
    + right; left. exists j, p. repeat split; auto.
      rewrite Hl, Hpre, <- !app_assoc. reflexivity.
    + right; right. repeat split; auto. rewrite Hl, Hpre, <- !app_assoc. reflexivity.
  - inversion H; subst. exists 0%nat. split; [intros; lia |].
    right; left. exists j, p. simpl. repeat split; auto.
    rewrite Hl2, Hp, <- !app_assoc. reflexivity.
Qed.



Lemma Popen_ok script cwd w pid w' :
  Popen script cwd w = (Ok pid, w') -> w_log w' = w_log w ++ [Spawned pid script].
Proof.
  unfold Popen. intros H. prim_step H w1 Hl; [| discriminate].
  destruct (existsb _ _); inversion H; subst. simpl. now rewrite Hl.
Qed.

Lemma thread_start_ok process w w' :
  _create_output_reader_thread process w = (Ok tt, w') -> w_log w' = w_log w.
Proof.
  unfold _create_output_reader_thread, thread_start. intros H.
  prim_step H w1 Hl; [| discriminate]. inversion H; subst. exact Hl.
Qed.

Lemma open_browser_ok url open_browser w w' :
  _open_browser_if_needed url open_browser w = (Ok tt, w') ->
  w_log w' = w_log w ++ (if open_browser then [BrowserOpened url] else []).
Proof.
  unfold _open_browser_if_needed. destruct open_browser.
  - unfold try_except, webbrowser_open. intros H.
    match type of H with context [prim ?op w] =>
      destruct (prim_cases op w) as [(w1 & _ & Hl & E) | (w1 & E & Hl)]; rewrite E in H
    end; [| discriminate].
    inversion H; subst. simpl. now rewrite Hl.
  - intros [= <-]. now rewrite app_nil_r.
Qed.



Lemma run_web_server_ok fuel filepath open_browser max_wait w info w' :
  run_web_server fuel filepath open_browser max_wait w = (Ok info, w') ->
  probe_outcome filepath open_browser max_wait w info w'.
Proof.
  intros H.
  unfold run_web_server in H.
  apply bind_ok_inv in H. destruct H as (abs & w1 & Ha & H).
  inversion Ha; subst abs w1; clear Ha.
  apply bind_ok_inv in H. destruct H as (process & w2 & Hs & H).
  apply Popen_ok in Hs.
  apply bind_ok_inv in H. destruct H as ([] & w3 & Hn & H).
  inversion Hn; subst w3; clear Hn.
  apply bind_ok_inv in H. destruct H as ([] & w4 & Ht & H).
  apply thread_start_ok in Ht. simpl in Ht.
  apply bind_ok_inv in H. destruct H as (r & w5 & Hw & H).
  apply wait_for_port_ok in Hw. destruct Hw as (k & Hbefore & Hcases).
  exists process, k. cbv zeta. split; [exact Hbefore |].
  assert (Hpre : w_log w4 = w_log w ++ [Spawned process (abspath (w_cwd w) filepath)]).
  { now rewrite Ht, Hs. }
  destruct Hcases as [(c & -> & _ & Hl) | [(j & p & Hj & -> & _ & Hl) | (-> & Hwin & Hl)]].
  - inversion H; subst. left. exists c. split; [reflexivity |].
    rewrite Hl, Hpre, <- !app_assoc. reflexivity.
  - apply bind_ok_inv in H. destruct H as ([] & w6 & Hb & H).
    apply open_browser_ok in Hb. inversion H; subst.
    right; left. exists j, p. split; [exact Hj |]. split; [reflexivity |].
    rewrite Hb, Hl, Hpre, <- !app_assoc. simpl. rewrite <- !app_assoc. reflexivity.
  - inversion H; subst. right; right. split; [reflexivity |]. split; [exact Hwin |].
    rewrite Hl, Hpre, <- !app_assoc. reflexivity.
Qed.


(** ** Runs on concrete systems *)


(** C9 (the code departs from the claim). The server 2 has the workers 3
    and 4. Worker 3 ends, and the server collects its code, after the
    terminator has listed the workers and before it signals them:
    [terminate()] on 3 raises [NoSuchProcess], the handler around the whole
    body takes it, and the call returns without a signal to 4 or to the
    root 2, which both keep running. *)
Theorem vanished_child_spares_the_root :
  let w := Scenario.with_procs Scenario.family [[]; []; [EvExit 3 0; EvReap 3]] in
  let r := _kill_process_tree 2 w in
  fst r = Ok tt
  /\ w_log (snd r) = [Enumerated 2 [3; 4]]
  /\ is_running (w_procs (snd r)) 4 = true
  /\ is_running (w_procs (snd r)) 2 = true.
Proof. vm_compute. repeat split. Qed.

(** With nobody vanishing, the workers are signalled, then the root; the
    call returns without waiting for any of them to end. *)
Example kill_family :
  let r := _kill_process_tree 2 (Scenario.with_procs Scenario.family []) in
  fst r = Ok tt
  /\ w_log (snd r) = [Enumerated 2 [3; 4]; SigTerm 3; SigTerm 4; SigTerm 2]
  /\ w_procs (snd r) = Scenario.family.
Proof. vm_compute. repeat split. Qed.

(** A worker that has ended and whose code nobody has collected is still
    in the system: it is signalled like the others. *)
Example kill_family_with_a_zombie :
  let r := _kill_process_tree 2
             (Scenario.with_procs Scenario.family [[]; []; [EvExit 3 0]]) in
  fst r = Ok tt
  /\ w_log (snd r) = [Enumerated 2 [3; 4]; SigTerm 3; SigTerm 4; SigTerm 2].
Proof. vm_compute. repeat split. Qed.

(** [children(recursive=True)] lists the children of the root, then those
    of the child listed last, and so on. *)
Example children_of_a_deeper_tree :
  children_recursive
    [mkproc 2 0 Running false; mkproc 3 2 Running false; mkproc 4 2 Running false;
     mkproc 5 3 Running false; mkproc 6 4 Running false] 2
  = [3; 4; 6; 5].
Proof. reflexivity. Qed.

(** ** The poll loop of the service supervisor, run by run *)

Lemma ror_kill_process_tree proc : returns_or_raises (_kill_process_tree proc).
Proof.
  intros w. destruct (_kill_process_tree proc w) as [r w'] eqn:E.
  apply kill_process_tree_spec in E. destruct E as [[-> | [-> | [q ->]]] _]; discriminate.
Qed.

Lemma ror_output_lines_from n : returns_or_raises (output_lines_from n).
Proof. apply ror_prim. intros w. discriminate. Qed.

Lemma ror_len_output_lines : returns_or_raises len_output_lines.
Proof. apply ror_prim. intros w. discriminate. Qed.

(** Every run of the code is a run of the relation. *)
Lemma serve_loop_run process run_timeout start_time fuel :
  forall last_len w r w',
    serve_loop fuel process run_timeout start_time last_len w = (r, w') ->
    serve_run process run_timeout start_time last_len w r w'.
Proof.
  induction fuel as [| fuel IH]; intros last_len w r w' H.
  { inversion H; subst. constructor. }
  cbn [serve_loop] in H. unfold bind at 1 in H.
  destruct (output_lines_from last_len w) as [[new_lines | e |] w1] eqn:E1.
  2:{ inversion H; subst. now apply sr_slice_raises. }
  2:{ exfalso. apply (ror_output_lines_from last_len w). now rewrite E1. }
  unfold bind at 1 in H.
  destruct (len_output_lines w1) as [[n | e |] w2] eqn:E2.
  2:{ inversion H; subst. eapply sr_len_raises; eauto. }
  2:{ exfalso. apply (ror_len_output_lines w1). now rewrite E2. }
  destruct (first_crash_index new_lines 0) as [i |] eqn:Ei.
  { unfold bind at 1 in H. unfold setitem at 1 in H. unfold bind at 1 in H.
    destruct (_kill_process_tree process _) as [rk wk] eqn:Ek.
    replace r with (after_kill rk false); [replace w' with wk |].
    - eapply sr_crash; eauto.
    - destruct rk; inversion H; reflexivity.
    - destruct rk; inversion H; reflexivity. }
  unfold bind at 1 in H.
  destruct (poll process w2) as [[[c |] | e |] w3] eqn:E3.
  4:{ exfalso. apply (ror_poll process w2). now rewrite E3. }
  3:{ inversion H; subst. eapply sr_poll_raises; eauto. }
  { unfold bind, in_container, setitem, ret in H.
    pose proof (sr_exited process run_timeout start_time _ _ _ _ _ _ c _ E1 E2 Ei E3) as R.
    destruct (has_key (w_container w3) "server_error"); simpl in H;
      inversion H; subst; exact R. }
  unfold bind at 1 in H.
  destruct (truthy run_timeout) eqn:Ht.
  - unfold bind at 1 in H.
    destruct (time_time w3) as [[now | e |] w4] eqn:E4.
    3:{ exfalso. apply (ror_time_time w3). now rewrite E4. }
    2:{ inversion H; subst. eapply sr_clock_raises; eauto. }
    unfold ret at 1 in H.
    destruct (exceeds _ _) eqn:Hexp.
    + unfold bind at 1 in H.
      destruct (_kill_process_tree process w4) as [rk wk] eqn:Ek.
      replace r with (after_kill rk true); [replace w' with wk |].
      * eapply sr_timed_out; eauto.
      * destruct rk; inversion H; reflexivity.
      * destruct rk; inversion H; reflexivity.
    + assert (Hne : not_expired run_timeout start_time w3 w4).
      { right. split; [exact Ht |]. exists now. auto. }
      unfold bind at 1 in H.
      destruct (time_sleep 1 w4) as [[[] | e |] w5] eqn:E5.
      3:{ exfalso. apply (ror_time_sleep 1%float w4). now rewrite E5. }
      2:{ inversion H; subst. eapply sr_sleep_raises; eauto. }
      eapply sr_next_tick; eauto.
  - unfold ret at 1 in H.
    assert (Hne : not_expired run_timeout start_time w3 w3).
    { left. auto. }
    unfold bind at 1 in H.
    destruct (time_sleep 1 w3) as [[[] | e |] w5] eqn:E5.
    3:{ exfalso. apply (ror_time_sleep 1%float w3). now rewrite E5. }
    2:{ inversion H; subst. eapply sr_sleep_raises; eauto. }
    eapply sr_next_tick; eauto.
Qed.

(** *** What grows and what stays *)

Lemma read_output_grows w : w_output w `prefix_of` w_output (read_output w).
Proof.
  unfold read_output. destruct (w_reader w) as [pid |]; [| reflexivity].
  destruct (w_pipe w) as [| line rest].
  - destruct (is_running (w_procs w) pid); [reflexivity |].
    destruct (reader_poll_fields pid w) as (_ & -> & _). reflexivity.
  - destruct (negb (String.eqb line "")); simpl; [now apply prefix_app_r |].
    destruct (reader_poll_fields pid (W.set_pipe (fun _ => rest) w)) as (_ & -> & _).
    reflexivity.
Qed.

Lemma read_output_container w : w_container (read_output w) = w_container w.
Proof.
  unfold read_output. destruct (w_reader w) as [pid |]; [| reflexivity].
  destruct (w_pipe w) as [| line rest].
  - destruct (is_running (w_procs w) pid); [reflexivity |].
    apply (reader_poll_fields pid w).
  - destruct (negb (String.eqb line "")); [reflexivity |].
    destruct (reader_poll_fields pid (W.set_pipe (fun _ => rest) w)) as (_ & _ & -> & _).
    reflexivity.
Qed.

(** The events that touch the process table only. *)
Ltac table_event :=
  match goal with
  | |- context [is_running (w_procs ?w) ?pid && _] =>
      destruct (is_running (w_procs w) pid && _)
  | |- context [is_running (w_procs ?w) ?pid] => destruct (is_running (w_procs w) pid)
  | |- context [find_proc (w_procs ?w) ?pid] =>
      let p := fresh "p" in
      destruct (find_proc (w_procs w) pid) as [p |];
      [destruct (p_ppid p =? self_pid) |]
  end.

Lemma output_grows_event e w : output_grows w (apply_event e w).
Proof.
  unfold output_grows. destruct e; simpl; try reflexivity;
    try (table_event; reflexivity).
  apply read_output_grows.
Qed.

Lemma container_event e w : w_container (apply_event e w) = w_container w.
Proof.
  destruct e; simpl; try reflexivity; try (table_event; reflexivity).
  apply read_output_container.
Qed.

Lemma output_grows_refl w : output_grows w w.
Proof. unfold output_grows. reflexivity. Qed.

Lemma output_grows_trans w1 w2 w3 :
  output_grows w1 w2 -> output_grows w2 w3 -> output_grows w1 w3.
Proof. unfold output_grows. intros. etransitivity; eauto. Qed.

Lemma output_grows_same w w' :
  w_output w' = w_output w -> w_container w' = w_container w ->
  (exists t, w_log w' = w_log w ++ t /\ forallb any_call t = true) -> output_grows w w'.
Proof. unfold output_grows. intros -> _ _. reflexivity. Qed.

Lemma output_grows_container f w : output_grows w (W.set_container f w).
Proof. unfold output_grows. reflexivity. Qed.

Lemma untouched_refl w : untouched w w.
Proof. split; [apply output_grows_refl | reflexivity]. Qed.

Lemma untouched_trans w1 w2 w3 : untouched w1 w2 -> untouched w2 w3 -> untouched w1 w3.
Proof.
  intros [H1 E1] [H2 E2]. split; [eapply output_grows_trans; eauto | congruence].
Qed.

Lemma untouched_same w w' :
  w_output w' = w_output w -> w_container w' = w_container w ->
  (exists t, w_log w' = w_log w ++ t /\ forallb any_call t = true) -> untouched w w'.
Proof. intros Ho Hc Hl. split; [now apply output_grows_same | exact Hc]. Qed.

Lemma untouched_event e w : untouched w (apply_event e w).
Proof. split; [apply output_grows_event | apply container_event]. Qed.

Lemma grows_by_refl allowed w : grows_by allowed w w.
Proof. exists []. now rewrite app_nil_r. Qed.

Lemma grows_by_trans allowed w1 w2 w3 :
  grows_by allowed w1 w2 -> grows_by allowed w2 w3 -> grows_by allowed w1 w3.
Proof.
  intros (t1 & H1 & A1) (t2 & H2 & A2). exists (t1 ++ t2). split.
  - now rewrite H2, H1, app_assoc.
  - rewrite forallb_app, A1, A2. reflexivity.
Qed.

Lemma grows_by_same allowed w w' :
  w_output w' = w_output w -> w_container w' = w_container w ->
  (exists t, w_log w' = w_log w ++ t /\ forallb allowed t = true) -> grows_by allowed w w'.
Proof. intros _ _ H. exact H. Qed.

Lemma grows_by_event allowed e w : grows_by allowed w (apply_event e w).
Proof. exists []. now rewrite apply_event_log, app_nil_r. Qed.

Lemma grows_by_container allowed f w : grows_by allowed w (W.set_container f w).
Proof. exists []. simpl. now rewrite app_nil_r. Qed.

(** Instances of the general lemmas, for use on a run [m w = (r, w')]. *)
Ltac all_calls :=
  try (intros; reflexivity).

Ltac untouched_by lem :=
  apply (lem untouched untouched_refl untouched_trans any_call untouched_same
             untouched_event); all_calls.

Ltac output_grows_by lem :=
  apply (lem output_grows output_grows_refl output_grows_trans any_call output_grows_same
             output_grows_event); all_calls.

Ltac grows_by_with allowed lem :=
  apply (lem (grows_by allowed) (grows_by_refl allowed) (grows_by_trans allowed) allowed
             (grows_by_same allowed) (grows_by_event allowed)); all_calls.

Lemma run_untouched {A} (m : M A) w r w' :
  preserves untouched m -> m w = (r, w') -> untouched w w'.
Proof. intros H E. specialize (H w). now rewrite E in H. Qed.

(** *** What each operation of a tick leaves in the trace *)

Lemma output_lines_from_spec last_len w r w' :
  output_lines_from last_len w = (r, w') ->
  untouched w w'
  /\ ((r = Ok (skipn last_len (w_output w'))
       /\ w_log w' = w_log w ++ [Sliced last_len (skipn last_len (w_output w'))])
      \/ (r = Raise KeyboardInterrupt /\ w_log w' = w_log w)).
Proof.
  intros H. split.
  { eapply run_untouched; [| exact H]. untouched_by preserves_output_lines_from. }
  unfold output_lines_from in H. prim_step H w1 Hl.
  - inversion H; subst. left. simpl. now rewrite Hl.
  - inversion H; subst. right. auto.
Qed.

Lemma len_output_lines_spec w r w' :
  len_output_lines w = (r, w') ->
  untouched w w'
  /\ ((r = Ok (length (w_output w'))
       /\ w_log w' = w_log w ++ [Measured (length (w_output w'))])
      \/ (r = Raise KeyboardInterrupt /\ w_log w' = w_log w)).
Proof.
  intros H. split.
  { eapply run_untouched; [| exact H]. untouched_by preserves_len_output_lines. }
  unfold len_output_lines in H. prim_step H w1 Hl.
  - inversion H; subst. left. simpl. now rewrite Hl.
  - inversion H; subst. right. auto.
Qed.

Lemma poll_spec process w r w' :
  poll process w = (r, w') ->
  untouched w w'
  /\ ((exists code, r = Ok code /\ w_log w' = w_log w ++ [Polled process code]
                    /\ code = returncode (w_procs w') process)
      \/ ((exists e, r = Raise e) /\ w_log w' = w_log w)).
Proof.
  intros H. split.
  { eapply run_untouched; [| exact H]. untouched_by preserves_poll. }
  unfold poll in H. prim_step H w1 Hl.
  - unfold bind, use_handle in H. destruct (w_fault w1).
    + inversion H; subst. right. eauto.
    + inversion H; subst. left. eexists. simpl. rewrite Hl. auto.
  - inversion H; subst. right. eauto.
Qed.

Lemma time_time_spec w r w' :
  time_time w = (r, w') -> untouched w w' /\ w_log w' = w_log w.
Proof.
  intros H. split.
  { eapply run_untouched; [| exact H]. untouched_by preserves_time_time. }
  unfold time_time in H. prim_step H w1 Hl; inversion H; subst; auto.
Qed.

Lemma time_sleep_spec secs w r w' :
  time_sleep secs w = (r, w') ->
  untouched w w'
  /\ ((r = Ok tt /\ w_log w' = w_log w ++ [Slept secs])
      \/ (r = Raise KeyboardInterrupt /\ w_log w' = w_log w)).
Proof.
  intros H. split.
  { eapply run_untouched; [| exact H]. untouched_by preserves_time_sleep. }
  unfold time_sleep in H. prim_step H w1 Hl.
  - inversion H; subst. left. simpl. now rewrite Hl.
  - inversion H; subst. right. auto.
Qed.

Lemma not_expired_spec run_timeout start_time w3 w4 :
  not_expired run_timeout start_time w3 w4 -> untouched w3 w4 /\ w_log w4 = w_log w3.
Proof.
  intros [[_ ->] | (_ & now & E & _)].
  - split; [apply untouched_refl | reflexivity].
  - now apply time_time_spec in E.
Qed.

Lemma kill_process_tree_trace proc w r w' :
  _kill_process_tree proc w = (r, w') ->
  untouched w w'
  /\ exists t, w_log w' = w_log w ++ t /\ forallb is_kill_call t = true.
Proof.
  intros H. split.
  { eapply run_untouched; [| exact H]. untouched_by preserves_kill_process_tree. }
  apply kill_process_tree_spec in H. destruct H as [_ [Hl | (cs & k & _ & Hl)]].
  - exists []. now rewrite app_nil_r.
  - eexists. split; [exact Hl |]. simpl.
    apply forallb_forall. intros c Hc. apply in_map_iff in Hc.
    destruct Hc as (q & <- & _). reflexivity.
Qed.

(** ** Draining the shared list *)

Lemma drained_from_kill_calls out c pend t :
  forallb is_kill_call t = true -> drained_from out c pend t.
Proof.
  induction t as [| x t IH]; simpl; [auto |].
  intros H. apply andb_true_iff in H. destruct H as [Hx Ht].
  destruct x; try discriminate; auto.
Qed.

(** A batch sliced from a list that later grew is still the piece of the
    grown list at the same place. *)
Lemma skipn_of_prefix (out1 out' : list string) (c : nat) :
  out1 `prefix_of` out' -> (c <= length out1)%nat ->
  skipn c out1 = firstn (length (skipn c out1)) (skipn c out').
Proof.
  intros [k ->] Hc. rewrite drop_app_le by exact Hc.
  now rewrite take_app_length.
Qed.

Lemma prefix_of_length (l1 l2 : list string) :
  l1 `prefix_of` l2 -> (length l1 <= length l2)%nat.
Proof. intros [k ->]. rewrite length_app. lia. Qed.

(** The shared list only grows along a run of the poll loop. *)
Lemma serve_run_grows process run_timeout start_time last_len w r w' :
  serve_run process run_timeout start_time last_len w r w' -> output_grows w w'.
Proof.
  induction 1;
    repeat match goal with
      | E : output_lines_from _ _ = _ |- _ =>
          apply output_lines_from_spec in E; destruct E as [[? _] _]
      | E : len_output_lines _ = _ |- _ =>
          apply len_output_lines_spec in E; destruct E as [[? _] _]
      | E : poll _ _ = _ |- _ => apply poll_spec in E; destruct E as [[? _] _]
      | E : time_time _ = _ |- _ => apply time_time_spec in E; destruct E as [[? _] _]
      | E : time_sleep _ _ = _ |- _ => apply time_sleep_spec in E; destruct E as [[? _] _]
      | E : not_expired _ _ _ _ |- _ => apply not_expired_spec in E; destruct E as [[? _] _]
      | E : _kill_process_tree _ _ = _ |- _ =>
          apply kill_process_tree_trace in E; destruct E as [[? _] _]
      end;
    try match goal with |- context [has_key ?d ?k] => destruct (has_key d k) end;
    unfold output_grows in *; simpl in *;
    repeat (etransitivity; [eassumption |]); reflexivity.
Qed.

(** The trace of a run of the poll loop drains the final list from the
    cursor it started with. *)
Lemma serve_run_drains process run_timeout start_time last_len w r w' :
  serve_run process run_timeout start_time last_len w r w' ->
  (last_len <= length (w_output w))%nat ->
  exists t, w_log w' = w_log w ++ t /\ drained_from (w_output w') last_len 0 t.
Proof.
  induction 1 as
    [ last w
    | last w e w' E1
    | last w lines w1 e w' E1 E2
    | last w lines w1 n w2 i rk w' E1 E2 Hi Ek
    | last w lines w1 n w2 e w' E1 E2 Hi E3
    | last w lines w1 n w2 c w3 E1 E2 Hi E3
    | last w lines w1 n w2 w3 e w' E1 E2 Hi E3 Ht E4
    | last w lines w1 n w2 w3 now w4 rk w' E1 E2 Hi E3 Ht E4 Hexp Ek
    | last w lines w1 n w2 w3 w4 e w' E1 E2 Hi E3 Hne E5
    | last w lines w1 n w2 w3 w4 w5 r w' E1 E2 Hi E3 Hne E5 Hrun IH ];
    intros Hlast.
  - exists []. rewrite app_nil_r. simpl. auto.
  - apply output_lines_from_spec in E1.
    destruct E1 as [_ [[? _] | [_ Hl]]]; [discriminate |].
    exists []. rewrite app_nil_r. simpl. auto.
  - (* the length read is cut short: one batch, the cursor unmoved *)
    apply output_lines_from_spec in E1. destruct E1 as [[G1 _] [[Hr Hl1] | [? _]]];
      [| discriminate].
    apply len_output_lines_spec in E2. destruct E2 as [[G2 _] [[? _] | [_ Hl2]]];
      [discriminate |].
    exists [Sliced last (skipn last (w_output w1))].
    split; [now rewrite Hl2, Hl1 |]. simpl. repeat split; auto.
    apply skipn_of_prefix; [exact G2 |].
    apply prefix_of_length in G1. lia.
  - apply output_lines_from_spec in E1. destruct E1 as [[G1 _] [[Hr Hl1] | [? _]]];
      [| discriminate].
    apply len_output_lines_spec in E2. destruct E2 as [[G2 _] [[Hn Hl2] | [? _]]];
      [| discriminate].
    apply kill_process_tree_trace in Ek. destruct Ek as [[Gk _] (tk & Hlk & Hk)].
    simpl in Gk, Hlk. unfold output_grows in *. simpl in Gk.
    injection Hn as ->.
    exists (Sliced last (skipn last (w_output w1)) :: Measured (length (w_output w2)) :: tk).
    split; [rewrite Hlk, Hl2, Hl1, <- !app_assoc; reflexivity |].
    pose proof (prefix_of_length _ _ G1). pose proof (prefix_of_length _ _ G2).
    pose proof (prefix_of_length _ _ Gk).
    simpl. repeat split; auto.
    + apply skipn_of_prefix; [etransitivity; eauto | lia].
    + rewrite length_drop. lia.
    + now apply drained_from_kill_calls.
  - apply output_lines_from_spec in E1. destruct E1 as [[G1 _] [[Hr Hl1] | [? _]]];
      [| discriminate].
    apply len_output_lines_spec in E2. destruct E2 as [[G2 _] [[Hn Hl2] | [? _]]];
      [| discriminate].
    apply poll_spec in E3. destruct E3 as [[G3 _] [(code & ? & _) | [_ Hl3]]];
      [discriminate |].
    unfold output_grows in *. injection Hn as ->.
    exists [Sliced last (skipn last (w_output w1)); Measured (length (w_output w2))].
    split; [rewrite Hl3, Hl2, Hl1, <- !app_assoc; reflexivity |].
    pose proof (prefix_of_length _ _ G1). pose proof (prefix_of_length _ _ G2).
    pose proof (prefix_of_length _ _ G3).
    simpl. repeat split; auto.
    + apply skipn_of_prefix; [etransitivity; eauto | lia].
    + rewrite length_drop. lia.
  - apply output_lines_from_spec in E1. destruct E1 as [[G1 _] [[Hr Hl1] | [? _]]];
      [| discriminate].
    apply len_output_lines_spec in E2. destruct E2 as [[G2 _] [[Hn Hl2] | [? _]]];
      [| discriminate].
    apply poll_spec in E3. destruct E3 as [[G3 _] [(code & Hc & Hl3 & _) | [[e ?] _]]];
      [| discriminate].
    unfold output_grows in *. injection Hn as ->. injection Hc as <-.
    exists [Sliced last (skipn last (w_output w1)); Measured (length (w_output w2));
            Polled process (Some c)].
    pose proof (prefix_of_length _ _ G1). pose proof (prefix_of_length _ _ G2).
    pose proof (prefix_of_length _ _ G3).
    assert (Ho : forall w0 : world,
               w_output (if has_key (w_container w3) "server_error" then w3
                         else W.set_container
                                (insert "server_error" (VStr "Web server stopped unexpectedly"))
                                w3) = w_output w3
               /\ w_log (if has_key (w_container w3) "server_error" then w3
                         else W.set_container
                                (insert "server_error" (VStr "Web server stopped unexpectedly"))
                                w3) = w_log w3).
    { intros _. destruct (has_key _ _); auto. }
    destruct (Ho w) as [-> ->].
    split; [rewrite Hl3, Hl2, Hl1, <- !app_assoc; reflexivity |].
    simpl. repeat split; auto.
    + apply skipn_of_prefix; [etransitivity; eauto | lia].
    + rewrite length_drop. lia.
  - apply output_lines_from_spec in E1. destruct E1 as [[G1 _] [[Hr Hl1] | [? _]]];
      [| discriminate].
    apply len_output_lines_spec in E2. destruct E2 as [[G2 _] [[Hn Hl2] | [? _]]];
      [| discriminate].
    apply poll_spec in E3. destruct E3 as [[G3 _] [(code & Hc & Hl3 & _) | [[e0 ?] _]]];
      [| discriminate].
    apply time_time_spec in E4. destruct E4 as [[G4 _] Hl4].
    unfold output_grows in *. injection Hn as ->. injection Hc as <-.
    exists [Sliced last (skipn last (w_output w1)); Measured (length (w_output w2));
            Polled process None].
    pose proof (prefix_of_length _ _ G1). pose proof (prefix_of_length _ _ G2).
    pose proof (prefix_of_length _ _ G3). pose proof (prefix_of_length _ _ G4).
    split; [rewrite Hl4, Hl3, Hl2, Hl1, <- !app_assoc; reflexivity |].
    simpl. repeat split; auto; try lia.
    + apply skipn_of_prefix; [repeat (etransitivity; eauto) | lia].
    + rewrite length_drop. lia.
  - apply output_lines_from_spec in E1. destruct E1 as [[G1 _] [[Hr Hl1] | [? _]]];
      [| discriminate].
    apply len_output_lines_spec in E2. destruct E2 as [[G2 _] [[Hn Hl2] | [? _]]];
      [| discriminate].
    apply poll_spec in E3. destruct E3 as [[G3 _] [(code & Hc & Hl3 & _) | [[e0 ?] _]]];
      [| discriminate].
    apply time_time_spec in E4. destruct E4 as [[G4 _] Hl4].
    apply kill_process_tree_trace in Ek. destruct Ek as [[Gk _] (tk & Hlk & Hk)].
    unfold output_grows in *. injection Hn as ->. injection Hc as <-.
    exists (Sliced last (skipn last (w_output w1)) :: Measured (length (w_output w2))
              :: Polled process None :: tk).
    pose proof (prefix_of_length _ _ G1). pose proof (prefix_of_length _ _ G2).
    pose proof (prefix_of_length _ _ G3). pose proof (prefix_of_length _ _ G4).
    pose proof (prefix_of_length _ _ Gk).
    split; [rewrite Hlk, Hl4, Hl3, Hl2, Hl1, <- !app_assoc; reflexivity |].
    simpl. repeat split; auto; try lia.
    + apply skipn_of_prefix; [repeat (etransitivity; eauto) | lia].
    + rewrite length_drop. lia.
    + now apply drained_from_kill_calls.
  - apply output_lines_from_spec in E1. destruct E1 as [[G1 _] [[Hr Hl1] | [? _]]];
      [| discriminate].
    apply len_output_lines_spec in E2. destruct E2 as [[G2 _] [[Hn Hl2] | [? _]]];
      [| discriminate].
    apply poll_spec in E3. destruct E3 as [[G3 _] [(code & Hc & Hl3 & _) | [[e0 ?] _]]];
      [| discriminate].
    apply not_expired_spec in Hne. destruct Hne as [[G4 _] Hl4].
    apply time_sleep_spec in E5. destruct E5 as [[G5 _] [[? _] | [_ Hl5]]];
      [discriminate |].
    unfold output_grows in *. injection Hn as ->. injection Hc as <-.
    exists [Sliced last (skipn last (w_output w1)); Measured (length (w_output w2));
            Polled process None].
    pose proof (prefix_of_length _ _ G1). pose proof (prefix_of_length _ _ G2).
    pose proof (prefix_of_length _ _ G3). pose proof (prefix_of_length _ _ G4).
    pose proof (prefix_of_length _ _ G5).
    split; [rewrite Hl5, Hl4, Hl3, Hl2, Hl1, <- !app_assoc; reflexivity |].
    simpl. repeat split; auto; try lia.
    + apply skipn_of_prefix; [repeat (etransitivity; eauto) | lia].
    + rewrite length_drop. lia.
  - apply output_lines_from_spec in E1. destruct E1 as [[G1 _] [[Hr Hl1] | [? _]]];
      [| discriminate].
    apply len_output_lines_spec in E2. destruct E2 as [[G2 _] [[Hn Hl2] | [? _]]];
      [| discriminate].
    apply poll_spec in E3. destruct E3 as [[G3 _] [(code & Hc & Hl3 & _) | [[e0 ?] _]]];
      [| discriminate].
    apply not_expired_spec in Hne. destruct Hne as [[G4 _] Hl4].
    apply time_sleep_spec in E5. destruct E5 as [[G5 _] [[_ Hl5] | [? _]]];
      [| discriminate].
    pose proof (serve_run_grows _ _ _ _ _ _ _ Hrun) as G6.
    unfold output_grows in *. injection Hn as ->. injection Hc as <-.
    pose proof (prefix_of_length _ _ G1). pose proof (prefix_of_length _ _ G2).
    pose proof (prefix_of_length _ _ G3). pose proof (prefix_of_length _ _ G4).
    pose proof (prefix_of_length _ _ G5). pose proof (prefix_of_length _ _ G6).
    destruct IH as (t & Hlt & Ht); [lia |].
    exists (Sliced last (skipn last (w_output w1)) :: Measured (length (w_output w2))
              :: Polled process None :: Slept 1%float :: t).
    split; [rewrite Hlt, Hl5, Hl4, Hl3, Hl2, Hl1, <- !app_assoc; reflexivity |].
    simpl. repeat split; auto; try lia.
    + apply skipn_of_prefix; [repeat (etransitivity; eauto) | lia].
    + rewrite length_drop. lia.
Qed.

(** ** The service supervisor, from the call to the return *)

(** The ways through [run_main_web_app]: the probe does not return; the
    probe reports a failure; the clock cannot be read; the poll loop ends
    by itself; the poll loop is interrupted and the handler runs. *)
Lemma run_main_web_app_cases fuel main_path open_browser run_timeout rc w r w' :
  run_main_web_app fuel main_path open_browser run_timeout rc w = (r, w') ->
  let w0 := W.set_container (fun _ => default ∅ rc) w in
  (exists rs,
      run_web_server fuel main_path open_browser max_wait_default w0 = (rs, w')
      /\ ((exists e, rs = Raise e /\ r = Raise e) \/ (rs = NoFuel /\ r = NoFuel)))
  \/ exists info w1,
      run_web_server fuel main_path open_browser max_wait_default w0 = (Ok info, w1)
      /\ let w1c := W.set_container (store_server_info info) w1 in
         (as_bool (get info "success") = false
          /\ r = Ok false
          /\ w' = W.set_container
                    (insert "server_error"
                       (get_or info "error" (VStr "failed to run web server"))) w1c)
         \/ (as_bool (get info "success") = true
             /\ let process := as_handle (get info "process") in
                (exists e, time_time w1c = (Raise e, w') /\ r = Raise e)
                \/ exists st w2 r0 w3,
                    time_time w1c = (Ok st, w2)
                    /\ serve_loop fuel process run_timeout st 0 w2 = (r0, w3)
                    /\ ((r0 <> Raise KeyboardInterrupt /\ r = r0 /\ w' = w3)
                        \/ (r0 = Raise KeyboardInterrupt
                            /\ on_interrupt process w3 = (r, w')))).
Proof.
  intros H w0. unfold run_main_web_app in H.
  unfold bind at 1 in H. fold w0 in H.
  unfold bind at 1 in H.
  destruct (run_web_server fuel main_path open_browser max_wait_default w0)
    as [[info | e |] w1] eqn:E.
  2:{ inversion H; subst. left. eexists. split; [reflexivity |]. left. eauto. }
  2:{ inversion H; subst. left. eexists. split; [reflexivity |]. right. eauto. }
  right. exists info, w1. split; [reflexivity |]. cbv zeta.
  unfold bind at 1 in H. unfold setitem at 1 in H.
  unfold bind at 1 in H. unfold setitem at 1 in H.
  unfold bind at 1 in H. unfold setitem at 1 in H.
  change (W.set_container _ (W.set_container _ (W.set_container _ w1)))
    with (W.set_container (store_server_info info) w1) in H.
  destruct (as_bool (get info "success")) eqn:Hs; cbn [negb] in H.
  - right. split; [reflexivity |]. cbv zeta.
    unfold bind at 1 in H.
    destruct (time_time (W.set_container (store_server_info info) w1))
      as [[st | e |] w2] eqn:Et.
    3:{ exfalso. eapply ror_time_time. rewrite Et. reflexivity. }
    2:{ inversion H; subst. left. exists e. split; reflexivity. }
    right. unfold try_except in H.
    destruct (serve_loop fuel (as_handle (get info "process")) run_timeout st 0 w2)
      as [r0 w3] eqn:Es.
    exists st, w2, r0, w3.
    split; [first [reflexivity | exact Et] |]. split; [first [reflexivity | exact Es] |].
    destruct r0 as [b | e |].
    + inversion H; subst. left. split; [discriminate | auto].
    + destruct e; try (inversion H; subst; left; split; [discriminate | auto]; fail).
      right. auto.
    + inversion H; subst. left. split; [discriminate | auto].
  - left. split; [reflexivity |].
    unfold bind, setitem, ret in H. inversion H; subst. auto.
Qed.

(** The interrupt handler reports success or raises; it touches neither
    the list nor the dictionary and adds no slice to the trace. *)
Lemma on_interrupt_spec process w r w' :
  on_interrupt process w = (r, w') ->
  untouched w w' /\ grows_by not_drain w w' /\ r <> Ok false /\ r <> NoFuel.
Proof.
  intros H.
  assert (Hu : preserves untouched (on_interrupt process)).
  { unfold on_interrupt.
    apply (preserves_bind _ untouched_trans); [untouched_by preserves_poll |].
    intros [c |]; [apply (preserves_ret _ untouched_refl) |].
    apply (preserves_bind _ untouched_trans); [untouched_by preserves_kill_process_tree |].
    intros; apply (preserves_ret _ untouched_refl). }
  assert (Hg : preserves (grows_by not_drain) (on_interrupt process)).
  { unfold on_interrupt.
    apply (preserves_bind _ (grows_by_trans not_drain));
      [grows_by_with not_drain preserves_poll |].
    intros [c |]; [apply (preserves_ret _ (grows_by_refl not_drain)) |].
    apply (preserves_bind _ (grows_by_trans not_drain));
      [grows_by_with not_drain preserves_kill_process_tree |].
    intros; apply (preserves_ret _ (grows_by_refl not_drain)). }
  split; [eapply run_untouched; eauto |].
  split; [specialize (Hg w); now rewrite H in Hg |].
  unfold on_interrupt, bind in H.
  destruct (poll process w) as [[[c |] | e |] w1] eqn:Ep.
  - inversion H; subst. split; discriminate.
  - destruct (_kill_process_tree process w1) as [[[] | e |] w2] eqn:Ek;
      inversion H; subst; try (split; discriminate).
    exfalso. eapply ror_kill_process_tree. rewrite Ek. reflexivity.
  - inversion H; subst. split; discriminate.
  - exfalso. eapply ror_poll. rewrite Ep. reflexivity.
Qed.

(** *** Traces and their batches *)

Lemma batches_app t1 t2 : batches (t1 ++ t2) = batches t1 ++ batches t2.
Proof.
  induction t1 as [| x t1 IH]; simpl; [reflexivity |].
  destruct x; simpl; rewrite ?IH; reflexivity.
Qed.

Lemma batches_not_drain t : forallb not_drain t = true -> batches t = [].
Proof.
  induction t as [| x t IH]; simpl; [reflexivity |].
  intros H. apply andb_true_iff in H. destruct H as [Hx Ht].
  destruct x; try discriminate; auto.
Qed.

Lemma drained_from_skip out c pend t1 t2 :
  forallb not_drain t1 = true ->
  drained_from out c pend t2 -> drained_from out c pend (t1 ++ t2).
Proof.
  induction t1 as [| x t1 IH]; simpl; [auto |].
  intros H D. apply andb_true_iff in H. destruct H as [Hx Ht].
  destruct x; try discriminate; auto.
Qed.

Lemma drained_from_app_r out t1 t2 :
  forallb not_drain t2 = true ->
  forall c pend, drained_from out c pend t1 -> drained_from out c pend (t1 ++ t2).
Proof.
  intros H2. induction t1 as [| x t1 IH]; intros c pend D.
  - simpl. rewrite <- (app_nil_r t2). apply drained_from_skip; [exact H2 | exact I].
  - destruct x; simpl in *; auto.
    + destruct D as (? & ? & ? & D). auto.
    + destruct D as (? & ? & D). auto.
Qed.

Lemma drained_from_mono (out out' : list string) t :
  out `prefix_of` out' ->
  forall c pend, drained_from out c pend t -> drained_from out' c pend t.
Proof.
  intros [k ->]. induction t as [| x t IH]; intros c pend D; [exact I |].
  destruct x; simpl in *; auto.
  - destruct D as (Hp & Hs & Hl & D). repeat split; auto.
    destruct (Nat.le_gt_cases c (length out)) as [Hc | Hc].
    + rewrite drop_app_le by exact Hc.
      rewrite take_app_le; [exact Hl |].
      rewrite Hl at 1. rewrite length_take. lia.
    + rewrite drop_ge in Hl by lia.
      rewrite take_nil in Hl. rewrite Hl. reflexivity.
  - destruct D as (Hn & Hlen & D). rewrite length_app. repeat split; auto; lia.
Qed.

Lemma reads_agree_skip t1 t2 c pend :
  forallb not_drain t1 = true ->
  reads_agree c pend (t1 ++ t2) -> reads_agree c pend t2.
Proof.
  induction t1 as [| x t1 IH]; simpl; [auto |].
  intros H D. apply andb_true_iff in H. destruct H as [Hx Ht].
  destruct x; try discriminate; auto.
Qed.

Lemma reads_agree_app_l t1 t2 :
  forall c pend, reads_agree c pend (t1 ++ t2) -> reads_agree c pend t1.
Proof.
  induction t1 as [| x t1 IH]; intros c pend D; [exact I |].
  destruct x; simpl in *; eauto.
  destruct D as [? D]. eauto.
Qed.

(** When every length read agrees with the slice before it, the batches
    of a draining trace, put end to end, are the list from the cursor on,
    up to where the trace stopped. *)
Lemma drained_prefix out t :
  forall c pend,
    drained_from out c pend t -> reads_agree c pend t ->
    concat (batches t) `prefix_of` skipn (c + pend) out.
Proof.
  induction t as [| x t IH]; intros c pend D A; simpl.
  - apply prefix_nil.
  - destruct x; simpl in *; auto.
    + destruct D as (-> & -> & Hl & D).
      specialize (IH _ _ D A).
      rewrite Nat.add_0_r.
      rewrite <- (take_drop (length lines) (drop c out)).
      rewrite <- Hl. apply prefix_app.
      now rewrite drop_drop.
    + destruct D as (_ & _ & D). destruct A as [-> A].
      specialize (IH _ _ D A). now rewrite Nat.add_0_r in IH.
Qed.

(** C8 (amended). Along every run of the service supervisor, whatever its
    outcome:
    - the cursor never goes back, and each batch drained is the piece of
      the reader's list that starts at the cursor and has the length of the
      batch, so that no line is drained twice and the order is kept
      ([drained_from]);
    - when no line is appended between a slice and the length read after
      it ([reads_agree]), the batches put end to end are a prefix of the
      reader's list: no line before the last cursor is skipped.
    The lines the reader appends after the last drain are in no batch. *)
Theorem drained_batches_are_a_prefix :
  forall fuel main_path open_browser run_timeout rc w r w',
    run_main_web_app fuel main_path open_browser run_timeout rc w = (r, w') ->
    exists t,
      w_log w' = w_log w ++ t
      /\ drained_from (w_output w') 0 0 t
      /\ (reads_agree 0 0 t -> concat (batches t) `prefix_of` w_output w').
Proof.
  intros fuel main_path open_browser run_timeout rc w r w' H.
  assert (Hprobe : forall w0,
             grows_by not_drain w0
               (snd (run_web_server fuel main_path open_browser max_wait_default w0))).
  { intros w0. revert w0.
    grows_by_with not_drain preserves_run_web_server.
    intros f w0. exists []. simpl. now rewrite app_nil_r. }
  assert (Hfree : forall t, forallb not_drain t = true ->
             drained_from (w_output w') 0 0 t
             /\ (reads_agree 0 0 t -> concat (batches t) `prefix_of` w_output w')).
  { intros t Ht. split.
    - rewrite <- (app_nil_r t). apply drained_from_skip; [exact Ht | exact I].
    - intros _. rewrite batches_not_drain by exact Ht. apply prefix_nil. }
  apply run_main_web_app_cases in H. cbv zeta in H.
  destruct H as [(rs & E & _) | (info & w1 & E & H)].
  { specialize (Hprobe (W.set_container (fun _ => default ∅ rc) w)).
    rewrite E in Hprobe. destruct Hprobe as (t & Hl & Ht).
    exists t. split; [exact Hl |]. now apply Hfree. }
  specialize (Hprobe (W.set_container (fun _ => default ∅ rc) w)).
  rewrite E in Hprobe. destruct Hprobe as (t1 & Hl1 & Ht1). simpl in Hl1.
  destruct H as [(_ & _ & ->) | (_ & [(e & Et & _) | (st & w2 & r0 & w3 & Et & Es & H)])].
  { exists t1. split; [exact Hl1 |]. now apply Hfree. }
  { apply time_time_spec in Et. destruct Et as [_ Hl2]. simpl in Hl2.
    exists t1. split; [now rewrite Hl2 |]. now apply Hfree. }
  apply time_time_spec in Et. destruct Et as [_ Hl2]. simpl in Hl2.
  apply serve_loop_run in Es.
  destruct (serve_run_drains _ _ _ _ _ _ _ Es) as (t2 & Hl3 & D2); [lia |].
  assert (Hend : exists t3, w_log w' = w_log w3 ++ t3 /\ forallb not_drain t3 = true
                            /\ w_output w3 `prefix_of` w_output w').
  { destruct H as [(_ & _ & ->) | (_ & Hh)].
    - exists []. rewrite app_nil_r. repeat split; reflexivity.
    - apply on_interrupt_spec in Hh. destruct Hh as ([Ho _] & (t3 & Hl & Ht) & _).
      exists t3. auto. }
  destruct Hend as (t3 & Hl4 & Ht3 & Ho).
  exists (t1 ++ t2 ++ t3). split.
  { rewrite Hl4, Hl3, Hl2, Hl1, <- !app_assoc. reflexivity. }
  assert (D : drained_from (w_output w') 0 0 (t2 ++ t3)).
  { apply drained_from_app_r; [exact Ht3 |]. eapply drained_from_mono; eauto. }
  split; [now apply drained_from_skip |].
  intros A. apply reads_agree_skip in A; [| exact Ht1].
  rewrite !batches_app, (batches_not_drain t1), (batches_not_drain t3) by assumption.
  rewrite app_nil_l, app_nil_r.
  apply reads_agree_app_l in A.
  apply (drained_from_mono _ _ _ Ho) in D2.
  exact (drained_prefix _ _ _ _ D2 A).
Qed.

(** C8 as stated fails: the server prints "bye" and ends between the slice
    and the poll of a tick; the reader appends the line, the supervisor
    sees the process ended and returns; the session is over and "bye" is in
    no batch, although every length read agreed with its slice. *)
Lemma last_line_is_never_drained :
  let run := run_main_web_app 100 "/app/main.py" false None None Scenario.last_words in
  fst run = Ok false
  /\ w_output (snd run) = ["bye"]
  /\ batches (w_log (snd run)) = [[]]
  /\ reads_agree 0 0 (w_log (snd run))
  /\ concat (batches (w_log (snd run))) <> w_output (snd run).
Proof.
  cbv zeta.
  assert (Hr : fst (run_main_web_app 100 "/app/main.py" false None None Scenario.last_words)
               = Ok false) by (vm_compute; reflexivity).
  assert (Ho : w_output (snd (run_main_web_app 100 "/app/main.py" false None None
                                Scenario.last_words)) = ["bye"])
    by (vm_compute; reflexivity).
  assert (Hl : w_log (snd (run_main_web_app 100 "/app/main.py" false None None
                             Scenario.last_words))
               = [Spawned 2 "/app/main.py"; Polled 2 None; Connected 5000 true;
                  Sliced 0 []; Measured 0; Polled 2 (Some 0)])
    by (vm_compute; reflexivity).
  rewrite Hr, Ho, Hl. simpl. repeat split; auto; discriminate.
Qed.

Lemma drained_batches_are_a_prefix_witness :
  let run := run_main_web_app 100 "/app/main.py" false None None Scenario.two_lines in
  exists t,
    w_log (snd run) = t
    /\ w_output (snd run) = ["hello"; "world"]
    /\ drained_from (w_output (snd run)) 0 0 t
    /\ reads_agree 0 0 t
    /\ concat (batches t) = ["hello"; "world"]
    /\ concat (batches t) `prefix_of` w_output (snd run).
Proof.
  cbv zeta.
  destruct (drained_batches_are_a_prefix 100 "/app/main.py" false None None
              Scenario.two_lines _ _ (surjective_pairing _)) as (t & Hl & D & P).
  assert (Hlog : w_log (snd (run_main_web_app 100 "/app/main.py" false None None
                               Scenario.two_lines))
                 = [Spawned 2 "/app/main.py"; Polled 2 None; Connected 5000 true;
                    Sliced 0 ["hello"]; Measured 1; Polled 2 None; Slept 1%float;
                    Sliced 1 ["world"]; Measured 2; Polled 2 (Some 0)])
    by (vm_compute; reflexivity).
  assert (Ho : w_output (snd (run_main_web_app 100 "/app/main.py" false None None
                                Scenario.two_lines)) = ["hello"; "world"])
    by (vm_compute; reflexivity).
  change (w_log Scenario.two_lines ++ t) with t in Hl.
  exists t. split; [exact Hl |]. split; [exact Ho |]. split; [exact D |].
  assert (A : reads_agree 0 0 t).
  { rewrite <- Hl, Hlog. simpl. auto. }
  split; [exact A |]. split; [| exact (P A)].
  rewrite <- Hl, Hlog. reflexivity.
Defined.

(** ** The crash marker *)

Lemma prefix_empty (y : string) : String.prefix "" y = true.
Proof. destruct y; reflexivity. Qed.

Lemma prefix_append (x : string) :
  forall m s, String.prefix m x = true -> String.prefix m (x +:+ s) = true.
Proof.
  induction x as [| b x IH]; intros m s H.
  - destruct m; [apply prefix_empty | discriminate].
  - destruct m as [| a m]; [apply prefix_empty |].
    simpl in *. destruct (Ascii.ascii_dec a b); [auto | discriminate].
Qed.

Lemma contains_append (m x s : string) :
  contains m x = true -> contains m (x +:+ s) = true.
Proof.
  induction x as [| b x IH]; intros H.
  - simpl in H. rewrite orb_false_r in H.
    destruct m; [| discriminate]. destruct s; reflexivity.
  - cbn [contains] in H. apply orb_true_iff in H.
    change (String b x +:+ s) with (String b (x +:+ s)). cbn [contains].
    apply orb_true_iff. destruct H as [H | H].
    + left. change (String b (x +:+ s)) with (String b x +:+ s). now apply prefix_append.
    + right. auto.
Qed.

(** The index found is that of the first line that holds the marker. *)
Lemma first_crash_index_spec (lines : list string) :
  forall k i,
    first_crash_index lines k = Some i ->
    exists line,
      (k <= i)%nat
      /\ lines !! (i - k)%nat = Some line
      /\ contains crash_marker line = true
      /\ forall j l, (j < i - k)%nat -> lines !! j = Some l ->
                     contains crash_marker l = false.
Proof.
  induction lines as [| x lines IH]; intros k i H; simpl in H; [discriminate |].
  destruct (contains crash_marker x) eqn:Hx.
  - injection H as <-. exists x. rewrite Nat.sub_diag. repeat split; auto.
    intros j l Hj. lia.
  - apply IH in H. destruct H as (line & Hk & Hl & Hc & Hbefore).
    exists line. split; [lia |].
    replace (i - k)%nat with (S (i - S k)) by lia.
    repeat split; auto.
    intros [| j] l Hj Hjl; simpl in Hjl.
    + now injection Hjl as <-.
    + eapply Hbefore; [| exact Hjl]. lia.
Qed.

Lemma first_crash_index_none (lines : list string) :
  forall k, first_crash_index lines k = None ->
            Forall (fun l => contains crash_marker l = false) lines.
Proof.
  induction lines as [| x lines IH]; intros k H; simpl in H; [constructor |].
  destruct (contains crash_marker x) eqn:Hx; [discriminate |].
  constructor; eauto.
Qed.

(** The diagnostic holds the marker. *)
Lemma traceback_has_marker (lines : list string) i :
  first_crash_index lines 0 = Some i ->
  contains crash_marker (join nl (skipn i lines)) = true.
Proof.
  intros H. apply first_crash_index_spec in H.
  destruct H as (line & _ & Hl & Hc & _). rewrite Nat.sub_0_r in Hl.
  rewrite (drop_S _ _ _ Hl). unfold join.
  destruct (drop (S i) lines) as [| y rest]; [exact Hc |].
  change (String.concat nl (line :: y :: rest))
    with (line +:+ (nl +:+ String.concat nl (y :: rest))).
  now apply contains_append.
Qed.

(** ** What a run of the poll loop reports *)

Lemma slice_ok last_len w lines w1 :
  output_lines_from last_len w = (Ok lines, w1) ->
  untouched w w1 /\ w_log w1 = w_log w ++ [Sliced last_len lines].
Proof.
  intros H. apply output_lines_from_spec in H.
  destruct H as [Hu [[Hr Hl] | [? _]]]; [| discriminate].
  injection Hr as ->. auto.
Qed.

Lemma slice_raise last_len w e w1 :
  output_lines_from last_len w = (Raise e, w1) ->
  untouched w w1 /\ w_log w1 = w_log w.
Proof.
  intros H. apply output_lines_from_spec in H.
  destruct H as [Hu [[? _] | [_ Hl]]]; [discriminate | auto].
Qed.

Lemma len_ok w n w1 :
  len_output_lines w = (Ok n, w1) ->
  untouched w w1 /\ w_log w1 = w_log w ++ [Measured n].
Proof.
  intros H. apply len_output_lines_spec in H.
  destruct H as [Hu [[Hr Hl] | [? _]]]; [| discriminate].
  injection Hr as ->. auto.
Qed.

Lemma len_raise w e w1 :
  len_output_lines w = (Raise e, w1) ->
  untouched w w1 /\ w_log w1 = w_log w.
Proof.
  intros H. apply len_output_lines_spec in H.
  destruct H as [Hu [[? _] | [_ Hl]]]; [discriminate | auto].
Qed.

Lemma poll_ok_untouched process w code w1 :
  poll process w = (Ok code, w1) ->
  untouched w w1 /\ w_log w1 = w_log w ++ [Polled process code].
Proof.
  intros H. pose proof (poll_ok _ _ _ _ H) as Hl.
  apply poll_spec in H. destruct H as [Hu _]. auto.
Qed.

Lemma poll_raise process w e w1 :
  poll process w = (Raise e, w1) ->
  untouched w w1 /\ w_log w1 = w_log w.
Proof.
  intros H. apply poll_spec in H.
  destruct H as [Hu [(code & ? & _) | [_ Hl]]]; [discriminate | auto].
Qed.

Lemma sleep_ok secs w w1 :
  time_sleep secs w = (Ok tt, w1) ->
  untouched w w1 /\ w_log w1 = w_log w ++ [Slept secs].
Proof.
  intros H. apply time_sleep_spec in H.
  destruct H as [Hu [[_ Hl] | [? _]]]; [auto | discriminate].
Qed.

Lemma sleep_raise secs w e w1 :
  time_sleep secs w = (Raise e, w1) ->
  untouched w w1 /\ w_log w1 = w_log w.
Proof.
  intros H. apply time_sleep_spec in H.
  destruct H as [Hu [[? _] | [_ Hl]]]; [discriminate | auto].
Qed.

Lemma scanned_kill_calls t : forallb is_kill_call t = true -> scanned t = [].
Proof.
  induction t as [| x t IH]; simpl; [reflexivity |].
  intros H. apply andb_true_iff in H. destruct H as [Hx Ht].
  destruct x; try discriminate; auto.
Qed.

Lemma not_signal_kill_free t1 t2 :
  forallb not_signal (t1 ++ t2) = forallb not_signal t1 && forallb not_signal t2.
Proof. apply forallb_app. Qed.

(** Turn the equations of one tick into facts on the trace, the list and
    the dictionary. *)
Ltac tick_facts :=
  repeat match goal with
    | E : output_lines_from _ _ = (Ok _, _) |- _ =>
        apply slice_ok in E; destruct E as [[? ?] ?]
    | E : output_lines_from _ _ = (Raise _, _) |- _ =>
        apply slice_raise in E; destruct E as [[? ?] ?]
    | E : len_output_lines _ = (Ok _, _) |- _ =>
        apply len_ok in E; destruct E as [[? ?] ?]
    | E : len_output_lines _ = (Raise _, _) |- _ =>
        apply len_raise in E; destruct E as [[? ?] ?]
    | E : poll _ _ = (Ok _, _) |- _ =>
        apply poll_ok_untouched in E; destruct E as [[? ?] ?]
    | E : poll _ _ = (Raise _, _) |- _ =>
        apply poll_raise in E; destruct E as [[? ?] ?]
    | E : time_sleep _ _ = (Ok _, _) |- _ =>
        apply sleep_ok in E; destruct E as [[? ?] ?]
    | E : time_sleep _ _ = (Raise _, _) |- _ =>
        apply sleep_raise in E; destruct E as [[? ?] ?]
    | E : time_time _ = _ |- _ =>
        apply time_time_spec in E; destruct E as [[? ?] ?]
    | E : not_expired _ _ _ _ |- _ =>
        apply not_expired_spec in E; destruct E as [[? ?] ?]
    end.

Ltac chain_log :=
  repeat match goal with
    | H : w_log _ = _ |- _ => rewrite H; clear H
    end;
  rewrite <- ?app_assoc; simpl; try reflexivity.

Ltac chain_container :=
  repeat match goal with
    | H : w_container _ = w_container _ |- _ => rewrite H; clear H
    end;
  try reflexivity.

(** The calls of the tree terminator and the ways it ends. *)
Lemma kill_process_tree_calls proc w r w' :
  _kill_process_tree proc w = (r, w') ->
  (r = Ok tt \/ r = Raise KeyboardInterrupt \/ exists q, r = Raise (AccessDenied q))
  /\ untouched w w'
  /\ exists tk,
       w_log w' = w_log w ++ tk
       /\ terminator_trace proc tk
       /\ forallb is_kill_call tk = true.
Proof.
  intros H. pose proof (kill_process_tree_trace _ _ _ _ H) as [Hu _].
  apply kill_process_tree_spec in H. destruct H as [Hr Hl].
  split; [exact Hr |]. split; [exact Hu |].
  destruct Hl as [Hl | (cs & k & Hk & Hl)].
  - exists []. rewrite app_nil_r. split; [exact Hl |]. split; [now left | reflexivity].
  - eexists. split; [exact Hl |]. split; [right; eauto |]. simpl.
    apply forallb_forall. intros c Hc. apply in_map_iff in Hc.
    destruct Hc as (q & <- & _). reflexivity.
Qed.

Lemma kill_calls_not_drain t : forallb is_kill_call t = true -> forallb not_drain t = true.
Proof.
  induction t as [| x t IH]; simpl; [reflexivity |].
  intros H. apply andb_true_iff in H. destruct H as [Hx Ht].
  rewrite (IH Ht). destruct x; try discriminate; reflexivity.
Qed.

(** *** The ticks that end in the sleep *)

(** The check of the timeout in a tick that goes on. *)
Lemma not_expired_check run_timeout start_time w3 w4 :
  not_expired run_timeout start_time w3 w4 ->
  (if truthy run_timeout then
     now <- time_time ;;
     ret (exceeds (PrimFloat.sub now start_time) run_timeout)
   else ret false) w3 = (Ok false, w4).
Proof.
  intros [[-> ->] | (-> & now & E & Hx)]; [reflexivity |].
  unfold bind. rewrite E. unfold ret. now rewrite Hx.
Qed.


(** A loop that is given no more steps than there are such ticks runs out
    of them. *)
Lemma idle_ticks_out_of_fuel process run_timeout start_time k c w c' w' :
  idle_ticks process run_timeout start_time k c w c' w' ->
  forall fuel,
    (fuel <= k)%nat ->
    fst (serve_loop fuel process run_timeout start_time c w) = NoFuel.
Proof.
  induction 1 as [c w | k c w lines w1 n w2 w3 w4 w5 c' w' E1 E2 Hi E3 Hne E5 _ IH];
    intros fuel Hf.
  - assert (fuel = 0%nat) as -> by lia. reflexivity.
  - destruct fuel as [| fuel]; [reflexivity |]. cbn [serve_loop].
    rewrite (bind_ok _ _ _ _ _ E1), (bind_ok _ _ _ _ _ E2), Hi, (bind_ok _ _ _ _ _ E3).
    unfold bind at 1. rewrite (not_expired_check _ _ _ _ Hne).
    rewrite (bind_ok _ _ _ _ _ E5). apply IH. lia.
Qed.

Lemma idle_ticks_fuel process run_timeout start_time k c w c' wa fuel r w' :
  idle_ticks process run_timeout start_time k c w c' wa ->
  serve_loop fuel process run_timeout start_time c w = (r, w') ->
  r <> NoFuel ->
  (k < fuel)%nat.
Proof.
  intros Hi Hl Hr. destruct (Nat.lt_ge_cases k fuel) as [Hlt | Hge]; [exact Hlt |].
  pose proof (idle_ticks_out_of_fuel _ _ _ _ _ _ _ _ Hi fuel Hge) as Hn.
  rewrite Hl in Hn. simpl in Hn. contradiction.
Qed.


(** A run of the poll loop either recorded a crash: the last batch it
    scanned holds the marker, none before does, the dictionary has the
    diagnostic of that batch, and the tick that scanned it called the
    terminator; or it scanned no marker: then it reports a failure only
    for a process found ended, having sent no signal. *)
Lemma serve_run_outcome process run_timeout start_time last_len w r w' :
  serve_run process run_timeout start_time last_len w r w' ->
  exists t,
    w_log w' = w_log w ++ t
    /\ ((exists s0 lines i k c wa rk t0 tk,
            scanned t = s0 ++ [lines]
            /\ Forall (fun l => first_crash_index l 0 = None) s0
            /\ first_crash_index lines 0 = Some i
            /\ w_container w'
               = <["server_error" := VStr (join nl (skipn i lines))]> (w_container w)
            /\ idle_ticks process run_timeout start_time k last_len w c wa
            /\ crash_tick process c wa lines i rk w'
            /\ r = after_kill rk false
            /\ t = t0 ++ tk
            /\ forallb not_signal t0 = true
            /\ terminator_trace process tk)
        \/ (clean t
            /\ ((r = Ok false
                 /\ forallb not_signal t = true
                 /\ w_container w'
                    = (if has_key (w_container w) "server_error" then w_container w
                       else <["server_error" := VStr "Web server stopped unexpectedly"]>
                              (w_container w)))
                \/ (r <> Ok false /\ w_container w' = w_container w)))).
Proof.
  induction 1 as
    [ last w
    | last w e w' E1
    | last w lines w1 e w' E1 E2
    | last w lines w1 n w2 i rk w' E1 E2 Hi Ek
    | last w lines w1 n w2 e w' E1 E2 Hi E3
    | last w lines w1 n w2 c w3 E1 E2 Hi E3
    | last w lines w1 n w2 w3 e w' E1 E2 Hi E3 Ht E4
    | last w lines w1 n w2 w3 now w4 rk w' E1 E2 Hi E3 Ht E4 Hexp Ek
    | last w lines w1 n w2 w3 w4 e w' E1 E2 Hi E3 Hne E5
    | last w lines w1 n w2 w3 w4 w5 r w' E1 E2 Hi E3 Hne E5 Hrun IH ].
  - exists []. split; [now rewrite app_nil_r |]. right. split; [constructor |].
    right. split; [discriminate | reflexivity].
  - tick_facts. exists []. split; [chain_log; now rewrite app_nil_r |].
    right. split; [constructor |]. right. split; [discriminate | chain_container].
  - tick_facts. exists [Sliced last lines]. split; [chain_log |].
    right. split; [constructor |]. right. split; [discriminate | chain_container].
  - assert (Hct : crash_tick process last w lines i rk w') by (exists w1, n, w2; auto).
    apply kill_process_tree_calls in Ek.
    destruct Ek as (_ & [_ Hc] & tk & Hlk & Htk & Hk).
    simpl in Hc, Hlk. tick_facts.
    exists (Sliced last lines :: Measured n :: tk). split; [chain_log |].
    left. exists [], lines, i, 0%nat, last, w, rk, [Sliced last lines; Measured n], tk.
    simpl. rewrite (scanned_kill_calls _ Hk).
    split; [reflexivity |]. split; [constructor |]. split; [exact Hi |].
    split; [rewrite Hc; f_equal; chain_container |].
    split; [constructor |]. split; [exact Hct |]. auto.
  - tick_facts. exists [Sliced last lines; Measured n]. split; [chain_log |].
    right. split; [repeat constructor; exact Hi |].
    right. split; [discriminate | chain_container].
  - tick_facts. exists [Sliced last lines; Measured n; Polled process (Some c)].
    assert (Hc : w_container w3 = w_container w) by chain_container.
    split.
    { destruct (has_key (w_container w3) "server_error"); simpl; chain_log. }
    right. split; [repeat constructor; exact Hi |].
    left. split; [reflexivity |]. split; [reflexivity |].
    rewrite <- Hc. destruct (has_key (w_container w3) "server_error"); reflexivity.
  - tick_facts. exists [Sliced last lines; Measured n; Polled process None].
    split; [chain_log |].
    right. split; [repeat constructor; exact Hi |].
    right. split; [discriminate | chain_container].
  - apply kill_process_tree_trace in Ek. destruct Ek as [[_ Hc] (tk & Hlk & Hk)].
    tick_facts.
    exists (Sliced last lines :: Measured n :: Polled process None :: tk).
    split; [chain_log |].
    right. split.
    { unfold clean. simpl. rewrite (scanned_kill_calls _ Hk). repeat constructor. exact Hi. }
    right. split; [destruct rk; discriminate | chain_container].
  - tick_facts. exists [Sliced last lines; Measured n; Polled process None].
    split; [chain_log |].
    right. split; [repeat constructor; exact Hi |].
    right. split; [discriminate | chain_container].
  - destruct IH as (t & Hlt & IH).
    assert (Hnext : forall k c wa,
               idle_ticks process run_timeout start_time k n w5 c wa ->
               idle_ticks process run_timeout start_time (S k) last w c wa).
    { intros k c wa Hidle. eapply idle_next; eauto. }
    tick_facts.
    assert (Hc : w_container w5 = w_container w) by chain_container.
    exists (Sliced last lines :: Measured n :: Polled process None :: Slept 1%float :: t).
    split; [chain_log |].
    rewrite Hc in IH.
    destruct IH as [(s0 & lines' & i & k & c & wa & rk & t0 & tk & Hs & Hclean & Hi' & Hcont
                     & Hidle & Hct & Hr & Ht & Hs0 & Htk)
                   | (Hclean & IH)].
    + left.
      exists (lines :: s0), lines', i, (S k), c, wa, rk,
        (Sliced last lines :: Measured n :: Polled process None :: Slept 1%float :: t0), tk.
      simpl. rewrite Hs.
      split; [reflexivity |]. split; [constructor; [exact Hi | exact Hclean] |].
      split; [exact Hi' |]. split; [exact Hcont |]. split; [apply Hnext, Hidle |].
      split; [exact Hct |]. split; [exact Hr |]. split; [now rewrite Ht |].
      split; [exact Hs0 | exact Htk].
    + right. split; [unfold clean; simpl; constructor; [exact Hi | exact Hclean] |].
      destruct IH as [(-> & Hsig & Hcont) | (Hr & Hcont)]; [left | right]; auto.
Qed.

(** ** What a run of the service supervisor reports *)

Lemma quiet_forallb t :
  forallb quiet t = true -> forallb not_drain t = true /\ forallb not_signal t = true.
Proof.
  induction t as [| x t IH]; simpl; [auto |].
  intros H. apply andb_true_iff in H. destruct H as [Hx Ht].
  apply andb_true_iff in Hx. destruct Hx as [-> ->]. simpl. auto.
Qed.

Lemma scanned_skip t1 t2 :
  forallb not_drain t1 = true -> scanned (t1 ++ t2) = scanned t2.
Proof.
  induction t1 as [| x t1 IH]; simpl; [reflexivity |].
  intros H. apply andb_true_iff in H. destruct H as [Hx Ht].
  destruct x; try discriminate; auto.
Qed.

Lemma scanned_not_drain t : forallb not_drain t = true -> scanned t = [].
Proof.
  intros H. rewrite <- (app_nil_r t). now rewrite scanned_skip.
Qed.

Lemma scanned_app_r t1 t2 :
  forallb not_drain t2 = true -> scanned (t1 ++ t2) = scanned t1.
Proof.
  intros H2. induction t1 as [| x t1 IH]; [now apply scanned_not_drain |].
  destruct x; simpl; auto.
  destruct t1 as [| y t1].
  - simpl. destruct t2 as [| z t2]; [reflexivity |].
    simpl in H2. apply andb_true_iff in H2. destruct H2 as [Hz H2].
    destruct z; try discriminate; simpl in *;
      rewrite (scanned_not_drain t2) by exact H2; reflexivity.
  - simpl in *. destruct y; simpl in *; rewrite ?IH; auto.
Qed.

Lemma has_key_none (d : dict) k : d !! k = None -> has_key d k = false.
Proof.
  intros H. unfold has_key. apply bool_decide_eq_false. rewrite H.
  intros [x Hx]. discriminate.
Qed.

Lemma store_lookup_error info (d : dict) :
  store_server_info info d !! "server_error" = d !! "server_error".
Proof. unfold store_server_info. now rewrite !lookup_insert_ne by discriminate. Qed.

Lemma store_lookup_process info (d : dict) :
  store_server_info info d !! "server_process" = Some (get info "process").
Proof.
  unfold store_server_info. rewrite !lookup_insert_ne by discriminate.
  apply lookup_insert_eq.
Qed.

(** The three results of the probe, read as dictionaries. *)
Lemma probe_outcome_info filepath open_browser max_wait w info w' :
  probe_outcome filepath open_browser max_wait w info w' ->
  exists process,
    get info "process" = VProc process
    /\ ((as_bool (get info "success") = false
         /\ (get_or info "error" (VStr "failed to run web server")
             = VStr "Server exited unexpectedly"
             \/ get_or info "error" (VStr "failed to run web server")
                = VStr "Server did not start in time"))
        \/ as_bool (get info "success") = true).
Proof.
  intros (process & k & _ & H). exists process.
  destruct H as [(c & -> & _) | [(j & p & _ & -> & _) | (-> & _)]].
  - split; [reflexivity |]. left. split; [reflexivity |]. left. reflexivity.
  - split; [reflexivity |]. right. reflexivity.
  - split; [reflexivity |]. left. split; [reflexivity |]. right. reflexivity.
Qed.

Lemma res_ok_false_dec (r : res bool) : r = Ok false \/ r <> Ok false.
Proof.
  destruct r as [[|] | e |]; [right | left | right | right];
    first [reflexivity | discriminate].
Qed.

Lemma run_web_server_container fuel filepath open_browser max_wait w :
  w_container (snd (run_web_server fuel filepath open_browser max_wait w)) = w_container w.
Proof.
  assert (H : preserves same_container
                (run_web_server fuel filepath open_browser max_wait)).
  { apply (preserves_run_web_server same_container) with (allowed := any_call);
      unfold same_container; try (intros; reflexivity).
    - intros w1 w2 w3 H1 H2. congruence.
    - intros w0 w' _ Hc _. exact Hc.
    - intros e w0. apply container_event. }
  exact (H w).
Qed.

(** Once the server is up, the call is the poll loop under its handler. *)
Lemma run_main_web_app_running fuel main_path open_browser run_timeout rc w info w1
    start_time w2 :
  run_web_server fuel main_path open_browser max_wait_default
    (W.set_container (fun _ => default ∅ rc) w) = (Ok info, w1) ->
  as_bool (get info "success") = true ->
  time_time (W.set_container (store_server_info info) w1) = (Ok start_time, w2) ->
  run_main_web_app fuel main_path open_browser run_timeout rc w
  = try_except
      (serve_loop fuel (as_handle (get info "process")) run_timeout start_time 0)
      (fun e =>
         match e with
         | KeyboardInterrupt => Some (on_interrupt (as_handle (get info "process")))
         | _ => None
         end) w2.
Proof.
  intros Es Hok Et. unfold run_main_web_app.
  unfold bind at 1. rewrite (bind_ok _ _ _ _ _ Es).
  unfold bind at 1. unfold setitem at 1.
  unfold bind at 1. unfold setitem at 1.
  unfold bind at 1. unfold setitem at 1.
  change (W.set_container _ (W.set_container _ (W.set_container _ w1)))
    with (W.set_container (store_server_info info) w1).
  rewrite Hok. cbn [negb]. now rewrite (bind_ok _ _ _ _ _ Et).
Qed.



Lemma run_main_web_app_outcome fuel main_path open_browser run_timeout rc w r w' :
  default ∅ rc !! "server_error" = None ->
  run_main_web_app fuel main_path open_browser run_timeout rc w = (r, w') ->
  exists t,
    w_log w' = w_log w ++ t
    /\ run_outcome fuel main_path open_browser run_timeout rc w t r w'.
Proof.
  intros Hrc H.
  assert (Hprobe : forall w0,
             grows_by quiet w0
               (snd (run_web_server fuel main_path open_browser max_wait_default w0))).
  { intros w0. revert w0.
    grows_by_with quiet preserves_run_web_server.
    intros f w0. exists []. simpl. now rewrite app_nil_r. }
  assert (Hother : forall t, forallb not_drain t = true -> r <> Ok false ->
                             run_outcome fuel main_path open_browser run_timeout rc w t r w').
  { intros t Ht Hr. right; right. split; [| right; exact Hr].
    unfold clean. rewrite (scanned_not_drain _ Ht). constructor. }
  pose proof H as Hcall.
  apply run_main_web_app_cases in H. cbv zeta in H.
  specialize (Hprobe (W.set_container (fun _ => default ∅ rc) w)).
  destruct H as [(rs & E & Hr) | (info & w1 & E & H)].
  { rewrite E in Hprobe. destruct Hprobe as (t & Hl & Ht).
    apply quiet_forallb in Ht. destruct Ht as [Hd _].
    exists t. split; [exact Hl |]. apply Hother; [exact Hd |].
    destruct Hr as [(e & _ & ->) | [_ ->]]; discriminate. }
  rewrite E in Hprobe. destruct Hprobe as (t1 & Hl1 & Ht1). simpl in Hl1.
  apply quiet_forallb in Ht1. destruct Ht1 as [Hd1 Hs1].
  assert (Hc1 : w_container w1 = default ∅ rc).
  { pose proof (run_web_server_container fuel main_path open_browser max_wait_default
                  (W.set_container (fun _ => default ∅ rc) w)) as Hc.
    rewrite E in Hc. exact Hc. }
  pose proof E as Es.
  apply run_web_server_ok, probe_outcome_info in E.
  destruct E as (process & Hproc & Hinfo).
  assert (Hsp : forall v,
             (<["server_error" := v]>
                (store_server_info info (default ∅ rc))) !! "server_process"
             = Some (VProc process)).
  { intros v. rewrite lookup_insert_ne by discriminate.
    now rewrite store_lookup_process, Hproc. }
  destruct H as [(Hfail & -> & ->)
                | (Hok & [(e & Et & ->) | (st & w2 & r0 & w3 & Et & El & H)])].
  - (* the probe reported a failure *)
    exists t1. split; [exact Hl1 |]. left.
    split; [reflexivity |]. split; [now apply scanned_not_drain |]. split; [exact Hs1 |].
    destruct Hinfo as [(_ & Hmsg) | Hok]; [| congruence].
    simpl. rewrite Hc1.
    destruct Hmsg as [Hmsg | Hmsg]; rewrite Hmsg.
    + exists process, "Server exited unexpectedly".
      split; [left; reflexivity |]. split; [apply lookup_insert_eq | apply Hsp].
    + exists process, "Server did not start in time".
      split; [right; reflexivity |]. split; [apply lookup_insert_eq | apply Hsp].
  - apply time_time_spec in Et. destruct Et as [_ Hl2]. simpl in Hl2.
    exists t1. split; [now rewrite Hl2 |]. apply Hother; [exact Hd1 | discriminate].
  - pose proof Et as Et'.
    apply time_time_spec in Et. destruct Et as [[_ Hc2] Hl2]. simpl in Hl2, Hc2.
    rewrite Hproc in El, H. simpl as_handle in El, H.
    pose proof El as Es'.
    apply serve_loop_run, serve_run_outcome in El.
    destruct El as (t2 & Hl3 & Hout).
    assert (Hend : exists t3, w_log w' = w_log w3 ++ t3 /\ forallb not_drain t3 = true
                              /\ w_container w' = w_container w3
                              /\ (r = Ok false -> t3 = [] /\ r0 = Ok false /\ w' = w3)
                              /\ (r0 <> Raise KeyboardInterrupt -> t3 = [] /\ r = r0 /\ w' = w3)).
    { destruct H as [(Hne & -> & ->) | (-> & Hh)].
      - exists []. rewrite app_nil_r. repeat split; auto.
      - apply on_interrupt_spec in Hh.
        destruct Hh as ([_ Hc] & (t3 & Hl & Ht) & Hnf & _).
        exists t3. repeat split; auto; try contradiction. }
    destruct Hend as (t3 & Hl4 & Hd3 & Hc4 & Hfalse & Hsame).
    exists (t1 ++ t2 ++ t3). split.
    { rewrite Hl4, Hl3, Hl2, Hl1, <- !app_assoc. reflexivity. }
    assert (Hsc : scanned (t1 ++ t2 ++ t3) = scanned t2).
    { rewrite scanned_skip by exact Hd1. now apply scanned_app_r. }
    rewrite Hc2 in Hout. simpl in Hout. rewrite Hc1 in Hout.
    destruct Hout as [(s0 & lines & i & k & c & wa & rk & t0 & tk & Hs & Hclean & Hi & Hcont
                       & Hidle & Hct & Hr & Ht & Hs0 & Htk)
                     | (Hclean & Hout)].
    + right; left.
      assert (Hrk : rk = Ok tt \/ rk = Raise KeyboardInterrupt
                    \/ exists q, rk = Raise (AccessDenied q)).
      { destruct Hct as (wx & nx & wy & _ & _ & _ & Ek).
        now apply kill_process_tree_calls in Ek. }
      assert (Hk : (k < fuel)%nat).
      { apply (idle_ticks_fuel _ _ _ _ _ _ _ _ _ _ _ Hidle Es').
        subst r0. destruct Hrk as [-> | [-> | [q ->]]]; discriminate. }
      assert (Hw : watching fuel main_path open_browser run_timeout rc w process st k c wa).
      { exists info, w1, w2. auto 10. }
      exists process, s0, lines, i, st, k, c, wa, rk, w3, (t1 ++ t0), tk, t3.
      rewrite Hsc, Hc4, Hcont.
      split; [exact Hs |]. split; [exact Hclean |]. split; [exact Hi |].
      split; [apply lookup_insert_eq |]. split; [apply Hsp |]. split; [exact Hw |].
      split; [exact Hct |]. split.
      { subst r0. destruct H as [(Hne & -> & ->) | (Hki & Hh)].
        - destruct Hrk as [-> | [-> | [q ->]]].
          + left. auto.
          + now elim Hne.
          + right. left. exists q. auto.
        - destruct Hrk as [-> | [-> | [q ->]]]; try discriminate.
          right. right. auto. }
      split; [rewrite Ht, <- !app_assoc; reflexivity |].
      split; [rewrite forallb_app, Hs1, Hs0; reflexivity |].
      split; [exact Htk |].
      intros Hne. apply Hsame. subst r0.
      destruct Hrk as [-> | [-> | [q ->]]]; [discriminate | now elim Hne | discriminate].
    + right; right. split; [unfold clean; rewrite Hsc; exact Hclean |].
      destruct (res_ok_false_dec r) as [Hrf | Hrf]; [left | right; exact Hrf].
      destruct (Hfalse Hrf) as (-> & -> & ->).
      destruct Hout as [(_ & Hsig & Hcont) | (Hne & _)]; [| contradiction].
      split; [exact Hrf |]. split.
      { rewrite app_nil_r, forallb_app, Hs1, Hsig. reflexivity. }
      exists process. rewrite Hcont.
      rewrite (has_key_none _ _ (eq_trans (store_lookup_error info _) Hrc)).
      split; [apply lookup_insert_eq | apply Hsp].
Qed.

(** C1 (amended). A run of the service supervisor that reports a failure,
    its dictionary having started without a ["server_error"], has left
    the handle of the spawned process under ["server_process"], and
    - either it recorded a crash diagnostic: then the call was watching
      the server, a tick of its poll loop scanned the marker, and the call
      ended with the tree terminator that this tick called on the process;
      the signals of the whole run are the SIGTERMs of that one call;
    - or its error is "Server exited unexpectedly", "Server did not start
      in time" or "Web server stopped unexpectedly", and then it sent no
      signal to any process: the cleanup is left to the caller. *)
Theorem failed_service_run_cleanup :
  forall fuel main_path open_browser run_timeout rc w w',
    default ∅ rc !! "server_error" = None ->
    run_main_web_app fuel main_path open_browser run_timeout rc w = (Ok false, w') ->
    exists process t,
      w_log w' = w_log w ++ t
      /\ w_container w' !! "server_process" = Some (VProc process)
      /\ ((exists start_time k c wa lines i t0 tk,
              watching fuel main_path open_browser run_timeout rc w process start_time k c wa
              /\ crash_tick process c wa lines i (Ok tt) w'
              /\ w_container w' !! "server_error" = Some (VStr (join nl (skipn i lines)))
              /\ contains crash_marker (join nl (skipn i lines)) = true
              /\ t = t0 ++ tk
              /\ forallb not_signal t0 = true
              /\ terminator_trace process tk)
          \/ ((w_container w' !! "server_error" = Some (VStr "Server exited unexpectedly")
               \/ w_container w' !! "server_error"
                  = Some (VStr "Server did not start in time")
               \/ w_container w' !! "server_error"
                  = Some (VStr "Web server stopped unexpectedly"))
              /\ forallb not_signal t = true)).
Proof.
  intros fuel main_path open_browser run_timeout rc w w' Hrc H.
  apply run_main_web_app_outcome in H; [| exact Hrc].
  destruct H as (t & Hl & [Hp | [Hc | Hn]]).
  - destruct Hp as (_ & _ & Hsig & process & msg & Hmsg & He & Hpr).
    exists process, t. split; [exact Hl |]. split; [exact Hpr |]. right.
    split; [| exact Hsig]. destruct Hmsg as [-> | ->]; auto.
  - destruct Hc as (process & s0 & lines & i & st & k & c & wa & rk & wk & t0 & tk & t1
                    & _ & _ & Hi & He & Hpr & Hw & Hct & Hafter & Ht & Hs0 & Htk & Ht1).
    exists process, t. split; [exact Hl |]. split; [exact Hpr |]. left.
    assert (Hrk : rk = Ok tt /\ w' = wk).
    { destruct Hafter as [(-> & _ & ->) | [(q & _ & [=] & _) | (-> & Hh)]]; [auto |].
      apply on_interrupt_spec in Hh. destruct Hh as (_ & _ & Hne & _). now elim Hne. }
    destruct Hrk as [-> ->].
    exists st, k, c, wa, lines, i, t0, tk.
    split; [exact Hw |]. split; [exact Hct |]. split; [exact He |].
    split; [now apply traceback_has_marker |].
    split; [| auto]. rewrite Ht, (Ht1 ltac:(discriminate)), app_nil_r. reflexivity.
  - destruct Hn as (_ & [(_ & Hsig & process & He & Hpr) | Hne]); [| contradiction].
    exists process, t. split; [exact Hl |]. split; [exact Hpr |]. right. auto.
Qed.

(** C1 as stated fails: the server never binds a port; the probe gives up
    after its window and the supervisor returns the failure with the
    server still running and no signal sent. *)
Lemma start_timeout_leaves_the_server_running :
  let run := run_main_web_app 100 "/app/main.py" false None None Scenario.never_binds in
  fst run = Ok false
  /\ w_container (snd run) !! "server_error" = Some (VStr "Server did not start in time")
  /\ In (Spawned 2 "/app/main.py") (w_log (snd run))
  /\ signals (w_log (snd run)) = []
  /\ is_running (w_procs (snd run)) 2 = true.
Proof.
  cbv zeta.
  split; [vm_compute; reflexivity |]. split; [vm_compute; reflexivity |].
  split; [| split; vm_compute; reflexivity].
  assert (H : hd_error (w_log (snd (run_main_web_app 100 "/app/main.py" false None None
                                      Scenario.never_binds)))
              = Some (Spawned 2 "/app/main.py")) by (vm_compute; reflexivity).
  destruct (w_log _) as [| x l]; [discriminate |].
  injection H as ->. now left.
Qed.

Lemma failed_service_run_cleanup_witness :
  let run := run_main_web_app 100 "/app/main.py" false None None Scenario.crashes in
  default ∅ (@None dict) !! "server_error" = None
  /\ run = (Ok false, snd run)
  /\ w_container (snd run) !! "server_error"
     = Some (VStr ("Traceback (most recent call last):" +:+ nl
                   +:+ "ZeroDivisionError: division by zero"))
  /\ signals (w_log (snd run)) = [SigTerm 2]
  /\ exists process t,
       w_log (snd run) = w_log Scenario.crashes ++ t
       /\ w_container (snd run) !! "server_process" = Some (VProc process)
       /\ ((exists start_time k c wa lines i t0 tk,
               watching 100 "/app/main.py" false None None Scenario.crashes
                 process start_time k c wa
               /\ crash_tick process c wa lines i (Ok tt) (snd run)
               /\ w_container (snd run) !! "server_error"
                  = Some (VStr (join nl (skipn i lines)))
               /\ contains crash_marker (join nl (skipn i lines)) = true
               /\ t = t0 ++ tk
               /\ forallb not_signal t0 = true
               /\ terminator_trace process tk)
           \/ ((w_container (snd run) !! "server_error"
                 = Some (VStr "Server exited unexpectedly")
                \/ w_container (snd run) !! "server_error"
                   = Some (VStr "Server did not start in time")
                \/ w_container (snd run) !! "server_error"
                   = Some (VStr "Web server stopped unexpectedly"))
               /\ forallb not_signal t = true)).
Proof.
  cbv zeta.
  assert (Hf : fst (run_main_web_app 100 "/app/main.py" false None None Scenario.crashes)
               = Ok false) by (vm_compute; reflexivity).
  assert (He : run_main_web_app 100 "/app/main.py" false None None Scenario.crashes
               = (Ok false,
                  snd (run_main_web_app 100 "/app/main.py" false None None
                         Scenario.crashes))).
  { rewrite <- Hf. apply surjective_pairing. }
  assert (Hrc : default ∅ (@None dict) !! "server_error" = None) by reflexivity.
  split; [exact Hrc |]. split; [exact He |].
  split; [vm_compute; reflexivity |]. split; [vm_compute; reflexivity |].
  exact (failed_service_run_cleanup 100 "/app/main.py" false None None Scenario.crashes
           _ Hrc He).
Defined.

(** C2 (amended). For a run of the service supervisor whose dictionary
    starts without a ["server_error"]:
    - if a batch that the poll loop drained and scanned holds the crash
      marker, it is the last batch scanned; ["server_error"] is the first
      line of that batch that holds the marker, joined by newlines with
      the lines of the batch after it; the tick that scanned the batch
      called the tree terminator on the spawned process, and the run
      reported a failure when the terminator returned (when it raised a
      refusal, that reached the caller; when Ctrl+C cut it, the handler of
      the call went on);
    - if the run reports a failure with a ["server_error"] that holds the
      marker, then this diagnostic starts at the first line with the
      marker of the last batch scanned and goes to the end of that batch,
      and the run ended with the terminator that the tick called.
    A marker line that the reader captured and no tick scanned (the
    process ended before a port was bound, or the line came after the last
    drain) gives no crash diagnostic. *)
Theorem crash_diagnostic :
  forall fuel main_path open_browser run_timeout rc w r w',
    default ∅ rc !! "server_error" = None ->
    run_main_web_app fuel main_path open_browser run_timeout rc w = (r, w') ->
    exists t,
      w_log w' = w_log w ++ t
      /\ (forall lines i,
             In lines (scanned t) -> first_crash_index lines 0 = Some i ->
             last (scanned t) = Some lines
             /\ w_container w' !! "server_error" = Some (VStr (join nl (skipn i lines)))
             /\ exists process start_time k c wa rk wk,
                 w_container w' !! "server_process" = Some (VProc process)
                 /\ watching fuel main_path open_browser run_timeout rc w
                      process start_time k c wa
                 /\ crash_tick process c wa lines i rk wk
                 /\ after_terminator process rk wk false r w')
      /\ (r = Ok false ->
          forall tb,
            w_container w' !! "server_error" = Some (VStr tb) ->
            contains crash_marker tb = true ->
            exists lines i line process start_time k c wa,
              last (scanned t) = Some lines
              /\ first_crash_index lines 0 = Some i
              /\ lines !! i = Some line
              /\ contains crash_marker line = true
              /\ (forall j l, (j < i)%nat -> lines !! j = Some l ->
                              contains crash_marker l = false)
              /\ tb = join nl (skipn i lines)
              /\ w_container w' !! "server_process" = Some (VProc process)
              /\ watching fuel main_path open_browser run_timeout rc w
                   process start_time k c wa
              /\ crash_tick process c wa lines i (Ok tt) w').
Proof.
  intros fuel main_path open_browser run_timeout rc w r w' Hrc H.
  apply run_main_web_app_outcome in H; [| exact Hrc].
  destruct H as (t & Hl & Hout). exists t. split; [exact Hl |].
  destruct Hout as [Hp | [Hc | Hn]].
  - (* the probe failed: nothing was scanned, the error is the probe's *)
    destruct Hp as (_ & Hs & _ & process & msg & Hmsg & He & _). split.
    + intros lines i Hin. rewrite Hs in Hin. destruct Hin.
    + intros _ tb Htb Hm. rewrite He in Htb. injection Htb as <-.
      destruct Hmsg as [-> | ->]; vm_compute in Hm; discriminate.
  - destruct Hc as (process & s0 & lines & i & st & k & c & wa & rk & wk & t0 & tk & t1
                    & Hs & Hclean & Hi & He & Hpr & Hw & Hct & Hafter & _).
    split.
    + intros lines' i' Hin Hi'. rewrite Hs in Hin. apply in_app_or in Hin.
      destruct Hin as [Hin | [<- | []]].
      { rewrite Forall_forall in Hclean.
        assert (Hnone : first_crash_index lines' 0 = None).
        { apply Hclean. now apply list_elem_of_In. }
        congruence. }
      assert (i' = i) by congruence. subst i'.
      split; [rewrite Hs; apply last_snoc |]. split; [exact He |].
      exists process, st, k, c, wa, rk, wk. auto.
    + intros Hr tb Htb Hm. rewrite He in Htb. injection Htb as <-.
      assert (Hrk : rk = Ok tt /\ w' = wk).
      { destruct Hafter as [(-> & _ & ->) | [(q & _ & Hq & _) | (-> & Hh)]]; [auto | |].
        - rewrite Hr in Hq. discriminate.
        - apply on_interrupt_spec in Hh. destruct Hh as (_ & _ & Hne & _). now elim Hne. }
      destruct Hrk as [-> ->].
      destruct (first_crash_index_spec _ _ _ Hi) as (line & _ & Hline & Hcl & Hbefore).
      rewrite Nat.sub_0_r in Hline, Hbefore.
      exists lines, i, line, process, st, k, c, wa.
      split; [rewrite Hs; apply last_snoc |]. repeat split; auto.
  - destruct Hn as (Hclean & Hn). split.
    + intros lines i Hin Hi. unfold clean in Hclean. rewrite Forall_forall in Hclean.
      assert (Hnone : first_crash_index lines 0 = None).
      { apply Hclean. now apply list_elem_of_In. }
      congruence.
    + intros Hr tb Htb Hm.
      destruct Hn as [(_ & _ & process & He & _) | Hne]; [| contradiction].
      rewrite He in Htb. injection Htb as <-. vm_compute in Hm. discriminate.
Qed.

(** C2 as stated fails: the server prints a traceback and ends before it
    binds a port. The reader has captured the line with the marker, and
    the run fails with the error of the probe, not with a crash
    diagnostic. *)
Lemma traceback_before_binding_is_not_reported :
  let run := run_main_web_app 100 "/app/main.py" false None None Scenario.crashes_at_start in
  fst run = Ok false
  /\ existsb (contains crash_marker) (w_output (snd run)) = true
  /\ w_container (snd run) !! "server_error" = Some (VStr "Server exited unexpectedly")
  /\ contains crash_marker "Server exited unexpectedly" = false
  /\ signals (w_log (snd run)) = [].
Proof.
  cbv zeta.
  split; [vm_compute; reflexivity |]. split; [vm_compute; reflexivity |].
  split; [vm_compute; reflexivity |]. split; vm_compute; reflexivity.
Qed.

Lemma crash_diagnostic_witness :
  let run := run_main_web_app 100 "/app/main.py" false None None Scenario.crashes in
  default ∅ (@None dict) !! "server_error" = None
  /\ run = (fst run, snd run)
  /\ fst run = Ok false
  /\ scanned (w_log (snd run))
     = [["hello"; "Traceback (most recent call last):";
         "ZeroDivisionError: division by zero"]]
  /\ exists t,
       w_log (snd run) = w_log Scenario.crashes ++ t
       /\ (forall lines i,
              In lines (scanned t) -> first_crash_index lines 0 = Some i ->
              last (scanned t) = Some lines
              /\ w_container (snd run) !! "server_error"
                 = Some (VStr (join nl (skipn i lines)))
              /\ exists process start_time k c wa rk wk,
                  w_container (snd run) !! "server_process" = Some (VProc process)
                  /\ watching 100 "/app/main.py" false None None Scenario.crashes
                       process start_time k c wa
                  /\ crash_tick process c wa lines i rk wk
                  /\ after_terminator process rk wk false (fst run) (snd run))
       /\ (fst run = Ok false ->
           forall tb,
             w_container (snd run) !! "server_error" = Some (VStr tb) ->
             contains crash_marker tb = true ->
             exists lines i line process start_time k c wa,
               last (scanned t) = Some lines
               /\ first_crash_index lines 0 = Some i
               /\ lines !! i = Some line
               /\ contains crash_marker line = true
               /\ (forall j l, (j < i)%nat -> lines !! j = Some l ->
                               contains crash_marker l = false)
               /\ tb = join nl (skipn i lines)
               /\ w_container (snd run) !! "server_process" = Some (VProc process)
               /\ watching 100 "/app/main.py" false None None Scenario.crashes
                    process start_time k c wa
               /\ crash_tick process c wa lines i (Ok tt) (snd run)).
Proof.
  cbv zeta.
  assert (Hrc : default ∅ (@None dict) !! "server_error" = None) by reflexivity.
  split; [exact Hrc |]. split; [apply surjective_pairing |].
  split; [vm_compute; reflexivity |]. split; [vm_compute; reflexivity |].
  exact (crash_diagnostic 100 "/app/main.py" false None None Scenario.crashes _ _ Hrc
           (surjective_pairing _)).
Defined.

(** ** Reaching the timeout *)

(** *** The signals of a trace *)





(** *** The tick that reaches the timeout *)





(** C4 as stated fails: the server has two workers; at the timeout the
    terminator lists them, and the first one is gone when its turn comes.
    The call returns [True]; no signal was sent, and the server and its
    second worker are running. *)
Lemma timeout_success_with_the_tree_running :
  let run := run_main_web_app 100 "/app/main.py" false (Some 5) None Scenario.overdue_family in
  fst run = Ok true
  /\ w_log (snd run)
     = [Spawned 2 "/app/main.py"; Polled 2 None; Connected 5000 true;
        Sliced 0 []; Measured 0; Polled 2 None; Enumerated 2 [3; 4]]
  /\ signals (w_log (snd run)) = []
  /\ is_running (w_procs (snd run)) 2 = true
  /\ is_running (w_procs (snd run)) 4 = true.
Proof.
  cbv zeta.
  split; [vm_compute; reflexivity |]. split; [vm_compute; reflexivity |].
  split; [vm_compute; reflexivity |]. split; vm_compute; reflexivity.
Qed.

Lemma pair_of_fst {A B} (p : A * B) (a : A) : fst p = a -> p = (a, snd p).
Proof. intros <-. apply surjective_pairing. Qed.


(** *** The console supervisor *)






(** What [process.kill()] leaves in the trace when it returns: the
    SIGKILL, or nothing for a process it found ended. *)
Lemma kill_ok process w w' :
  kill process w = (Ok tt, w') ->
  w_log w' = w_log w ++ [SigKill process] \/ w_log w' = w_log w.
Proof.
  unfold kill. intros H. prim_step H w1 Hl; [| discriminate].
  unfold bind, use_handle in H. destruct (w_fault w1); [discriminate |].
  cbv zeta in H.
  destruct (is_running _ process); inversion H; subst; simpl; rewrite Hl; auto.
Qed.

Lemma err_file_read_spec w r w' :
  err_file_read w = (r, w') ->
  w_log w' = w_log w /\ (r = Ok (w_stderr w') \/ r = Raise KeyboardInterrupt).
Proof.
  unfold err_file_read. intros H. prim_step H w1 Hl; inversion H; subst; auto.
Qed.




(** ** The entry file *)

Lemma read_output_exists w :
  w_exists (read_output w) = w_exists w /\ w_cwd (read_output w) = w_cwd w.
Proof.
  unfold read_output. destruct (w_reader w) as [pid |]; [| auto].
  destruct (w_pipe w) as [| line rest].
  - destruct (is_running (w_procs w) pid); [auto |].
    destruct (reader_poll_fields pid w) as (_ & _ & _ & -> & -> & _). auto.
  - destruct (negb (String.eqb line "")); [auto |].
    destruct (reader_poll_fields pid (W.set_pipe (fun _ => rest) w))
      as (_ & _ & _ & -> & -> & _). auto.
Qed.

Lemma apply_event_exists e w :
  w_exists (apply_event e w) = w_exists w /\ w_cwd (apply_event e w) = w_cwd w.
Proof.
  destruct e; simpl; auto; try (table_event; auto).
  apply read_output_exists.
Qed.

Lemma apply_events_exists evs :
  forall w,
    w_exists (apply_events evs w) = w_exists w /\ w_cwd (apply_events evs w) = w_cwd w.
Proof.
  induction evs as [| e evs IH]; intros w; [simpl; auto |].
  change (apply_events (e :: evs) w) with (apply_events evs (apply_event e w)).
  destruct (IH (apply_event e w)) as [-> ->]. apply apply_event_exists.
Qed.

Lemma env_step_exists w :
  w_exists (snd (env_step w)) = w_exists w /\ w_cwd (snd (env_step w)) = w_cwd w.
Proof.
  unfold env_step.
  set (w1 := match w_sched w with [] => w | evs :: rest => _ end).
  assert (H : w_exists w1 = w_exists w /\ w_cwd w1 = w_cwd w).
  { subst w1. destruct (w_sched w) as [| evs rest]; [auto |].
    apply (apply_events_exists evs (W.set_sched rest w)). }
  destruct (w_sigint w1); simpl; exact H.
Qed.

(** After the spawn, the trace of a console run only grows. *)
Lemma console_after_spawn_grows fuel process run_timeout abs_main :
  preserves (grows_by any_call)
    (start_time <- time_time ;;
     try_except
       (console_loop fuel process run_timeout start_time abs_main)
       (fun e =>
          if is_Exception e then
            Some (kill process ;;
                  stderr_content <- err_file_read ;;
                  ret (mkdict [("success", VBool false);
                               ("error", VStr (str_exn e));
                               ("stdout", VStr "");
                               ("stderr", VStr stderr_content);
                               ("returncode", VNone);
                               ("filepath", VStr abs_main)]))
          else None)).
Proof.
  apply (preserves_bind _ (grows_by_trans any_call));
    [grows_by_with any_call preserves_time_time | intros start_time].
  apply (preserves_try_except _ (grows_by_trans any_call)).
  - grows_by_with any_call preserves_console_loop.
  - intros e h. destruct (is_Exception e); [| discriminate]. intros [= <-].
    apply (preserves_bind _ (grows_by_trans any_call));
      [grows_by_with any_call preserves_kill | intros _].
    apply (preserves_bind _ (grows_by_trans any_call));
      [grows_by_with any_call preserves_err_file_read | intros stderr_content].
    apply (preserves_ret _ (grows_by_refl any_call)).
Qed.

(** After the spawn, the trace of the start of the server only grows. *)
Lemma server_after_spawn_grows fuel process open_browser max_wait :
  preserves (grows_by any_call)
    (new_output_lines ;;
     _create_output_reader_thread process ;;
     r <- wait_for_port fuel process 0%float max_wait ;;
     match r with
     | inl failed => ret failed
     | inr None =>
         ret (mkdict [("success", VBool false);
                      ("error", VStr "Server did not start in time");
                      ("process", VProc process);
                      ("output_lines", VLines)])
     | inr (Some server_url) =>
         _open_browser_if_needed server_url open_browser ;;
         ret (mkdict [("success", VBool true);
                      ("process", VProc process);
                      ("url", VStr server_url);
                      ("output_lines", VLines)])
     end).
Proof.
  apply (preserves_bind _ (grows_by_trans any_call)).
  { intros w. exists []. simpl. now rewrite app_nil_r. }
  intros _. apply (preserves_bind _ (grows_by_trans any_call));
    [grows_by_with any_call preserves_thread_start | intros _].
  apply (preserves_bind _ (grows_by_trans any_call));
    [grows_by_with any_call preserves_wait_for_port |].
  intros [failed | [url |]]; try apply (preserves_ret _ (grows_by_refl any_call)).
  apply (preserves_bind _ (grows_by_trans any_call));
    [grows_by_with any_call preserves_open_browser | intros _].
  apply (preserves_ret _ (grows_by_refl any_call)).
Qed.

(** [Popen] in a directory that exists, with no Ctrl+C pending, spawns. *)
Lemma Popen_spawns script cwd w w1 :
  env_step w = (Ok tt, w1) ->
  existsb (String.eqb cwd) (w_exists w) = true ->
  exists w2,
    Popen script cwd w = (Ok (fresh_pid (w_procs w1)), w2)
    /\ w_log w2 = w_log w ++ [Spawned (fresh_pid (w_procs w1)) script].
Proof.
  intros E Hx. unfold Popen, prim, bind. rewrite E.
  pose proof (env_step_exists w) as [He _]. rewrite E in He. simpl in He.
  pose proof (env_step_log w) as Hl. rewrite E in Hl. simpl in Hl.
  rewrite He, Hx. eexists. split; [reflexivity |]. simpl. now rewrite Hl.
Qed.

(** C5 (amended). Only [execute_python_code] looks for the entry file.
    (1) Called on a path that does not exist, it returns the failure
    "file not found <absolute path>" (or is cut by Ctrl+C) and its trace
    is empty: nothing is spawned.
    (2) [run_main_as_console_app] and [run_web_server] make no such check:
    whenever the directory of the entry file exists and no Ctrl+C is
    pending, they spawn the interpreter on the path, whether the file
    exists or not. *)
Theorem entry_file_check :
  (forall fuel filepath timeout input_text w,
      existsb (String.eqb (abspath (w_cwd w) filepath)) (w_exists w) = false ->
      (fst (execute_python_code fuel filepath timeout input_text w)
       = Ok (mkdict [("success", VBool false);
                     ("error", VStr ("file not found " +:+ abspath (w_cwd w) filepath))])
       \/ fst (execute_python_code fuel filepath timeout input_text w)
          = Raise KeyboardInterrupt)
      /\ w_log (snd (execute_python_code fuel filepath timeout input_text w)) = w_log w)
  /\ (forall fuel main_path run_timeout w w1,
        env_step w = (Ok tt, w1) ->
        existsb (String.eqb (dirname (abspath (w_cwd w) main_path))) (w_exists w) = true ->
        exists t,
          w_log (snd (run_main_as_console_app fuel main_path run_timeout w))
          = w_log w ++ Spawned (fresh_pid (w_procs w1)) (abspath (w_cwd w) main_path) :: t)
  /\ (forall fuel filepath open_browser max_wait w w1,
        env_step w = (Ok tt, w1) ->
        existsb (String.eqb (dirname (abspath (w_cwd w) filepath))) (w_exists w) = true ->
        exists t,
          w_log (snd (run_web_server fuel filepath open_browser max_wait w))
          = w_log w ++ Spawned (fresh_pid (w_procs w1)) (abspath (w_cwd w) filepath) :: t).
Proof.
  split; [| split].
  - intros fuel filepath timeout input_text w Hmissing.
    destruct (execute_python_code fuel filepath timeout input_text w) as [r w'] eqn:E.
    unfold execute_python_code, try_except in E.
    unfold bind at 1 in E. unfold os_path_abspath at 1 in E.
    unfold bind at 1 in E. unfold os_path_exists, prim in E. unfold bind at 1 in E.
    pose proof (env_step_exists w) as [He _]. pose proof (env_step_log w) as Hl.
    destruct (env_step_res w) as [Hr | Hr];
      destruct (env_step w) as [r1 w1]; simpl in Hr, He, Hl; subst r1.
    + rewrite He, Hmissing in E. simpl in E. inversion E; subst. simpl. auto.
    + simpl in E. inversion E; subst. simpl. auto.
  - intros fuel main_path run_timeout w w1 E Hx.
    destruct (Popen_spawns (abspath (w_cwd w) main_path) _ _ _ E Hx) as (w2 & Ep & Hl).
    unfold run_main_as_console_app.
    unfold bind at 1. unfold os_path_abspath at 1.
    rewrite (bind_ok _ _ _ _ _ Ep).
    destruct (console_after_spawn_grows fuel (fresh_pid (w_procs w1)) run_timeout
                (abspath (w_cwd w) main_path) w2) as (t & Ht & _).
    exists t. rewrite Ht, Hl, <- app_assoc. reflexivity.
  - intros fuel filepath open_browser max_wait w w1 E Hx.
    destruct (Popen_spawns (abspath (w_cwd w) filepath) _ _ _ E Hx) as (w2 & Ep & Hl).
    unfold run_web_server.
    unfold bind at 1. unfold os_path_abspath at 1.
    unfold _start_web_process. rewrite (bind_ok _ _ _ _ _ Ep).
    destruct (server_after_spawn_grows fuel (fresh_pid (w_procs w1)) open_browser max_wait
                w2) as (t & Ht & _).
    exists t. rewrite Ht, Hl, <- app_assoc. reflexivity.
Qed.

(** C5 as stated fails: the console supervisor is given an entry file
    that does not exist, in a directory that does. The interpreter is
    spawned, ends with code 2, and the result is the failure of an exit
    code, not "file not found". *)
Lemma console_run_spawns_without_entry_file :
  let run := run_main_as_console_app 100 "/app/main.py" None Scenario.missing_entry in
  existsb (String.eqb "/app/main.py") (w_exists Scenario.missing_entry) = false
  /\ hd_error (w_log (snd run)) = Some (Spawned 2 "/app/main.py")
  /\ exists result,
      fst run = Ok result
      /\ get result "error" = VStr "failed to run"
      /\ get result "returncode" = VInt 2.
Proof.
  cbv zeta. split; [reflexivity |]. split; [vm_compute; reflexivity |].
  eexists. split; [vm_compute; reflexivity |]. split; vm_compute; reflexivity.
Qed.

Lemma entry_file_check_witness :
  (existsb (String.eqb (abspath (w_cwd Scenario.missing_entry) "/app/main.py"))
     (w_exists Scenario.missing_entry) = false
   /\ fst (execute_python_code 10 "/app/main.py" None None Scenario.missing_entry)
      = Ok (mkdict [("success", VBool false);
                    ("error", VStr "file not found /app/main.py")])
   /\ w_log (snd (execute_python_code 10 "/app/main.py" None None Scenario.missing_entry))
      = w_log Scenario.missing_entry)
  /\ (env_step Scenario.missing_entry = (Ok tt, snd (env_step Scenario.missing_entry))
      /\ existsb (String.eqb (dirname (abspath (w_cwd Scenario.missing_entry) "/app/main.py")))
           (w_exists Scenario.missing_entry) = true
      /\ exists t,
          w_log (snd (run_main_as_console_app 100 "/app/main.py" None
                        Scenario.missing_entry))
          = w_log Scenario.missing_entry
              ++ Spawned (fresh_pid (w_procs (snd (env_step Scenario.missing_entry))))
                   (abspath (w_cwd Scenario.missing_entry) "/app/main.py") :: t).
Proof.
  assert (Hm : existsb (String.eqb (abspath (w_cwd Scenario.missing_entry) "/app/main.py"))
                 (w_exists Scenario.missing_entry) = false) by reflexivity.
  assert (Hd : existsb (String.eqb (dirname (abspath (w_cwd Scenario.missing_entry)
                                               "/app/main.py")))
                 (w_exists Scenario.missing_entry) = true) by reflexivity.
  assert (E : env_step Scenario.missing_entry
              = (Ok tt, snd (env_step Scenario.missing_entry)))
    by (apply pair_of_fst; vm_compute; reflexivity).
  split.
  - split; [exact Hm |].
    destruct (proj1 entry_file_check 10%nat "/app/main.py" None None
                Scenario.missing_entry Hm)
      as [_ Hl].
    split; [vm_compute; reflexivity | exact Hl].
  - split; [exact E |]. split; [exact Hd |].
    exact (proj1 (proj2 entry_file_check) 100%nat "/app/main.py" None
             Scenario.missing_entry _ E Hd).
Defined.

(** A path that needs normalising: the file is looked for, and the
    interpreter spawned, under the normalised path. *)
Example entry_path_is_normalised :
  let w := boot "/work" ["/work"; "/work/x.py"] [[]; []; [EvExit 2 0]] in
  let run := execute_python_code 10 "sub/../x.py" None None w in
  abspath (w_cwd w) "sub/../x.py" = "/work/x.py"
  /\ w_log (snd run) = [Spawned 2 "/work/x.py"]
  /\ exists d, fst run = Ok d /\ get d "success" = VBool true.
Proof.
  cbv zeta. split; [reflexivity |]. split; [vm_compute; reflexivity |].
  eexists. split; vm_compute; reflexivity.
Qed.

(** ** Exceptions at the boundary *)

Lemma time_time_raises w e w' : time_time w = (Raise e, w') -> e = KeyboardInterrupt.
Proof.
  unfold time_time. intros H. prim_step H w1 Hl; inversion H; subst; reflexivity.
Qed.

Lemma bind_raise_inv {A B} (m : M A) (k : A -> M B) w e w' :
  bind m k w = (Raise e, w') ->
  m w = (Raise e, w') \/ exists a w1, m w = (Ok a, w1) /\ k a w1 = (Raise e, w').
Proof.
  unfold bind. destruct (m w) as [[a | e0 |] w1]; intros H.
  - right. eauto.
  - left. inversion H; subst. reflexivity.
  - discriminate.
Qed.

Lemma kill_spec process w r w' :
  kill process w = (r, w') ->
  (r = Ok tt /\ (w_log w' = w_log w ++ [SigKill process] \/ w_log w' = w_log w))
  \/ ((exists e, r = Raise e) /\ w_log w' = w_log w).
Proof.
  intros H. destruct r as [[] | e |].
  - left. split; [reflexivity |]. now apply kill_ok in H.
  - right. split; [eauto |].
    unfold kill in H. prim_step H w1 Hl; [| now inversion H; subst].
    unfold bind, use_handle in H. destruct (w_fault w1); [now inversion H; subst |].
    cbv zeta in H. destruct (is_running _ process); discriminate.
  - exfalso. unfold kill in H. prim_step H w1 Hl; [| discriminate].
    unfold bind, use_handle in H. destruct (w_fault w1); [discriminate |].
    cbv zeta in H. destruct (is_running _ process); discriminate.
Qed.

Lemma try_except_cases {A} (body : M A) (handler : exn -> option (M A)) w r w' :
  try_except body handler w = (r, w') ->
  (exists a, body w = (Ok a, w') /\ r = Ok a)
  \/ (body w = (NoFuel, w') /\ r = NoFuel)
  \/ exists e w1,
       body w = (Raise e, w1)
       /\ ((handler e = None /\ r = Raise e /\ w' = w1)
           \/ exists h, handler e = Some h /\ h w1 = (r, w')).
Proof.
  unfold try_except. destruct (body w) as [[a | e |] w1]; intros H.
  - inversion H; subst. left. eauto.
  - right. right. exists e, w1. split; [reflexivity |].
    destruct (handler e) as [h |]; [right; eauto | left; inversion H; auto].
  - inversion H; subst. right. left. auto.
Qed.



(** In console mode too an exception can reach the caller: the handle is
    invalid again when the handler calls [process.kill()]. No signal was
    sent and no result was built. *)
Example console_double_fault_reaches_the_caller :
  let run := run_main_as_console_app 100 "/app/main.py" None Scenario.console_double_fault in
  fst run = Raise (OSError "handle is invalid again")
  /\ w_log (snd run) = [Spawned 2 "/app/main.py"]
  /\ is_running (w_procs (snd run)) 2 = true.
Proof.
  cbv zeta. split; [vm_compute; reflexivity |]. split; vm_compute; reflexivity.
Qed.


(** * Further properties of the code *)

(** ** The reader thread *)

Lemma rstrip_cons (c : ascii) (rest : string) :
  rstrip (String c rest)
  = match rstrip rest with
    | EmptyString => if isspace c then EmptyString else String c EmptyString
    | String d r => String c (String d r)
    end.
Proof. reflexivity. Qed.

Lemma rstrip_idempotent (s : string) : rstrip (rstrip s) = rstrip s.
Proof.
  induction s as [| c rest IH]; [reflexivity |].
  rewrite rstrip_cons. destruct (rstrip rest) as [| d r] eqn:E.
  - destruct (isspace c) eqn:Ec; [reflexivity |].
    rewrite rstrip_cons. cbn [rstrip]. now rewrite Ec.
  - rewrite rstrip_cons, IH. reflexivity.
Qed.

Lemma captured_cons line rest :
  captured (line :: rest)
  = (if negb (String.eqb line "") then [rstrip line] else []) ++ captured rest.
Proof. unfold captured. simpl. destruct (negb (String.eqb line "")); reflexivity. Qed.

(** *** Collecting the code of a process *)

Lemma find_proc_map (f : proc -> proc) (tbl : list proc) (pid : Z) :
  (forall p, p_pid (f p) = p_pid p) ->
  find_proc (map f tbl) pid = option_map f (find_proc tbl pid).
Proof.
  intros Hf. unfold find_proc. induction tbl as [| p tbl IH]; [reflexivity |].
  simpl. rewrite Hf. destruct (p_pid p =? pid); [reflexivity | exact IH].
Qed.

Lemma find_proc_pid tbl pid p : find_proc tbl pid = Some p -> p_pid p = pid.
Proof.
  unfold find_proc. intros H. apply find_some in H. destruct H as [_ H]. lia.
Qed.

Lemma find_proc_reap pid tbl q :
  find_proc (reap pid tbl) q
  = option_map
      (fun p =>
         if p_pid p =? pid
         then match p_state p with
              | Exited c => mkproc (p_pid p) (p_ppid p) (Reaped c) (p_denied p)
              | _ => p
              end
         else p)
      (find_proc tbl q).
Proof.
  unfold reap. apply find_proc_map.
  intros p. destruct (p_pid p =? pid); [destruct (p_state p) |]; reflexivity.
Qed.

(** Collecting a code ends nobody and starts nobody. *)
Lemma is_running_reap pid tbl q : is_running (reap pid tbl) q = is_running tbl q.
Proof.
  unfold is_running. rewrite find_proc_reap.
  destruct (find_proc tbl q) as [p |]; [| reflexivity]. simpl.
  destruct (p_pid p =? pid); [| reflexivity].
  unfold proc_running. destruct (p_state p) eqn:E; simpl; rewrite ?E; reflexivity.
Qed.

Lemma returncode_reap_running pid tbl :
  is_running tbl pid = true -> returncode (reap pid tbl) pid = None.
Proof.
  unfold is_running, returncode, proc_running. rewrite find_proc_reap.
  destruct (find_proc tbl pid) as [p |]; [| reflexivity]. simpl.
  destruct (p_pid p =? pid); destruct (p_state p) eqn:E; try discriminate;
    simpl; rewrite ?E; reflexivity.
Qed.

Lemma returncode_reap_ended pid tbl :
  has_ended tbl pid = true -> exists c, returncode (reap pid tbl) pid = Some c.
Proof.
  unfold has_ended, returncode, proc_running. rewrite find_proc_reap.
  destruct (find_proc tbl pid) as [p |] eqn:E; [| discriminate].
  apply find_proc_pid in E. simpl. rewrite E, Z.eqb_refl.
  destruct (p_state p) as [| c | c] eqn:Es; [discriminate | |];
    simpl; rewrite ?Es; eauto.
Qed.

Lemma has_ended_not_running tbl pid : has_ended tbl pid = true -> is_running tbl pid = false.
Proof.
  unfold has_ended, is_running. destruct (find_proc tbl pid) as [p |]; [| reflexivity].
  now destruct (proc_running p).
Qed.

(** *** One round of the thread *)

(** A line that is not empty is moved to the list. *)
Lemma read_output_line pid line rest w :
  w_reader w = Some pid -> w_pipe w = line :: rest -> String.eqb line "" = false ->
  read_output w = W.set_output (fun out => out ++ [rstrip line]) (W.set_pipe (fun _ => rest) w).
Proof.
  intros Hr Hp Hl. unfold read_output. rewrite Hr, Hp, Hl. reflexivity.
Qed.

(** The poll of the thread while the process runs, and once it has
    ended. *)
Lemma reader_poll_running pid w :
  is_running (w_procs w) pid = true ->
  w_reader (reader_poll pid w) = w_reader w
  /\ is_running (w_procs (reader_poll pid w)) pid = true.
Proof.
  intros Hrun. unfold reader_poll. simpl.
  rewrite (returncode_reap_running _ _ Hrun). simpl.
  split; [reflexivity |]. now rewrite is_running_reap.
Qed.

Lemma reader_poll_ended pid w :
  has_ended (w_procs w) pid = true ->
  w_reader (reader_poll pid w) = None
  /\ returncode (w_procs (reader_poll pid w)) pid <> None.
Proof.
  intros He. unfold reader_poll. simpl.
  destruct (returncode_reap_ended _ _ He) as [c Hc]. rewrite Hc. simpl.
  split; [reflexivity |]. rewrite Hc. discriminate.
Qed.

Lemma read_rounds_detached n w : w_reader w = None -> read_rounds n w = w.
Proof.
  intros Hr. induction n as [| n IH]; [reflexivity |].
  cbn [read_rounds]. unfold read_output at 1. rewrite Hr. exact IH.
Qed.

(** X1 (the reader thread). While the thread is attached to a process
    that runs, as many rounds of its loop as there are raw lines in the
    pipe empty the pipe and append to the shared list exactly the lines
    that are not empty, each one stripped, in the order in which the child
    wrote them; the thread then waits. Once the process has ended, the
    thread moves the lines before the first empty read in the same way,
    collects the code of the process at that read and ends: what is left
    in the pipe after the empty read is never captured. Nothing that was
    in the list is changed. *)
Theorem monitor_moves_lines_in_order :
  forall pid w,
    w_reader w = Some pid ->
    (is_running (w_procs w) pid = true ->
     let w' := read_rounds (length (w_pipe w)) w in
     w_pipe w' = []
     /\ w_output w' = w_output w ++ captured (w_pipe w)
     /\ w_reader w' = Some pid
     /\ read_output w' = w')
    /\ (has_ended (w_procs w) pid = true ->
        let w' := read_rounds (S (length (before_empty (w_pipe w)))) w in
        w_pipe w' = after_empty (w_pipe w)
        /\ w_output w' = w_output w ++ map rstrip (before_empty (w_pipe w))
        /\ w_reader w' = None
        /\ returncode (w_procs w') pid <> None
        /\ forall n, read_rounds n w' = w').
Proof.
  intros pid w Hr. split.
  - intros Hrun.
    assert (H : forall n v,
               w_reader v = Some pid -> is_running (w_procs v) pid = true ->
               length (w_pipe v) = n ->
               w_pipe (read_rounds n v) = []
               /\ w_output (read_rounds n v) = w_output v ++ captured (w_pipe v)
               /\ w_reader (read_rounds n v) = Some pid
               /\ is_running (w_procs (read_rounds n v)) pid = true).
    { induction n as [| n IH]; intros v Hv Hrv Hn.
      - destruct (w_pipe v) eqn:Ep; [| discriminate]. simpl.
        rewrite Ep. unfold captured. simpl. rewrite app_nil_r. auto.
      - destruct (w_pipe v) as [| line rest] eqn:Ep; [discriminate |].
        cbn [read_rounds]. rewrite captured_cons.
        destruct (String.eqb line "") eqn:El.
        + unfold read_output at 1 2 3 4. rewrite Hv, Ep, El. cbn [negb].
          set (v1 := W.set_pipe (fun _ => rest) v).
          assert (Hrv1 : is_running (w_procs v1) pid = true) by exact Hrv.
          destruct (reader_poll_running pid v1 Hrv1) as [Hr1 Hrun1].
          destruct (reader_poll_fields pid v1) as (_ & Ho & _ & _ & _ & _ & _ & Hp).
          destruct (IH (reader_poll pid v1)) as (Hp2 & Ho2 & Hr2 & Hrun2).
          { rewrite Hr1. exact Hv. }
          { exact Hrun1. }
          { rewrite Hp. simpl. injection Hn as Hn. exact Hn. }
          rewrite Hp in Ho2. rewrite Ho in Ho2. simpl in Ho2. cbn [negb app]. auto.
        + rewrite (read_output_line pid line rest v Hv Ep El).
          set (v1 := W.set_output (fun out => out ++ [rstrip line])
                       (W.set_pipe (fun _ => rest) v)).
          destruct (IH v1) as (Hp2 & Ho2 & Hr2 & Hrun2);
            [exact Hv | exact Hrv | simpl; injection Hn as Hn; exact Hn |].
          simpl in Ho2. cbn [negb]. rewrite <- app_assoc in Ho2. auto. }
    destruct (H (length (w_pipe w)) w Hr Hrun eq_refl) as (Hp & Ho & Hr' & Hrun').
    cbv zeta. split; [exact Hp |]. split; [exact Ho |]. split; [exact Hr' |].
    unfold read_output. rewrite Hr', Hp, Hrun'. reflexivity.
  - intros Hend.
    assert (H : forall raw v,
               w_reader v = Some pid -> has_ended (w_procs v) pid = true ->
               w_pipe v = raw ->
               let v' := read_rounds (S (length (before_empty raw))) v in
               w_pipe v' = after_empty raw
               /\ w_output v' = w_output v ++ map rstrip (before_empty raw)
               /\ w_reader v' = None
               /\ returncode (w_procs v') pid <> None).
    { induction raw as [| line rest IH]; intros v Hv Hev Hp; cbv zeta.
      - simpl. unfold read_output. rewrite Hv, Hp.
        rewrite (has_ended_not_running _ _ Hev).
        destruct (reader_poll_ended pid v Hev) as [Hr1 Hc1].
        destruct (reader_poll_fields pid v) as (_ & Ho & _ & _ & _ & _ & _ & Hpp).
        rewrite Hpp, Ho, Hp, app_nil_r. auto.
      - cbn [before_empty after_empty]. destruct (String.eqb line "") eqn:El.
        + simpl. unfold read_output. rewrite Hv, Hp, El. cbn [negb].
          set (v1 := W.set_pipe (fun _ => rest) v).
          assert (Hev1 : has_ended (w_procs v1) pid = true) by exact Hev.
          destruct (reader_poll_ended pid v1 Hev1) as [Hr1 Hc1].
          destruct (reader_poll_fields pid v1) as (_ & Ho & _ & _ & _ & _ & _ & Hpp).
          rewrite Hpp, Ho. simpl. rewrite app_nil_r. auto.
        + cbn [length read_rounds map].
          rewrite (read_output_line pid line rest v Hv Hp El).
          set (v1 := W.set_output (fun out => out ++ [rstrip line])
                       (W.set_pipe (fun _ => rest) v)).
          destruct (IH v1) as (Hp2 & Ho2 & Hr2 & Hc2); [exact Hv | exact Hev | reflexivity |].
          simpl in Ho2. rewrite <- app_assoc in Ho2. auto. }
    destruct (H (w_pipe w) w Hr Hend eq_refl) as (Hp & Ho & Hr' & Hc).
    cbv zeta. split; [exact Hp |]. split; [exact Ho |]. split; [exact Hr' |].
    split; [exact Hc |]. intros n. now apply read_rounds_detached.
Qed.

(** The rounds on a pipe that holds a padded line, an empty read, a bare
    newline and a last line without a newline: while the process runs the
    thread takes the three lines; once the process has ended it takes the
    first and ends at the empty read. *)
Lemma monitor_moves_lines_in_order_witness :
  w_reader Stage.chatty = Some 2
  /\ is_running (w_procs Stage.chatty) 2 = true
  /\ w_output (read_rounds 4 Stage.chatty) = ["boot"; "ready"; ""; "done"]
  /\ has_ended (w_procs Stage.last_words) 2 = true
  /\ w_output (read_rounds 2 Stage.last_words) = ["boot"; "ready"]
  /\ w_pipe (read_rounds 2 Stage.last_words) = [nl; "done"]
  /\ (let w' := read_rounds (length (w_pipe Stage.chatty)) Stage.chatty in
      w_pipe w' = []
      /\ w_output w' = w_output Stage.chatty ++ captured (w_pipe Stage.chatty)
      /\ w_reader w' = Some 2
      /\ read_output w' = w')
  /\ (let w' := read_rounds (S (length (before_empty (w_pipe Stage.last_words))))
                  Stage.last_words in
      w_pipe w' = after_empty (w_pipe Stage.last_words)
      /\ w_output w' = w_output Stage.last_words
                         ++ map rstrip (before_empty (w_pipe Stage.last_words))
      /\ w_reader w' = None
      /\ returncode (w_procs w') 2 <> None
      /\ forall n, read_rounds n w' = w').
Proof.
  split; [reflexivity |]. split; [reflexivity |]. split; [reflexivity |].
  split; [reflexivity |]. split; [reflexivity |]. split; [reflexivity |].
  split.
  - exact (proj1 (monitor_moves_lines_in_order 2 Stage.chatty eq_refl) eq_refl).
  - exact (proj2 (monitor_moves_lines_in_order 2 Stage.last_words eq_refl) eq_refl).
Defined.

(** ** The shared list during a service run *)

Lemma keeps_stripped_refl w : keeps_stripped w w.
Proof. intros H. exact H. Qed.

Lemma keeps_stripped_trans w1 w2 w3 :
  keeps_stripped w1 w2 -> keeps_stripped w2 w3 -> keeps_stripped w1 w3.
Proof. unfold keeps_stripped. auto. Qed.

Lemma keeps_stripped_same w w' :
  w_output w' = w_output w -> w_container w' = w_container w ->
  (exists t, w_log w' = w_log w ++ t /\ forallb any_call t = true) -> keeps_stripped w w'.
Proof. unfold keeps_stripped. intros -> _ _ H. exact H. Qed.

Lemma keeps_stripped_event e w : keeps_stripped w (apply_event e w).
Proof.
  unfold keeps_stripped. destruct e; simpl; auto; try (table_event; auto; fail).
  unfold read_output. destruct (w_reader w) as [pid |]; auto.
  destruct (w_pipe w) as [| line rest].
  - destruct (is_running (w_procs w) pid); auto.
    destruct (reader_poll_fields pid w) as (_ & -> & _). auto.
  - destruct (negb (String.eqb line "")); simpl.
    + intros H. apply Forall_app. split; [exact H |].
      constructor; [apply rstrip_idempotent | constructor].
    + destruct (reader_poll_fields pid (W.set_pipe (fun _ => rest) w)) as (_ & -> & _).
      auto.
Qed.

Lemma keeps_stripped_container f w : keeps_stripped w (W.set_container f w).
Proof. intros H. exact H. Qed.

Ltac stripped_by lem :=
  apply (lem keeps_stripped keeps_stripped_refl keeps_stripped_trans any_call
             keeps_stripped_same keeps_stripped_event); all_calls.

Lemma keeps_stripped_serve_loop fuel process run_timeout start_time last_len :
  preserves keeps_stripped (serve_loop fuel process run_timeout start_time last_len).
Proof.
  apply (preserves_serve_loop keeps_stripped keeps_stripped_refl keeps_stripped_trans
           any_call keeps_stripped_same keeps_stripped_event); all_calls.
  apply keeps_stripped_container.
Qed.

Lemma keeps_stripped_on_interrupt process :
  preserves keeps_stripped (on_interrupt process).
Proof.
  unfold on_interrupt.
  apply (preserves_bind _ keeps_stripped_trans); [stripped_by preserves_poll |].
  intros [c |]; [apply (preserves_ret _ keeps_stripped_refl) |].
  apply (preserves_bind _ keeps_stripped_trans); [stripped_by preserves_kill_process_tree |].
  intros; apply (preserves_ret _ keeps_stripped_refl).
Qed.

(** Once [run_web_server] has returned, the shared list holds the lines
    captured since the start, all of them stripped. *)
Lemma run_web_server_stripped fuel filepath open_browser max_wait w info w' :
  run_web_server fuel filepath open_browser max_wait w = (Ok info, w') ->
  Forall stripped (w_output w').
Proof.
  unfold run_web_server. intros H.
  apply bind_ok_inv in H. destruct H as (abs_filepath & wa & _ & H).
  apply bind_ok_inv in H. destruct H as (process & wb & _ & H).
  apply bind_ok_inv in H. destruct H as ([] & wc & Hc & H).
  assert (Hp : preserves keeps_stripped
                 (_create_output_reader_thread process ;;
                  r <- wait_for_port fuel process 0%float max_wait ;;
                  match r with
                  | inl failed => ret failed
                  | inr None =>
                      ret (mkdict [("success", VBool false);
                                   ("error", VStr "Server did not start in time");
                                   ("process", VProc process);
                                   ("output_lines", VLines)])
                  | inr (Some server_url) =>
                      _open_browser_if_needed server_url open_browser ;;
                      ret (mkdict [("success", VBool true);
                                   ("process", VProc process);
                                   ("url", VStr server_url);
                                   ("output_lines", VLines)])
                  end)).
  { apply (preserves_bind _ keeps_stripped_trans);
      [stripped_by preserves_thread_start | intros _].
    apply (preserves_bind _ keeps_stripped_trans);
      [stripped_by preserves_wait_for_port |].
    intros [failed | [url |]]; try apply (preserves_ret _ keeps_stripped_refl).
    apply (preserves_bind _ keeps_stripped_trans);
      [stripped_by preserves_open_browser | intros _].
    apply (preserves_ret _ keeps_stripped_refl). }
  specialize (Hp wc). rewrite H in Hp. apply Hp.
  unfold new_output_lines in Hc. inversion Hc; subst. simpl. constructor.
Qed.

(** X2 (the captured lines). When a service run returns, no line of the
    shared list [output_lines] (the list the caller finds under
    [server_output]) ends with white space: the reader thread strips each
    line before it appends it, and nothing else writes to the list. *)
Theorem captured_lines_are_stripped :
  forall fuel main_path open_browser run_timeout rc w b w',
    run_main_web_app fuel main_path open_browser run_timeout rc w = (Ok b, w') ->
    Forall (fun line => rstrip line = line) (w_output w').
Proof.
  intros fuel main_path open_browser run_timeout rc w b w' H.
  apply run_main_web_app_cases in H. cbv zeta in H.
  destruct H as [(rs & _ & [(e & _ & He) | (_ & He)]) | (info & w1 & Hs & H)];
    try discriminate.
  apply run_web_server_stripped in Hs.
  destruct H as [(_ & _ & ->) | (_ & [(e & _ & He) | (st & w2 & r0 & w3 & Ht & Hl & H)])];
    [exact Hs | discriminate |].
  assert (H2 : Forall stripped (w_output w2)).
  { assert (Hp : preserves keeps_stripped time_time) by stripped_by preserves_time_time.
    specialize (Hp (W.set_container (store_server_info info) w1)).
    rewrite Ht in Hp. apply Hp. exact Hs. }
  assert (H3 : Forall stripped (w_output w3)).
  { pose proof (keeps_stripped_serve_loop fuel (as_handle (get info "process"))
                  run_timeout st 0 w2) as Hp.
    rewrite Hl in Hp. apply Hp. exact H2. }
  destruct H as [(_ & _ & ->) | (_ & Hi)]; [exact H3 |].
  pose proof (keeps_stripped_on_interrupt (as_handle (get info "process")) w3) as Hp.
  rewrite Hi in Hp. apply Hp. exact H3.
Qed.

(** A server that pads its lines with blanks. *)
Lemma captured_lines_are_stripped_witness :
  let run := run_main_web_app 100 "/app/main.py" false None None Stage.trailing_blanks in
  run = (Ok false, snd run)
  /\ w_output (snd run) = ["hello"; "world"]
  /\ Forall (fun line => rstrip line = line) (w_output (snd run)).
Proof.
  cbv zeta.
  assert (He : run_main_web_app 100 "/app/main.py" false None None Stage.trailing_blanks
               = (Ok false,
                  snd (run_main_web_app 100 "/app/main.py" false None None
                         Stage.trailing_blanks)))
    by (apply pair_of_fst; vm_compute; reflexivity).
  split; [exact He |]. split; [vm_compute; reflexivity |].
  exact (captured_lines_are_stripped 100 "/app/main.py" false None None
           Stage.trailing_blanks false _ He).
Defined.

(** X3 (the shared list is append-only). From the moment [run_web_server]
    has returned to the end of the service run, whatever its end, the
    lines of the shared list stay where they are: the list the run ends
    with starts with the list the poll loop began with. *)
Theorem buffer_only_grows :
  forall fuel main_path open_browser run_timeout rc w info w1 r w',
    run_web_server fuel main_path open_browser max_wait_default
      (W.set_container (fun _ => default ∅ rc) w) = (Ok info, w1) ->
    run_main_web_app fuel main_path open_browser run_timeout rc w = (r, w') ->
    w_output w1 `prefix_of` w_output w'.
Proof.
  intros fuel main_path open_browser run_timeout rc w info w1 r w' Hs H.
  apply run_main_web_app_cases in H. cbv zeta in H. rewrite Hs in H.
  destruct H as [(rs & Hrs & [(e & -> & _) | (-> & _)]) | (info' & w1' & Hs' & H)];
    try discriminate.
  inversion Hs'; subst info' w1'. clear Hs'.
  destruct H as [(_ & _ & ->) | (_ & [(e & Ht & _) | (st & w2 & r0 & w3 & Ht & Hl & H)])].
  - reflexivity.
  - apply time_time_spec in Ht. destruct Ht as [[Ho _] _]. exact Ho.
  - apply time_time_spec in Ht. destruct Ht as [[Ho _] _].
    apply serve_loop_run, serve_run_grows in Hl.
    unfold output_grows in *. simpl in Ho.
    destruct H as [(_ & _ & ->) | (_ & Hi)].
    + etransitivity; eassumption.
    + apply on_interrupt_spec in Hi. destruct Hi as [[Hg _] _].
      unfold output_grows in Hg.
      etransitivity; [exact Ho |]. etransitivity; eassumption.
Qed.

(** The same server: the list is empty when the poll loop begins and
    holds both lines at the end. *)
Lemma buffer_only_grows_witness :
  let start := run_web_server 100 "/app/main.py" false max_wait_default
                 (W.set_container (fun _ => default ∅ None) Stage.trailing_blanks) in
  let run := run_main_web_app 100 "/app/main.py" false None None Stage.trailing_blanks in
  start = (Ok (mkdict [("success", VBool true);
                       ("process", VProc 2);
                       ("url", VStr "http://127.0.0.1:5000");
                       ("output_lines", VLines)]), snd start)
  /\ w_output (snd start) = []
  /\ w_output (snd run) = ["hello"; "world"]
  /\ w_output (snd start) `prefix_of` w_output (snd run).
Proof.
  cbv zeta.
  assert (Hs : run_web_server 100 "/app/main.py" false max_wait_default
                 (W.set_container (fun _ => default ∅ None) Stage.trailing_blanks)
               = (Ok (mkdict [("success", VBool true);
                              ("process", VProc 2);
                              ("url", VStr "http://127.0.0.1:5000");
                              ("output_lines", VLines)]),
                  snd (run_web_server 100 "/app/main.py" false max_wait_default
                         (W.set_container (fun _ => default ∅ None)
                            Stage.trailing_blanks))))
    by (apply pair_of_fst; vm_compute; reflexivity).
  split; [exact Hs |]. split; [vm_compute; reflexivity |].
  split; [vm_compute; reflexivity |].
  exact (buffer_only_grows 100 "/app/main.py" false None None Stage.trailing_blanks
           _ _ _ _ Hs (surjective_pairing _)).
Defined.

(** ** The tree terminator when nothing interferes *)

Lemma at_rest_env_step w : at_rest w -> env_step w = (Ok tt, w).
Proof. intros [Hs Hi]. unfold env_step. rewrite Hs, Hi. reflexivity. Qed.

Lemma at_rest_prim {A} (op : M A) w : at_rest w -> prim op w = op w.
Proof. intros H. unfold prim, bind. now rewrite at_rest_env_step. Qed.

(** [terminate()] on a process that is in the system and takes signals:
    the signal is sent, and the call returns. *)
Lemma terminate_at_rest pid w :
  at_rest w -> signalable (w_procs w) pid ->
  psutil_terminate pid w = (Ok tt, W.log (SigTerm pid) w).
Proof.
  intros Hq [Hex [s Hv]]. unfold psutil_terminate. rewrite at_rest_prim by exact Hq.
  unfold pid_exists in Hex. unfold view in Hv.
  destruct (find_proc (w_procs w) pid) as [p |]; [| discriminate].
  simpl in Hv. injection Hv as _ Hd. rewrite Hex, Hd. reflexivity.
Qed.

(** [terminate()] on a process that is in the system and refuses. *)
Lemma terminate_refused pid w :
  at_rest w -> refuses (w_procs w) pid ->
  psutil_terminate pid w = (Raise (AccessDenied pid), w).
Proof.
  intros Hq [Hex [s Hv]]. unfold psutil_terminate. rewrite at_rest_prim by exact Hq.
  unfold pid_exists in Hex. unfold view in Hv.
  destruct (find_proc (w_procs w) pid) as [p |]; [| discriminate].
  simpl in Hv. injection Hv as _ Hd. rewrite Hex, Hd. reflexivity.
Qed.

(** The loop over the children: each one is signalled in turn, and the
    process table is left as it is. *)
Lemma terminate_each_at_rest (l : list Z) :
  forall w,
    at_rest w -> Forall (signalable (w_procs w)) l ->
    exists w',
      for_each l psutil_terminate w = (Ok tt, w')
      /\ at_rest w'
      /\ w_log w' = w_log w ++ map SigTerm l
      /\ w_procs w' = w_procs w.
Proof.
  induction l as [| x l IH]; intros w Hq Hall.
  - exists w. split; [reflexivity |]. split; [exact Hq |].
    split; [simpl; now rewrite app_nil_r | reflexivity].
  - apply Forall_cons in Hall. destruct Hall as [Hsx Hall].
    pose proof (terminate_at_rest x w Hq Hsx) as E1.
    destruct (IH (W.log (SigTerm x) w) Hq Hall) as (w' & E2 & Hq' & Hl' & Hp').
    exists w'. cbn [for_each]. unfold bind at 1. rewrite E1.
    split; [exact E2 |]. split; [exact Hq' |].
    split; [rewrite Hl'; simpl; rewrite <- app_assoc; reflexivity | exact Hp'].
Qed.





(** A root that has ended and whose code the supervisor has collected:
    the terminator does nothing. A root that has ended and whose code
    nobody has collected is still found and signalled. *)
Example terminator_on_an_ended_root :
  (let r := _kill_process_tree 2 (Scenario.with_procs [mkproc 2 0 (Reaped 0) false] []) in
   fst r = Ok tt /\ w_log (snd r) = [])
  /\ (let r := _kill_process_tree 2 (Scenario.with_procs [mkproc 2 0 (Exited 0) false] []) in
      fst r = Ok tt /\ w_log (snd r) = [Enumerated 2 []; SigTerm 2]).
Proof. vm_compute. repeat split. Qed.

Lemma for_each_app {A} (l1 l2 : list A) (body : A -> M unit) w :
  for_each (l1 ++ l2) body w = (for_each l1 body ;; for_each l2 body) w.
Proof.
  revert w. induction l1 as [| x l1 IH]; intros w; [reflexivity |].
  cbn [app for_each]. unfold bind.
  destruct (body x w) as [[[] | e |] w1]; [| reflexivity | reflexivity].
  rewrite IH. reflexivity.
Qed.

Lemma is_running_exists tbl pid : is_running tbl pid = true -> pid_exists tbl pid = true.
Proof.
  unfold is_running, pid_exists, proc_running, proc_present.
  destruct (find_proc tbl pid) as [p |]; [| discriminate].
  destruct (p_state p); first [reflexivity | discriminate].
Qed.

(** X6 (the tree terminator and a process that refuses). When the
    environment is at rest and a descendant refuses the signal, the
    descendants listed before it having taken theirs, [_kill_process_tree]
    raises [psutil.AccessDenied] for it: the descendants listed after it
    and the root get no signal, and the table says of them what it said
    before the call. *)
Theorem terminator_stops_at_a_refusal :
  forall proc w before c after,
    at_rest w ->
    is_running (w_procs w) proc = true ->
    children_recursive (w_procs w) proc = before ++ c :: after ->
    NoDup (before ++ [c]) ->
    Forall (signalable (w_procs w)) before ->
    refuses (w_procs w) c ->
    exists w',
      _kill_process_tree proc w = (Raise (AccessDenied c), w')
      /\ w_log w'
         = w_log w ++ Enumerated proc (before ++ c :: after) :: map SigTerm before
      /\ forall pid, ~ In pid before -> view (w_procs w') pid = view (w_procs w) pid.
Proof.
  intros proc w before c after Hq Hrun Hcs _ Hall Hc.
  apply is_running_exists in Hrun.
  set (w1 := W.log (Enumerated proc (before ++ c :: after)) w).
  assert (Hq1 : at_rest w1) by exact Hq.
  destruct (terminate_each_at_rest before w1 Hq1 Hall) as (w2 & E2 & Hq2 & Hl2 & Hp2).
  exists w2.
  assert (Hdenied : psutil_terminate c w2 = (Raise (AccessDenied c), w2)).
  { apply terminate_refused; [exact Hq2 |]. rewrite Hp2. exact Hc. }
  split; [| split].
  - unfold _kill_process_tree, try_except, bind, psutil_Process, psutil_children.
    rewrite !at_rest_prim by exact Hq. rewrite Hrun.
    rewrite at_rest_prim by exact Hq. rewrite Hrun, Hcs. fold w1.
    rewrite for_each_app. unfold bind. rewrite E2.
    cbn [for_each]. unfold bind. rewrite Hdenied. reflexivity.
  - rewrite Hl2. subst w1. simpl. rewrite <- app_assoc. reflexivity.
  - intros pid _. rewrite Hp2. reflexivity.
Qed.

(** The first worker refuses the signal: neither the second worker nor
    the server is signalled. *)
Lemma terminator_stops_at_a_refusal_witness :
  let w := Stage.guarded_family in
  at_rest w
  /\ is_running (w_procs w) 2 = true
  /\ children_recursive (w_procs w) 2 = [] ++ 3 :: [4]
  /\ exists w',
       _kill_process_tree 2 w = (Raise (AccessDenied 3), w')
       /\ w_log w' = w_log w ++ Enumerated 2 ([] ++ 3 :: [4]) :: map SigTerm []
       /\ forall pid, ~ In pid [] -> view (w_procs w') pid = view (w_procs w) pid.
Proof.
  cbv zeta.
  assert (Hq : at_rest Stage.guarded_family) by (split; reflexivity).
  assert (Hr : is_running (w_procs Stage.guarded_family) 2 = true) by reflexivity.
  assert (Hcs : children_recursive (w_procs Stage.guarded_family) 2 = [] ++ 3 :: [4])
    by (vm_compute; reflexivity).
  split; [exact Hq |]. split; [exact Hr |]. split; [exact Hcs |].
  apply (terminator_stops_at_a_refusal 2 Stage.guarded_family [] 3 [4] Hq Hr Hcs).
  - apply NoDup_ListNoDup. repeat constructor. simpl. intuition.
  - constructor.
  - split; [reflexivity | exists Running; reflexivity].
Defined.

(** ** What the console supervisor returns *)

Lemma expiry_check_spec run_timeout start_time w r w' :
  expiry_check run_timeout start_time w = (r, w') ->
  w_log w' = w_log w
  /\ (r = Ok false \/ (r = Ok true /\ truthy run_timeout = true)
      \/ r = Raise KeyboardInterrupt).
Proof.
  unfold expiry_check. destruct (truthy run_timeout); [| intros [= <- <-]; auto].
  unfold bind. destruct (time_time w) as [[now | e |] w1] eqn:Et; intros H.
  - apply time_time_spec in Et. inversion H; subst. split; [apply Et |].
    destruct (exceeds _ _); auto.
  - pose proof (time_time_raises _ _ _ Et) as ->.
    apply time_time_spec in Et. inversion H; subst. split; [apply Et | auto].
  - exfalso. eapply ror_time_time. rewrite Et. reflexivity.
Qed.

(** The console loop, whatever its end: before its last step it has
    polled and slept only; it ends with the record of an exit, with that
    of a timeout after a [kill()], or with an exception. *)
Lemma console_loop_outcome process run_timeout start_time abs_main fuel :
  forall w r w',
    console_loop fuel process run_timeout start_time abs_main w = (r, w') ->
    exists t,
      w_log w' = w_log w ++ t
      /\ ((exists c,
              r = Ok (console_exited abs_main c (w_stderr w'))
              /\ forallb not_signal t = true
              /\ last t = Some (Polled process (Some c)))
          \/ (r = Ok (console_timed_out abs_main run_timeout (w_stderr w'))
              /\ truthy run_timeout = true
              /\ at_most_a_kill process t)
          \/ (exists e, r = Raise e /\ is_Exception e = true
                        /\ forallb not_signal t = true)
          \/ r = Raise KeyboardInterrupt
          \/ r = NoFuel).
Proof.
  induction fuel as [| fuel IH]; intros w r w' H; cbn [console_loop] in H.
  { inversion H; subst. exists []. rewrite app_nil_r. split; [reflexivity |]. auto 10. }
  change (if truthy run_timeout then _ else ret false)
    with (expiry_check run_timeout start_time) in H.
  unfold bind at 1 in H.
  destruct (poll process w) as [[[c |] | e |] w1] eqn:Ep.
  - (* the process has ended *)
    apply poll_ok in Ep. unfold bind in H.
    destruct (err_file_read w1) as [rr w2] eqn:Er.
    apply err_file_read_spec in Er. destruct Er as [Hl [-> | ->]]; inversion H; subst.
    + exists [Polled process (Some c)]. split; [congruence |]. left. exists c. auto.
    + exists [Polled process (Some c)]. split; [congruence |]. auto 10.
  - (* it runs *)
    apply poll_ok in Ep. unfold bind at 1 in H.
    destruct (expiry_check run_timeout start_time w1) as [rx w2] eqn:Ex.
    apply expiry_check_spec in Ex. destruct Ex as [Hl2 [-> | [[-> Ht] | ->]]].
    + (* not expired *)
      unfold bind at 1 in H.
      destruct (time_sleep 0.1%float w2) as [rs w3] eqn:Es.
      apply time_sleep_spec in Es. destruct Es as [_ [[-> Hl3] | [-> Hl3]]].
      * apply IH in H. destruct H as (t & Hl & H).
        exists (Polled process None :: Slept 0.1%float :: t). split.
        { rewrite Hl, Hl3, Hl2, Ep, <- !app_assoc. reflexivity. }
        destruct H as [(c & -> & Hs & Hlast) | [(-> & Ht & t0 & Hs & Hk) | [(e & -> & He & Hs) | H]]].
        -- left. exists c. split; [reflexivity |]. split; [exact Hs |].
           destruct t; [discriminate | exact Hlast].
        -- right. left. split; [reflexivity |]. split; [exact Ht |].
           exists (Polled process None :: Slept 0.1%float :: t0).
           split; [exact Hs |]. destruct Hk as [-> | ->]; auto.
        -- right. right. left. exists e. auto.
        -- auto 10.
      * inversion H; subst.
        exists [Polled process None]. split; [congruence |]. auto 10.
    + (* expired *)
      unfold bind at 1 in H.
      destruct (kill process w2) as [rk w3] eqn:Ek.
      apply kill_spec in Ek. destruct Ek as [[-> Hl3] | [[e ->] Hl3]].
      * unfold bind in H. destruct (err_file_read w3) as [rr w4] eqn:Er.
        apply err_file_read_spec in Er. destruct Er as [Hl4 [-> | ->]]; inversion H; subst.
        -- destruct Hl3 as [Hl3 | Hl3].
           ++ exists ([Polled process None] ++ [SigKill process]).
              split; [rewrite Hl4, Hl3, Hl2, Ep, <- app_assoc; reflexivity |].
              right. left. split; [reflexivity |]. split; [exact Ht |].
              exists [Polled process None]. auto.
           ++ exists [Polled process None].
              split; [congruence |].
              right. left. split; [reflexivity |]. split; [exact Ht |].
              exists [Polled process None]. auto.
        -- destruct Hl3 as [Hl3 | Hl3].
           ++ exists [Polled process None; SigKill process].
              split; [rewrite Hl4, Hl3, Hl2, Ep, <- app_assoc; reflexivity | auto 10].
           ++ exists [Polled process None]. split; [congruence | auto 10].
      * inversion H; subst. exists [Polled process None].
        split; [congruence |].
        destruct (is_Exception e) eqn:He; [| destruct e; try discriminate; auto 10].
        right. right. left. exists e. auto.
    + inversion H; subst. exists [Polled process None]. split; [congruence |]. auto 10.
  - (* the poll raises *)
    apply poll_raise in Ep. destruct Ep as [_ Hl]. inversion H; subst.
    exists []. rewrite app_nil_r. split; [exact Hl |].
    destruct (is_Exception e) eqn:He; [| destruct e; try discriminate; auto 10].
    right. right. left. exists e. auto.
  - exfalso. eapply ror_poll. rewrite Ep. reflexivity.
Qed.



(** ** What [execute_python_code] returns *)

(** [communicate]: it adds nothing to the trace; it returns once the
    process has ended and its code is collected, with what the child
    wrote; it raises [TimeoutExpired] only when a timeout is given. *)
Lemma communicate_wait_spec process timeout started fuel :
  forall w r w',
    communicate_wait fuel process timeout started w = (r, w') ->
    w_log w' = w_log w
    /\ (r = NoFuel
        \/ r = Raise KeyboardInterrupt
        \/ (r = Raise TimeoutExpired /\ timeout <> None)
        \/ (r = Ok (String.concat "" (w_pipe w'), w_stderr w')
            /\ ended (w_procs w') process)).
Proof.
  induction fuel as [| fuel IH]; intros w r w' H; cbn [communicate_wait] in H.
  { inversion H; subst. auto. }
  unfold bind in H. pose proof (env_step_log w) as Hl.
  destruct (env_step w) as [[[] | e |] w1] eqn:Ee; simpl in Hl.
  - cbv zeta in H.
    destruct (returncode (w_procs (W.set_procs (reap process) w1)) process) as [c |] eqn:Hc.
    + inversion H; subst. split; [exact Hl |].
      right. right. right. split; [reflexivity | exists c; exact Hc].
    + destruct timeout as [t |].
      * destruct (PrimFloat.leb _ _).
        -- inversion H; subst. split; [exact Hl |].
           right. right. left. split; [reflexivity | discriminate].
        -- apply IH in H. destruct H as (Hl' & H).
           split; [rewrite Hl'; exact Hl | exact H].
      * apply IH in H. destruct H as (Hl' & H).
        split; [rewrite Hl'; exact Hl | exact H].
  - pose proof (env_step_res w) as Hr. rewrite Ee in Hr. simpl in Hr.
    destruct Hr as [Hr | Hr]; [discriminate |]. inversion Hr; subst.
    inversion H; subst. auto.
  - exfalso. apply (ror_env_step w). now rewrite Ee.
Qed.

Lemma communicate_spec fuel process input timeout w r w' :
  communicate fuel process input timeout w = (r, w') ->
  w_log w' = w_log w
  /\ (r = NoFuel
      \/ r = Raise KeyboardInterrupt
      \/ (r = Raise OverflowError /\ timeout <> None)
      \/ (r = Raise TimeoutExpired /\ timeout <> None)
      \/ (r = Ok (String.concat "" (w_pipe w'), w_stderr w')
          /\ ended (w_procs w') process)).
Proof.
  unfold communicate. destruct timeout as [t |].
  - destruct (float_of_int t) as [secs |].
    + intros H. apply communicate_wait_spec in H. destruct H as (Hl & H).
      split; [exact Hl |]. destruct H as [H | [H | [[H _] | H]]]; auto 10.
    + intros [= <- <-]. split; [reflexivity |]. right. right. left.
      split; [reflexivity | discriminate].
  - intros H. apply communicate_wait_spec in H. destruct H as (Hl & H).
    split; [exact Hl |]. destruct H as [H | [H | [[_ H] | H]]]; auto 10.
    now contradiction H.
Qed.

Lemma os_path_exists_log p w r w' : os_path_exists p w = (r, w') -> w_log w' = w_log w.
Proof. unfold os_path_exists. intros H. prim_step H w1 Hl; inversion H; subst; auto. Qed.

(** X8 (the records of [execute_python_code]). The call lets no
    [Exception] out: it ends with [KeyboardInterrupt] or it returns one of
    four records. The record of a missing file; the record of a child
    that ended by itself, [success] being whether its return code is [0],
    nobody having been signalled; the record of a timeout, only when a
    timeout is given: SIGKILL has then been sent to the child (or it had
    just ended), its end has been waited for, and the record carries its
    return code; and the record of
    an [Exception], which carries the path as it was given and the
    formatted traceback as [stderr]. *)
Theorem execute_result_shapes :
  forall fuel filepath timeout input_text w r w',
    execute_python_code fuel filepath timeout input_text w = (r, w') ->
    let abs_filepath := abspath (w_cwd w) filepath in
    r = NoFuel
    \/ r = Raise KeyboardInterrupt
    \/ (r = Ok (exec_not_found abs_filepath) /\ w_log w' = w_log w)
    \/ (exists process c,
           r = Ok (exec_finished abs_filepath c
                     (String.concat "" (w_pipe w'), w_stderr w'))
           /\ returncode (w_procs w') process = Some c
           /\ w_log w' = w_log w ++ [Spawned process abs_filepath])
    \/ (exists process c,
           timeout <> None
           /\ r = Ok (exec_timed_out abs_filepath timeout c
                        (String.concat "" (w_pipe w'), w_stderr w'))
           /\ returncode (w_procs w') process = Some c
           /\ (w_log w' = w_log w ++ [Spawned process abs_filepath; SigKill process]
               \/ w_log w' = w_log w ++ [Spawned process abs_filepath]))
    \/ (exists e, is_Exception e = true /\ r = Ok (exec_exception filepath e)).
Proof.
  intros fuel filepath timeout input_text w r w' H abs_filepath.
  unfold execute_python_code in H. apply try_except_cases in H.
  destruct H as [(d & H & ->) | [(_ & ->) | (e & w1 & _ & [(He & -> & _) | (h & He & H)])]];
    [| now left | | ].
  2:{ destruct (is_Exception e) eqn:Hx; [discriminate |].
      destruct e; try discriminate. auto. }
  2:{ destruct (is_Exception e) eqn:Hx; [| discriminate].
      inversion He; subst h. inversion H; subst.
      do 5 right. exists e. auto. }
  apply bind_ok_inv in H. destruct H as (abs & wa & Ha & H).
  unfold os_path_abspath in Ha. inversion Ha; subst abs wa. clear Ha.
  fold abs_filepath in H.
  apply bind_ok_inv in H. destruct H as (found & w1 & Hf & H).
  apply os_path_exists_log in Hf.
  destruct found; cbn [negb] in H.
  2:{ inversion H; subst. right. right. left. auto. }
  apply bind_ok_inv in H. destruct H as (process & w2 & Hp & H).
  apply Popen_ok in Hp.
  apply try_except_cases in H.
  destruct H as [(d' & H & [= <-]) | [(_ & [=]) | (e & w3 & Hb & [(_ & [=] & _) | (h & He & H)])]].
  - (* the child ended by itself *)
    apply bind_ok_inv in H. destruct H as (out & w3 & Hc & H).
    apply communicate_spec in Hc.
    destruct Hc as (Hl3 & [[=] | [[=] | [[[=] _] | [[[=] _] | [[= ->] [c Hc]]]]]]).
    apply bind_ok_inv in H. destruct H as (rc & w4 & Hrc & H).
    inversion Hrc; subst rc w4. inversion H; subst.
    do 3 right. left. exists process, c. rewrite Hc.
    split; [reflexivity |]. split; [reflexivity | congruence].
  - (* the timeout *)
    destruct e; try discriminate. inversion He; subst h. clear He.
    apply bind_raise_inv in Hb. destruct Hb as [Hb | (out & wx & _ & Hb)].
    2:{ apply bind_raise_inv in Hb. destruct Hb as [[=] | (rc & wy & _ & [=])]. }
    apply communicate_spec in Hb.
    destruct Hb as (Hl3 & [[=] | [[=] | [[[=] _] | [[_ Hto] | [[=] _]]]]]).
    apply bind_ok_inv in H. destruct H as ([] & w4 & Hkill & H).
    apply kill_ok in Hkill. rename Hkill into Hl4.
    apply bind_ok_inv in H. destruct H as (out & w5 & Hc & H).
    apply (communicate_spec fuel process None None) in Hc.
    destruct Hc as (Hl5 & [[=] | [[=] | [[[=] _] | [[[=] _] | [[= ->] [c Hc]]]]]]).
    apply bind_ok_inv in H. destruct H as (rc & w6 & Hrc & H).
    inversion Hrc; subst rc w6. inversion H; subst.
    do 4 right. left. exists process, c. rewrite Hc.
    split; [exact Hto |]. split; [reflexivity |]. split; [reflexivity |].
    destruct Hl4 as [Hl4 | Hl4]; [left | right];
      rewrite Hl5, Hl4, Hl3, Hp, Hf, <- ?app_assoc; reflexivity.
Qed.

(** A script that hangs, run with a timeout of one second: it is killed
    and its return code is that of the kill. *)
Lemma execute_result_shapes_witness :
  let run := execute_python_code 100 "/app/main.py" (Some 1) None Stage.script_hangs in
  let d := exec_timed_out "/app/main.py" (Some 1) (-9) ("tick", "") in
  run = (Ok d, snd run)
  /\ get d "error" = VStr "timeout 1 seconds"
  /\ w_log (snd run) = [Spawned 2 "/app/main.py"; SigKill 2]
  /\ is_running (w_procs (snd run)) 2 = false
  /\ (fst run = NoFuel
      \/ fst run = Raise KeyboardInterrupt
      \/ (fst run = Ok (exec_not_found "/app/main.py")
          /\ w_log (snd run) = w_log Stage.script_hangs)
      \/ (exists process c,
             fst run = Ok (exec_finished "/app/main.py" c
                             (String.concat "" (w_pipe (snd run)), w_stderr (snd run)))
             /\ returncode (w_procs (snd run)) process = Some c
             /\ w_log (snd run)
                = w_log Stage.script_hangs ++ [Spawned process "/app/main.py"])
      \/ (exists process c,
             Some 1 <> None
             /\ fst run = Ok (exec_timed_out "/app/main.py" (Some 1) c
                                (String.concat "" (w_pipe (snd run)), w_stderr (snd run)))
             /\ returncode (w_procs (snd run)) process = Some c
             /\ (w_log (snd run)
                 = w_log Stage.script_hangs ++ [Spawned process "/app/main.py"; SigKill process]
                 \/ w_log (snd run)
                    = w_log Stage.script_hangs ++ [Spawned process "/app/main.py"]))
      \/ (exists e, is_Exception e = true
                    /\ fst run = Ok (exec_exception "/app/main.py" e))).
Proof.
  cbv zeta.
  assert (He : execute_python_code 100 "/app/main.py" (Some 1) None Stage.script_hangs
               = (Ok (exec_timed_out "/app/main.py" (Some 1) (-9) ("tick", "")),
                  snd (execute_python_code 100 "/app/main.py" (Some 1) None
                         Stage.script_hangs)))
    by (apply pair_of_fst; vm_compute; reflexivity).
  split; [exact He |]. split; [reflexivity |].
  split; [vm_compute; reflexivity |]. split; [vm_compute; reflexivity |].
  exact (execute_result_shapes 100 "/app/main.py" (Some 1) None Stage.script_hangs
           _ _ (surjective_pairing _)).
Defined.

(** ** Ctrl+C during the service poll loop *)

(** X9 (Ctrl+C while the server is watched). When [KeyboardInterrupt]
    is raised inside the poll loop of [run_main_web_app], the call goes on
    with the handler: it polls the process; if the process has ended the
    call returns [True] at once, having signalled nobody; if it still runs
    the tree terminator is called and the call returns [True] when it
    returns. Whatever the handler meets, the call does not report a
    failure. *)
Theorem interrupt_stops_with_success :
  forall fuel main_path open_browser run_timeout rc w info w1 start_time w2 w3,
    run_web_server fuel main_path open_browser max_wait_default
      (W.set_container (fun _ => default ∅ rc) w) = (Ok info, w1) ->
    as_bool (get info "success") = true ->
    time_time (W.set_container (store_server_info info) w1) = (Ok start_time, w2) ->
    serve_loop fuel (as_handle (get info "process")) run_timeout start_time 0 w2
    = (Raise KeyboardInterrupt, w3) ->
    (forall c w4,
        poll (as_handle (get info "process")) w3 = (Ok (Some c), w4) ->
        run_main_web_app fuel main_path open_browser run_timeout rc w = (Ok true, w4)
        /\ w_log w4 = w_log w3 ++ [Polled (as_handle (get info "process")) (Some c)])
    /\ (forall w4 rk w5,
           poll (as_handle (get info "process")) w3 = (Ok None, w4) ->
           _kill_process_tree (as_handle (get info "process")) w4 = (rk, w5) ->
           run_main_web_app fuel main_path open_browser run_timeout rc w
           = (after_kill rk true, w5))
    /\ fst (run_main_web_app fuel main_path open_browser run_timeout rc w) <> Ok false.
Proof.
  intros fuel main_path open_browser run_timeout rc w info w1 start_time w2 w3
         Es Hok Et El.
  rewrite (run_main_web_app_running _ _ _ _ _ _ _ _ _ _ Es Hok Et).
  unfold try_except. rewrite El.
  split; [| split].
  - intros c w4 Ep. unfold on_interrupt. rewrite (bind_ok _ _ _ _ _ Ep).
    split; [reflexivity |]. now apply poll_ok in Ep.
  - intros w4 rk w5 Ep Ek. unfold on_interrupt. rewrite (bind_ok _ _ _ _ _ Ep).
    unfold bind. rewrite Ek. destruct rk as [[] | e |]; reflexivity.
  - destruct (on_interrupt (as_handle (get info "process")) w3) as [r w'] eqn:Ei.
    apply on_interrupt_spec in Ei. simpl. apply Ei.
Qed.

(** Ctrl+C before the first drain, the server still running. *)
Lemma interrupt_stops_with_success_witness :
  let info := mkdict [("success", VBool true);
                      ("process", VProc 2);
                      ("url", VStr "http://127.0.0.1:5000");
                      ("output_lines", VLines)] in
  let s1 := run_web_server 100 "/app/main.py" false max_wait_default
              (W.set_container (fun _ => default ∅ None) Stage.interrupted) in
  let s2 := time_time (W.set_container (store_server_info info) (snd s1)) in
  let s3 := serve_loop 100 (as_handle (get info "process")) None 0%float 0 (snd s2) in
  let s4 := poll (as_handle (get info "process")) (snd s3) in
  let s5 := _kill_process_tree (as_handle (get info "process")) (snd s4) in
  let run := run_main_web_app 100 "/app/main.py" false None None Stage.interrupted in
  s1 = (Ok info, snd s1)
  /\ as_bool (get info "success") = true
  /\ s2 = (Ok 0%float, snd s2)
  /\ s3 = (Raise KeyboardInterrupt, snd s3)
  /\ s4 = (Ok None, snd s4)
  /\ s5 = (Ok tt, snd s5)
  /\ run = (Ok true, snd s5)
  /\ w_log (snd s5)
     = [Spawned 2 "/app/main.py"; Polled 2 None; Connected 5000 true; Polled 2 None;
        Enumerated 2 []; SigTerm 2]
  /\ fst run <> Ok false.
Proof.
  cbv zeta.
  set (info := mkdict [("success", VBool true);
                       ("process", VProc 2);
                       ("url", VStr "http://127.0.0.1:5000");
                       ("output_lines", VLines)]).
  set (s1 := run_web_server 100 "/app/main.py" false max_wait_default
               (W.set_container (fun _ => default ∅ None) Stage.interrupted)).
  set (s2 := time_time (W.set_container (store_server_info info) (snd s1))).
  set (s3 := serve_loop 100 (as_handle (get info "process")) None 0%float 0 (snd s2)).
  set (s4 := poll (as_handle (get info "process")) (snd s3)).
  set (s5 := _kill_process_tree (as_handle (get info "process")) (snd s4)).
  assert (H1 : s1 = (Ok info, snd s1)) by (apply pair_of_fst; vm_compute; reflexivity).
  assert (H2 : as_bool (get info "success") = true) by reflexivity.
  assert (H3 : s2 = (Ok 0%float, snd s2)) by (apply pair_of_fst; vm_compute; reflexivity).
  assert (H4 : s3 = (Raise KeyboardInterrupt, snd s3))
    by (apply pair_of_fst; vm_compute; reflexivity).
  assert (H5 : s4 = (Ok None, snd s4)) by (apply pair_of_fst; vm_compute; reflexivity).
  assert (H6 : s5 = (Ok tt, snd s5)) by (apply pair_of_fst; vm_compute; reflexivity).
  pose proof (interrupt_stops_with_success 100 "/app/main.py" false None None
                Stage.interrupted info (snd s1) 0%float (snd s2) (snd s3)
                H1 H2 H3 H4) as (_ & Hk & Hne).
  split; [exact H1 |]. split; [exact H2 |]. split; [exact H3 |]. split; [exact H4 |].
  split; [exact H5 |]. split; [exact H6 |].
  split; [exact (Hk (snd s4) (Ok tt) (snd s5) H5 H6) |].
  split; [vm_compute; reflexivity | exact Hne].
Defined.

(** ** The dictionary after a service run *)

Lemma store_lookup_output info (d : dict) :
  store_server_info info d !! "server_output"
  = Some (get_or info "output_lines" (VList [])).
Proof.
  unfold store_server_info.
  rewrite lookup_insert_ne by discriminate. now rewrite lookup_insert_eq.
Qed.

Lemma store_lookup_url info (d : dict) :
  store_server_info info d !! "server_url" = Some (get info "url").
Proof. unfold store_server_info. now rewrite lookup_insert_eq. Qed.

Lemma store_lookup_other info (d : dict) k :
  k <> "server_process" -> k <> "server_output" -> k <> "server_url" ->
  store_server_info info d !! k = d !! k.
Proof.
  intros H1 H2 H3. unfold store_server_info.
  now rewrite !lookup_insert_ne by congruence.
Qed.

Lemma has_key_true (d : dict) k : has_key d k = true -> is_Some (d !! k).
Proof. unfold has_key. intros H. now apply bool_decide_eq_true in H. Qed.

Lemma marker_not_in_empty tb : contains crash_marker tb = true -> tb <> "".
Proof. intros H ->. discriminate. Qed.

(** The dictionary a returned service run leaves: what [run_web_server]
    reported, stored under the three [server_] keys of the dictionary the
    run was given, and at most one more entry, a ["server_error"] that is
    a text and not empty. *)
Lemma service_container fuel main_path open_browser run_timeout rc w b w' :
  run_main_web_app fuel main_path open_browser run_timeout rc w = (Ok b, w') ->
  exists info w1,
    run_web_server fuel main_path open_browser max_wait_default
      (W.set_container (fun _ => default ∅ rc) w) = (Ok info, w1)
    /\ ((w_container w' = store_server_info info (default ∅ rc)
         /\ (b = false -> is_Some (default ∅ rc !! "server_error")))
        \/ exists x,
             x <> ""
             /\ w_container w'
                = <["server_error" := VStr x]> (store_server_info info (default ∅ rc))).
Proof.
  intros H. apply run_main_web_app_cases in H. cbv zeta in H.
  destruct H as [(rs & _ & [(e & _ & [=]) | (_ & [=])]) | (info & w1 & Hs & H)].
  exists info, w1. split; [exact Hs |].
  pose proof (run_web_server_container fuel main_path open_browser max_wait_default
                (W.set_container (fun _ => default ∅ rc) w)) as Hc1.
  rewrite Hs in Hc1. simpl in Hc1.
  destruct H as [(Hok & _ & ->) | (_ & [(e & _ & [=]) | (st & w2 & r0 & w3 & Ht & Hl & H)])].
  - (* the server did not start *)
    right. apply run_web_server_ok, probe_outcome_info in Hs.
    destruct Hs as (process & _ & [[_ He] | Hyes]); [| congruence].
    simpl. rewrite Hc1.
    destruct He as [-> | ->]; eexists; (split; [| reflexivity]); discriminate.
  - apply time_time_spec in Ht. destruct Ht as [[_ Hc2] _]. simpl in Hc2.
    rewrite Hc1 in Hc2.
    apply serve_loop_run, serve_run_outcome in Hl.
    destruct Hl as (t & _ & Hl).
    assert (Hfin : w_container w' = w_container w3 /\ (r0 = Ok b \/ b = true)).
    { destruct H as [(_ & -> & ->) | (_ & Hi)]; [auto |].
      apply on_interrupt_spec in Hi. destruct Hi as ([_ Hc] & _ & Hnf & _).
      split; [exact Hc |]. right. destruct b; [reflexivity | congruence]. }
    destruct Hfin as [-> Hb]. rewrite Hc2 in Hl.
    destruct Hl as [(s0 & lines & i & k & c & wa & rk & t0 & tk & _ & _ & Hi & -> & _)
                   | (_ & [(-> & _ & ->) | (Hne & ->)])].
    + right. eexists. split; [| reflexivity].
      apply marker_not_in_empty. now apply traceback_has_marker.
    + destruct (has_key _ "server_error") eqn:Hk.
      * left. split; [reflexivity |]. intros _.
        apply has_key_true in Hk. now rewrite store_lookup_error in Hk.
      * right. eexists. split; [| reflexivity]. discriminate.
    + left. split; [reflexivity |]. intros ->.
      destruct Hb as [-> | [=]]. congruence.
Qed.

(** X10 (what a service run leaves in [result_container]). When
    [run_main_web_app] returns, the dictionary holds the handle of the
    spawned process under ["server_process"], the shared list under
    ["server_output"], and under ["server_url"] the URL of one of the
    candidate ports or [None]; when it returns [False] there is a
    ["server_error"]; and no other key of the dictionary it was given has
    been added, removed or changed. *)
Theorem service_run_records :
  forall fuel main_path open_browser run_timeout rc w b w',
    run_main_web_app fuel main_path open_browser run_timeout rc w = (Ok b, w') ->
    (exists process, w_container w' !! "server_process" = Some (VProc process))
    /\ w_container w' !! "server_output" = Some VLines
    /\ (w_container w' !! "server_url" = Some VNone
        \/ exists p, In p default_ports
                     /\ w_container w' !! "server_url" = Some (VStr (server_url_of p)))
    /\ (b = false -> is_Some (w_container w' !! "server_error"))
    /\ (forall k,
           k <> "server_process" -> k <> "server_output" -> k <> "server_url" ->
           k <> "server_error" ->
           w_container w' !! k = default ∅ rc !! k).
Proof.
  intros fuel main_path open_browser run_timeout rc w b w' H.
  apply service_container in H. destruct H as (info & w1 & Hs & H).
  apply run_web_server_ok in Hs.
  assert (Hinfo : exists process,
             get info "process" = VProc process
             /\ get_or info "output_lines" (VList []) = VLines
             /\ (get info "url" = VNone
                 \/ exists p, In p default_ports /\ get info "url" = VStr (server_url_of p))).
  { destruct Hs as (process & k & _ & [(c & -> & _) | [(j & p & Hj & -> & _) | (-> & _)]]);
      exists process; (split; [reflexivity |]); (split; [reflexivity |]).
    - left. reflexivity.
    - right. exists p. split; [| reflexivity].
      apply list_elem_of_In. eapply list_elem_of_lookup_2. exact Hj.
    - left. reflexivity. }
  destruct Hinfo as (process & Hp & Ho & Hu).
  assert (Hkeys : forall d : dict,
             (w_container w' = d \/ exists x, w_container w' = <["server_error" := x]> d) ->
             d = store_server_info info (default ∅ rc) ->
             (exists process, w_container w' !! "server_process" = Some (VProc process))
             /\ w_container w' !! "server_output" = Some VLines
             /\ (w_container w' !! "server_url" = Some VNone
                 \/ exists p, In p default_ports
                              /\ w_container w' !! "server_url"
                                 = Some (VStr (server_url_of p)))
             /\ (forall k,
                    k <> "server_process" -> k <> "server_output" -> k <> "server_url" ->
                    k <> "server_error" ->
                    w_container w' !! k = default ∅ rc !! k)).
  { intros d Hd ->.
    assert (Hlk : forall k, k <> "server_error" ->
                            w_container w' !! k
                            = store_server_info info (default ∅ rc) !! k).
    { intros k Hk. destruct Hd as [-> | [x ->]]; [reflexivity |].
      now rewrite lookup_insert_ne by congruence. }
    split; [| split; [| split]].
    - exists process. rewrite Hlk by discriminate. now rewrite store_lookup_process, Hp.
    - rewrite Hlk by discriminate. now rewrite store_lookup_output, Ho.
    - rewrite Hlk by discriminate. rewrite store_lookup_url.
      destruct Hu as [-> | (p & Hin & ->)]; [left | right; exists p]; auto.
    - intros k H1 H2 H3 H4. rewrite Hlk by exact H4. now apply store_lookup_other. }
  destruct H as [(Hc & Hb) | (x & Hx & Hc)].
  - destruct (Hkeys _ (or_introl Hc) eq_refl) as (K1 & K2 & K3 & K4).
    repeat (split; [assumption |]). split; [| exact K4].
    intros Hf. rewrite Hc, store_lookup_error. auto.
  - destruct (Hkeys _ (or_intror (ex_intro _ (VStr x) Hc)) eq_refl) as (K1 & K2 & K3 & K4).
    repeat (split; [assumption |]). split; [| exact K4].
    intros _. rewrite Hc, lookup_insert_eq. eauto.
Qed.

(** The server that crashes: the four keys after the run. *)
Lemma service_run_records_witness :
  let run := run_main_web_app 100 "/app/main.py" false None None Scenario.crashes in
  run = (Ok false, snd run)
  /\ w_container (snd run) !! "server_process" = Some (VProc 2)
  /\ w_container (snd run) !! "server_url" = Some (VStr "http://127.0.0.1:5000")
  /\ ((exists process, w_container (snd run) !! "server_process" = Some (VProc process))
      /\ w_container (snd run) !! "server_output" = Some VLines
      /\ (w_container (snd run) !! "server_url" = Some VNone
          \/ exists p, In p default_ports
                       /\ w_container (snd run) !! "server_url"
                          = Some (VStr (server_url_of p)))
      /\ (false = false -> is_Some (w_container (snd run) !! "server_error"))
      /\ (forall k,
             k <> "server_process" -> k <> "server_output" -> k <> "server_url" ->
             k <> "server_error" ->
             w_container (snd run) !! k = default ∅ (@None dict) !! k)).
Proof.
  cbv zeta.
  assert (He : run_main_web_app 100 "/app/main.py" false None None Scenario.crashes
               = (Ok false,
                  snd (run_main_web_app 100 "/app/main.py" false None None
                         Scenario.crashes)))
    by (apply pair_of_fst; vm_compute; reflexivity).
  split; [exact He |]. split; [vm_compute; reflexivity |].
  split; [vm_compute; reflexivity |].
  exact (service_run_records 100 "/app/main.py" false None None Scenario.crashes
           false _ He).
Defined.

(** ** Runs nobody interrupts *)

Lemma apply_event_calm e w :
  is_sigint e = false ->
  w_sigint (apply_event e w) = w_sigint w /\ w_sched (apply_event e w) = w_sched w.
Proof.
  intros He. destruct e; try discriminate; simpl; auto; try (table_event; auto; fail).
  unfold read_output. destruct (w_reader w) as [pid |]; auto.
  destruct (w_pipe w) as [| line rest].
  - destruct (is_running (w_procs w) pid); auto.
    destruct (reader_poll_fields pid w) as (_ & _ & _ & _ & _ & -> & -> & _). auto.
  - destruct (negb _); auto.
    destruct (reader_poll_fields pid (W.set_pipe (fun _ => rest) w))
      as (_ & _ & _ & _ & _ & -> & -> & _). auto.
Qed.

Lemma apply_events_calm evs :
  forall w,
    existsb is_sigint evs = false ->
    w_sigint (apply_events evs w) = w_sigint w /\ w_sched (apply_events evs w) = w_sched w.
Proof.
  induction evs as [| e evs IH]; intros w H; [auto |].
  simpl in H. apply orb_false_iff in H. destruct H as [He Hevs].
  change (apply_events (e :: evs) w) with (apply_events evs (apply_event e w)).
  destruct (IH (apply_event e w) Hevs) as [-> ->]. now apply apply_event_calm.
Qed.

Lemma calm_env_step w : calm w -> exists w1, env_step w = (Ok tt, w1) /\ calm w1.
Proof.
  intros [Hi Hs]. unfold env_step. destruct (w_sched w) as [| evs rest] eqn:E.
  - rewrite Hi. exists w. split; [reflexivity |]. split; [exact Hi | now rewrite E].
  - apply Forall_cons in Hs. destruct Hs as [Hevs Hrest].
    destruct (apply_events_calm evs (W.set_sched rest w) Hevs) as [Hi' Hs'].
    simpl in Hi', Hs'. rewrite Hi', Hi. eexists. split; [reflexivity |].
    split; [now rewrite Hi' | now rewrite Hs'].
Qed.

Lemma uninterrupted_ret {A} (a : A) : uninterrupted (ret a).
Proof. intros w H. split; [exact H | discriminate]. Qed.

Lemma uninterrupted_bind {A B} (m : M A) (k : A -> M B) :
  uninterrupted m -> (forall a, uninterrupted (k a)) -> uninterrupted (bind m k).
Proof.
  intros Hm Hk w H. unfold bind. destruct (Hm w H) as [Hc Hr].
  destruct (m w) as [[a | e |] w1]; simpl in *.
  - now apply Hk.
  - split; [exact Hc |]. intros [= ->]. now apply Hr.
  - split; [exact Hc | discriminate].
Qed.

Lemma uninterrupted_try_except {A} (body : M A) (handler : exn -> option (M A)) :
  uninterrupted body ->
  (forall e h, handler e = Some h -> uninterrupted h) ->
  uninterrupted (try_except body handler).
Proof.
  intros Hb Hh w H. unfold try_except. destruct (Hb w H) as [Hc Hr].
  destruct (body w) as [[a | e |] w1]; simpl in *.
  - split; [exact Hc | discriminate].
  - destruct (handler e) as [h |] eqn:E.
    + now apply (Hh e h E).
    + split; [exact Hc |]. exact Hr.
  - split; [exact Hc | discriminate].
Qed.

Lemma uninterrupted_for_each {A} (l : list A) (body : A -> M unit) :
  (forall x, uninterrupted (body x)) -> uninterrupted (for_each l body).
Proof.
  intros Hb. induction l as [| x l IH]; simpl.
  - apply uninterrupted_ret.
  - apply uninterrupted_bind; auto.
Qed.

Lemma uninterrupted_prim {A} (op : M A) : uninterrupted op -> uninterrupted (prim op).
Proof.
  intros Ho w H. unfold prim, bind.
  destruct (calm_env_step w H) as (w1 & -> & H1). now apply Ho.
Qed.

(** An operation that leaves the schedule alone and raises no
    [KeyboardInterrupt] of its own. *)
Lemma uninterrupted_op {A} (op : M A) :
  (forall w, w_sigint (snd (op w)) = w_sigint w
             /\ w_sched (snd (op w)) = w_sched w
             /\ fst (op w) <> Raise KeyboardInterrupt) ->
  uninterrupted op.
Proof.
  intros Ho w [Hi Hs]. destruct (Ho w) as (Hi' & Hs' & Hr).
  split; [| exact Hr]. split; [now rewrite Hi' | now rewrite Hs'].
Qed.

Ltac quiet_op :=
  apply uninterrupted_op; intros w; simpl;
  repeat match goal with
    | |- context [if ?b then _ else _] => destruct b; simpl
    | |- context [match ?x with _ => _ end] => destruct x; simpl
    end;
  (split; [reflexivity |]); (split; [reflexivity | discriminate]).

Lemma uninterrupted_use_handle : uninterrupted use_handle.
Proof.
  apply uninterrupted_op. intros w. unfold use_handle.
  destruct (w_fault w); simpl; (split; [reflexivity |]); (split; [reflexivity | discriminate]).
Qed.

Lemma uninterrupted_poll process : uninterrupted (poll process).
Proof.
  apply uninterrupted_prim, uninterrupted_bind; [apply uninterrupted_use_handle |].
  intros _. quiet_op.
Qed.

Lemma uninterrupted_time_time : uninterrupted time_time.
Proof. apply uninterrupted_prim. quiet_op. Qed.

Lemma uninterrupted_time_sleep secs : uninterrupted (time_sleep secs).
Proof. apply uninterrupted_prim. quiet_op. Qed.

Lemma uninterrupted_output_lines_from n : uninterrupted (output_lines_from n).
Proof. apply uninterrupted_prim. quiet_op. Qed.

Lemma uninterrupted_len_output_lines : uninterrupted len_output_lines.
Proof. apply uninterrupted_prim. quiet_op. Qed.

Lemma uninterrupted_setitem k v : uninterrupted (setitem k v).
Proof. quiet_op. Qed.

Lemma uninterrupted_in_container k : uninterrupted (in_container k).
Proof. quiet_op. Qed.

Lemma uninterrupted_psutil_terminate pid : uninterrupted (psutil_terminate pid).
Proof.
  apply uninterrupted_prim, uninterrupted_op. intros w.
  destruct (find_proc (w_procs w) pid) as [p |]; simpl.
  - destruct (negb (proc_present p)); simpl;
      [split; [reflexivity |]; split; [reflexivity | discriminate] |].
    destruct (p_denied p); simpl;
      (split; [reflexivity |]); (split; [reflexivity | discriminate]).
  - split; [reflexivity |]; split; [reflexivity | discriminate].
Qed.

Lemma uninterrupted_kill_process_tree proc : uninterrupted (_kill_process_tree proc).
Proof.
  apply uninterrupted_try_except.
  - apply uninterrupted_bind.
    { apply uninterrupted_prim, uninterrupted_op. intros w.
      destruct (pid_exists (w_procs w) proc); simpl;
        (split; [reflexivity |]); (split; [reflexivity | discriminate]). }
    intros parent. apply uninterrupted_bind.
    { apply uninterrupted_prim, uninterrupted_op. intros w.
      destruct (pid_exists (w_procs w) parent); simpl;
        (split; [reflexivity |]); (split; [reflexivity | discriminate]). }
    intros children. apply uninterrupted_bind.
    + apply uninterrupted_for_each. intros x. apply uninterrupted_psutil_terminate.
    + intros _. apply uninterrupted_psutil_terminate.
  - intros e h. destruct e; try discriminate. intros [= <-]. apply uninterrupted_ret.
Qed.

Lemma uninterrupted_serve_loop fuel process run_timeout start_time :
  forall last_len, uninterrupted (serve_loop fuel process run_timeout start_time last_len).
Proof.
  induction fuel as [| fuel IH]; intros last_len; cbn [serve_loop].
  - intros w H. split; [exact H | discriminate].
  - apply uninterrupted_bind; [apply uninterrupted_output_lines_from | intros new_lines].
    apply uninterrupted_bind; [apply uninterrupted_len_output_lines | intros n].
    destruct (first_crash_index new_lines 0).
    + apply uninterrupted_bind; [apply uninterrupted_setitem | intros _].
      apply uninterrupted_bind; [apply uninterrupted_kill_process_tree |].
      intros; apply uninterrupted_ret.
    + apply uninterrupted_bind; [apply uninterrupted_poll |].
      intros [c |].
      * apply uninterrupted_bind; [apply uninterrupted_in_container | intros known].
        apply uninterrupted_bind; [| intros; apply uninterrupted_ret].
        destruct (negb known); [apply uninterrupted_setitem | apply uninterrupted_ret].
      * apply uninterrupted_bind.
        -- destruct (truthy run_timeout); [| apply uninterrupted_ret].
           apply uninterrupted_bind; [apply uninterrupted_time_time |].
           intros; apply uninterrupted_ret.
        -- intros [|].
           ++ apply uninterrupted_bind; [apply uninterrupted_kill_process_tree |].
              intros; apply uninterrupted_ret.
           ++ apply uninterrupted_bind; [apply uninterrupted_time_sleep | intros _; apply IH].
Qed.

Lemma uninterrupted_is_port_open host port : uninterrupted (_is_port_open host port).
Proof.
  apply uninterrupted_try_except.
  - apply uninterrupted_bind; [| intros; apply uninterrupted_ret].
    apply uninterrupted_prim, uninterrupted_op. intros w.
    destruct (accepts w host port); simpl;
      (split; [reflexivity |]); (split; [reflexivity | discriminate]).
  - intros e h. destruct (is_Exception e); [| discriminate].
    intros [= <-]. apply uninterrupted_ret.
Qed.

Lemma uninterrupted_probe_ports ports : uninterrupted (probe_ports ports).
Proof.
  induction ports as [| p ports IH]; simpl; [apply uninterrupted_ret |].
  apply uninterrupted_bind; [apply uninterrupted_is_port_open |].
  intros [|]; [apply uninterrupted_ret | exact IH].
Qed.

Lemma uninterrupted_wait_for_port fuel process max_wait :
  forall waited, uninterrupted (wait_for_port fuel process waited max_wait).
Proof.
  induction fuel as [| fuel IH]; intros waited; cbn [wait_for_port].
  - intros w H. split; [exact H | discriminate].
  - destruct (PrimFloat.ltb waited max_wait); [| apply uninterrupted_ret].
    apply uninterrupted_bind; [apply uninterrupted_poll |].
    intros [c |]; [apply uninterrupted_ret |].
    apply uninterrupted_bind; [apply uninterrupted_probe_ports |].
    intros [url |]; [apply uninterrupted_ret |].
    apply uninterrupted_bind; [apply uninterrupted_time_sleep | intros _; apply IH].
Qed.

Lemma uninterrupted_run_web_server fuel filepath open_browser max_wait :
  uninterrupted (run_web_server fuel filepath open_browser max_wait).
Proof.
  unfold run_web_server.
  apply uninterrupted_bind; [quiet_op | intros abs_filepath].
  apply uninterrupted_bind.
  { apply uninterrupted_prim, uninterrupted_op. intros w.
    destruct (existsb _ _); simpl;
      (split; [reflexivity |]); (split; [reflexivity | discriminate]). }
  intros process.
  apply uninterrupted_bind; [quiet_op | intros _].
  apply uninterrupted_bind; [apply uninterrupted_prim; quiet_op | intros _].
  apply uninterrupted_bind; [apply uninterrupted_wait_for_port |].
  intros [failed | [url |]]; try apply uninterrupted_ret.
  apply uninterrupted_bind; [| intros; apply uninterrupted_ret].
  unfold _open_browser_if_needed. destruct open_browser; [| apply uninterrupted_ret].
  apply uninterrupted_try_except.
  - apply uninterrupted_prim. quiet_op.
  - intros e h. destruct (is_Exception e); [| discriminate].
    intros [= <-]. apply uninterrupted_ret.
Qed.

(** The poll loop returns [True] only at the timeout. *)
Lemma serve_run_success process run_timeout start_time last_len w r w' :
  serve_run process run_timeout start_time last_len w r w' ->
  r = Ok true -> truthy run_timeout = true.
Proof.
  induction 1; intros Hr; try discriminate; auto.
  destruct rk as [[] | e |]; discriminate.
Qed.

(** X11 (no success without a timeout or Ctrl+C). Started with no
    timeout, or with the timeout [0], in a world where no Ctrl+C is
    pending and none comes, [run_main_web_app] does not return [True] and
    does not raise [KeyboardInterrupt]: a service run ends well only by
    its timeout or by the user's interrupt. *)
Theorem no_success_without_timeout_or_interrupt :
  forall fuel main_path open_browser run_timeout rc w,
    calm w ->
    truthy run_timeout = false ->
    fst (run_main_web_app fuel main_path open_browser run_timeout rc w) <> Ok true
    /\ fst (run_main_web_app fuel main_path open_browser run_timeout rc w)
       <> Raise KeyboardInterrupt.
Proof.
  intros fuel main_path open_browser run_timeout rc w Hcalm Hrt.
  destruct (run_main_web_app fuel main_path open_browser run_timeout rc w)
    as [r w'] eqn:H.
  apply run_main_web_app_cases in H. cbv zeta in H. simpl.
  assert (Hc0 : calm (W.set_container (fun _ => default ∅ rc) w)) by exact Hcalm.
  destruct (uninterrupted_run_web_server fuel main_path open_browser max_wait_default
              _ Hc0) as [Hc1 Hr1].
  destruct H as [(rs & Hs & [(e & -> & ->) | (-> & ->)]) | (info & w1 & Hs & H)].
  - rewrite Hs in Hr1. simpl in Hr1.
    split; [discriminate | intros [= ->]; now apply Hr1].
  - split; discriminate.
  - rewrite Hs in Hc1. simpl in Hc1.
    destruct H as [(_ & -> & _) | (_ & [(e & Ht & ->) | (st & w2 & r0 & w3 & Ht & Hl & H)])].
    + split; discriminate.
    + assert (Hc1' : calm (W.set_container (store_server_info info) w1)) by exact Hc1.
      destruct (uninterrupted_time_time _ Hc1') as [_ Hr2].
      rewrite Ht in Hr2. split; [discriminate | intros [= ->]; now apply Hr2].
    + assert (Hc1' : calm (W.set_container (store_server_info info) w1)) by exact Hc1.
      destruct (uninterrupted_time_time _ Hc1') as [Hc2 _].
      rewrite Ht in Hc2. simpl in Hc2.
      destruct (uninterrupted_serve_loop fuel (as_handle (get info "process"))
                  run_timeout st 0 w2 Hc2) as [_ Hr3].
      rewrite Hl in Hr3. simpl in Hr3.
      destruct H as [(_ & -> & _) | (Hki & _)]; [| contradiction].
      split; [| exact Hr3].
      intros ->. apply serve_loop_run in Hl.
      apply serve_run_success in Hl; [congruence | reflexivity].
Qed.

(** A server that ends by itself, watched with the timeout [0]. *)
Lemma no_success_without_timeout_or_interrupt_witness :
  let run := run_main_web_app 100 "/app/main.py" false (Some 0) None Scenario.last_words in
  calm Scenario.last_words
  /\ truthy (Some 0) = false
  /\ fst run = Ok false
  /\ fst run <> Ok true
  /\ fst run <> Raise KeyboardInterrupt.
Proof.
  cbv zeta.
  assert (Hc : calm Scenario.last_words).
  { split; [reflexivity |]. repeat constructor. }
  split; [exact Hc |]. split; [reflexivity |]. split; [vm_compute; reflexivity |].
  exact (no_success_without_timeout_or_interrupt 100 "/app/main.py" false (Some 0) None
           Scenario.last_words Hc eq_refl).
Defined.

(** ** The start of the server: the port check, the window, the browser *)

Lemma existsb_eqb_In (port : Z) (l : list Z) : existsb (Z.eqb port) l = true <-> In port l.
Proof.
  rewrite existsb_exists. split.
  - intros (x & Hx & He). apply Z.eqb_eq in He. now subst.
  - intros H. exists port. split; [exact H | apply Z.eqb_refl].
Qed.

Lemma accepts_loopback w host port :
  is_loopback host = true -> (accepts w host port = true <-> In port (w_listen w)).
Proof. intros H. unfold accepts. rewrite H. apply existsb_eqb_In. Qed.

(** X12 (the port check). [_is_port_open] lets no [Exception] out. It
    makes one connection attempt to [port] of [host] and answers [True]
    when the connection is accepted and [False] when it fails; it ends
    otherwise only with [KeyboardInterrupt], nothing attempted. For the
    two names of the loopback interface, ["127.0.0.1"] and ["localhost"],
    the connection is accepted exactly when a program of this machine
    listens on the port. *)
Theorem port_check_never_raises :
  forall host port w,
    let r := _is_port_open host port w in
    ((fst r = Ok true
      /\ accepts (snd r) host port = true
      /\ w_log (snd r) = w_log w ++ [Connected port true])
     \/ (fst r = Ok false
         /\ accepts (snd r) host port = false
         /\ w_log (snd r) = w_log w ++ [Connected port false])
     \/ (fst r = Raise KeyboardInterrupt /\ w_log (snd r) = w_log w))
    /\ (host = "127.0.0.1" \/ host = "localhost" ->
        (accepts (snd r) host port = true <-> In port (w_listen (snd r)))).
Proof.
  intros host port w. cbv zeta. split.
  - unfold _is_port_open, try_except, bind, socket_create_connection.
    destruct (prim_cases
                (fun w0 =>
                   if accepts w0 host port
                   then (Ok tt, W.log (Connected port true) w0)
                   else (Raise (OSError "Connection refused"),
                         W.log (Connected port false) w0)) w)
      as [(w1 & _ & Hl & ->) | (w1 & -> & Hl)].
    + destruct (accepts w1 host port) eqn:Ea; simpl.
      * left. split; [reflexivity |]. split; [exact Ea | now rewrite Hl].
      * right. left. split; [reflexivity |]. split; [exact Ea | now rewrite Hl].
    + right. right. simpl. auto.
  - intros Hh. apply accepts_loopback. destruct Hh as [-> | ->]; reflexivity.
Qed.

(** The check under both names of the loopback interface, and for a
    host that is not this machine. *)
Example port_check_by_name :
  fst (_is_port_open "localhost" 5000 Stage.port_in_use) = Ok true
  /\ fst (_is_port_open "127.0.0.1" 5000 Stage.port_in_use) = Ok true
  /\ fst (_is_port_open "127.0.0.1" 8000 Stage.port_in_use) = Ok false
  /\ fst (_is_port_open "example.org" 5000 Stage.port_in_use) = Ok false
  /\ fst (_is_port_open "example.org" 80
            (mkworld "/" ["/app"] [] [5000] [("example.org", 80)] 0%float [] None [] ""
               ∅ false None [] [])) = Ok true.
Proof. vm_compute. repeat split. Qed.

(** X13 (a window of zero). With [max_wait] zero or less no round of the
    probe runs: a [run_web_server] that returns has spawned the process
    and done nothing else, neither a poll nor a connection attempt, and
    reports "Server did not start in time", whether or not a candidate
    port accepts connections. *)
Theorem zero_window_never_probes :
  forall fuel filepath open_browser max_wait w info w',
    PrimFloat.ltb 0%float max_wait = false ->
    run_web_server fuel filepath open_browser max_wait w = (Ok info, w') ->
    exists process,
      info = mkdict [("success", VBool false);
                     ("error", VStr "Server did not start in time");
                     ("process", VProc process);
                     ("output_lines", VLines)]
      /\ w_log w' = w_log w ++ [Spawned process (abspath (w_cwd w) filepath)].
Proof.
  intros fuel filepath open_browser max_wait w info w' Hw H.
  unfold run_web_server in H.
  apply bind_ok_inv in H. destruct H as (abs & wa & Ha & H).
  unfold os_path_abspath in Ha. inversion Ha; subst abs wa. clear Ha.
  apply bind_ok_inv in H. destruct H as (process & w1 & Hp & H).
  apply Popen_ok in Hp.
  apply bind_ok_inv in H. destruct H as ([] & w2 & Hn & H).
  inversion Hn; subst w2. clear Hn.
  apply bind_ok_inv in H. destruct H as ([] & w3 & Ht & H).
  apply thread_start_ok in Ht.
  apply bind_ok_inv in H. destruct H as (r & w4 & Hwait & H).
  destruct fuel as [| fuel]; [discriminate |].
  cbn [wait_for_port] in Hwait. rewrite Hw in Hwait.
  inversion Hwait; subst r w4. inversion H; subst.
  exists process. split; [reflexivity |]. rewrite Ht. exact Hp.
Qed.

(** Port 5000 accepts, and still a window of zero reports a start that
    timed out. *)
Lemma zero_window_never_probes_witness :
  let run := run_web_server 100 "/app/main.py" true 0%float Stage.already_listening in
  PrimFloat.ltb 0%float 0%float = false
  /\ In 5000 (w_listen (snd run))
  /\ exists info,
       run = (Ok info, snd run)
       /\ exists process,
            info = mkdict [("success", VBool false);
                           ("error", VStr "Server did not start in time");
                           ("process", VProc process);
                           ("output_lines", VLines)]
            /\ w_log (snd run)
               = w_log Stage.already_listening
                   ++ [Spawned process (abspath (w_cwd Stage.already_listening) "/app/main.py")].
Proof.
  cbv zeta.
  assert (He : run_web_server 100 "/app/main.py" true 0%float Stage.already_listening
               = (Ok (mkdict [("success", VBool false);
                              ("error", VStr "Server did not start in time");
                              ("process", VProc 2);
                              ("output_lines", VLines)]),
                  snd (run_web_server 100 "/app/main.py" true 0%float
                         Stage.already_listening)))
    by (apply pair_of_fst; vm_compute; reflexivity).
  split; [reflexivity |]. split; [vm_compute; auto |].
  eexists. split; [exact He |].
  exact (zero_window_never_probes 100 "/app/main.py" true 0%float Stage.already_listening
           _ _ eq_refl He).
Defined.

Lemma no_browser_in_rounds url process k :
  ~ In (BrowserOpened url) (concat (replicate k (closed_round process))).
Proof.
  induction k as [| k IH]; simpl; [auto |].
  intros H. repeat (destruct H as [H | H]; [discriminate |]). exact (IH H).
Qed.

Lemma no_browser_in_refusals url (ports : list Z) :
  ~ In (BrowserOpened url) (map (fun q => Connected q false) ports).
Proof. intros H. apply in_map_iff in H. destruct H as (q & Hq & _). discriminate. Qed.

(** X14 (the browser). A [run_web_server] that returns has opened the
    browser only if it was asked to and a candidate port accepted, and
    then with the URL it returns under ["url"]; a start that failed opens
    none. *)
Theorem browser_opens_only_for_a_bound_server :
  forall fuel filepath open_browser max_wait w info w',
    run_web_server fuel filepath open_browser max_wait w = (Ok info, w') ->
    exists t,
      w_log w' = w_log w ++ t
      /\ forall url,
           In (BrowserOpened url) t
           <-> open_browser = true /\ info !! "url" = Some (VStr url).
Proof.
  intros fuel filepath open_browser max_wait w info w' H.
  apply run_web_server_ok in H.
  destruct H as (process & k & _ & [(c & -> & Hl) | [(j & p & Hj & -> & Hl) | (-> & _ & Hl)]]);
    eexists; (split; [exact Hl |]); intros url; split.
  - intros [[=] | H]. apply in_app_or in H. destruct H as [H | [[=] | []]].
    now apply no_browser_in_rounds in H.
  - intros [_ [=]].
  - intros [[=] | H]. apply in_app_or in H. destruct H as [H | H].
    { now apply no_browser_in_rounds in H. }
    destruct H as [[=] | H]. apply in_app_or in H. destruct H as [H | H].
    { now apply no_browser_in_refusals in H. }
    destruct H as [[=] | H].
    destruct open_browser; [| destruct H].
    destruct H as [[= <-] | []]. split; reflexivity.
  - intros [-> Hu]. right. apply in_or_app. right. right.
    apply in_or_app. right. right. left.
    change (Some (VStr ("http://127.0.0.1:" +:+ str_int p)) = Some (VStr url)) in Hu.
    now inversion Hu.
  - intros [[=] | H]. now apply no_browser_in_rounds in H.
  - intros [_ [=]].
Qed.

(** The server that binds port 8000, with the browser asked for. *)
Lemma browser_opens_only_for_a_bound_server_witness :
  let run := run_web_server 80 "/app/main.py" true max_wait_default Scenario.binds_8000 in
  exists info,
    run = (Ok info, snd run)
    /\ info !! "url" = Some (VStr "http://127.0.0.1:8000")
    /\ exists t,
         w_log (snd run) = w_log Scenario.binds_8000 ++ t
         /\ forall url,
              In (BrowserOpened url) t
              <-> true = true /\ info !! "url" = Some (VStr url).
Proof.
  cbv zeta.
  assert (He : run_web_server 80 "/app/main.py" true max_wait_default Scenario.binds_8000
               = (Ok (mkdict [("success", VBool true);
                              ("process", VProc 2);
                              ("url", VStr "http://127.0.0.1:8000");
                              ("output_lines", VLines)]),
                  snd (run_web_server 80 "/app/main.py" true max_wait_default
                         Scenario.binds_8000)))
    by (apply pair_of_fst; vm_compute; reflexivity).
  eexists. split; [exact He |]. split; [reflexivity |].
  exact (browser_opens_only_for_a_bound_server 80 "/app/main.py" true max_wait_default
           Scenario.binds_8000 _ _ He).
Defined.

Lemma find_proc_app tbl l pid :
  find_proc (tbl ++ l) pid
  = match find_proc tbl pid with
    | Some p => Some p
    | None => find_proc l pid
    end.
Proof.
  unfold find_proc. induction tbl as [| p tbl IH]; [reflexivity |].
  simpl. destruct (p_pid p =? pid); [reflexivity | exact IH].
Qed.

Lemma fresh_pid_above tbl p : In p tbl -> p_pid p < fresh_pid tbl.
Proof.
  unfold fresh_pid. induction tbl as [| q tbl IH]; [intros [] |].
  intros [-> | Hin]; simpl; [lia |]. specialize (IH Hin). lia.
Qed.

Lemma fresh_pid_unknown tbl : find_proc tbl (fresh_pid tbl) = None.
Proof.
  unfold find_proc. destruct (find _ tbl) as [p |] eqn:E; [| reflexivity].
  apply find_some in E. destruct E as [Hin He].
  apply fresh_pid_above in Hin. lia.
Qed.

(** X15 (the probe cannot tell whose port it is). When a program
    already accepts connections on port 5000 as the server is spawned,
    the environment being at rest, [run_web_server] with a window above
    zero returns success in its first round, with the URL of port 5000:
    the spawned process was polled once and found running, and no other
    candidate was tried. *)
Theorem probe_takes_any_listener :
  forall fuel filepath open_browser max_wait w,
    at_rest w ->
    w_fault w = None ->
    existsb (String.eqb (dirname (abspath (w_cwd w) filepath))) (w_exists w) = true ->
    PrimFloat.ltb 0%float max_wait = true ->
    In 5000 (w_listen w) ->
    exists w',
      let process := fresh_pid (w_procs w) in
      run_web_server (S fuel) filepath open_browser max_wait w
      = (Ok (mkdict [("success", VBool true);
                     ("process", VProc process);
                     ("url", VStr "http://127.0.0.1:5000");
                     ("output_lines", VLines)]), w')
      /\ w_log w'
         = w_log w ++ [Spawned process (abspath (w_cwd w) filepath);
                       Polled process None; Connected 5000 true]
                   ++ (if open_browser then [BrowserOpened "http://127.0.0.1:5000"] else []).
Proof.
  intros fuel filepath open_browser max_wait w Hq Hf Hex Hw Hin.
  set (abs := abspath (w_cwd w) filepath) in *.
  set (process := fresh_pid (w_procs w)).
  set (w1 := W.log (Spawned process abs)
               (W.set_procs (fun tbl => tbl ++ [mkproc process self_pid Running false])
                  w)).
  set (w3 := W.set_reader (Some process) (W.set_output (fun _ => []) w1)).
  set (w4 := W.log (Polled process None) (W.set_procs (reap process) w3)).
  set (w5 := W.log (Connected 5000 true) w4).
  assert (E1 : _start_web_process abs w = (Ok process, w1)).
  { unfold _start_web_process, Popen. rewrite at_rest_prim by exact Hq.
    fold abs in Hex. rewrite Hex. reflexivity. }
  assert (E3 : _create_output_reader_thread process (W.set_output (fun _ => []) w1)
               = (Ok tt, w3)).
  { unfold _create_output_reader_thread, thread_start.
    rewrite at_rest_prim by exact Hq. reflexivity. }
  assert (E4 : poll process w3 = (Ok None, w4)).
  { unfold poll. rewrite at_rest_prim by exact Hq.
    unfold bind, use_handle. change (w_fault w3) with (w_fault w). rewrite Hf.
    cbv zeta.
    assert (Hrc : returncode (w_procs (W.set_procs (reap process) w3)) process = None).
    { apply returncode_reap_running. unfold is_running.
      change (w_procs w3) with (w_procs w ++ [mkproc process self_pid Running false]).
      rewrite find_proc_app. subst process. rewrite fresh_pid_unknown.
      unfold find_proc. simpl. rewrite Z.eqb_refl. reflexivity. }
    rewrite Hrc. reflexivity. }
  assert (E5 : probe_ports default_ports w4 = (Ok (Some (server_url_of 5000)), w5)).
  { unfold default_ports. cbn [probe_ports].
    unfold bind, _is_port_open, try_except, bind, socket_create_connection.
    rewrite at_rest_prim by exact Hq.
    assert (Hl : accepts w4 "127.0.0.1" 5000 = true).
    { apply accepts_loopback; [reflexivity | exact Hin]. }
    rewrite Hl. reflexivity. }
  assert (E6 : exists w',
             _open_browser_if_needed (server_url_of 5000) open_browser w5 = (Ok tt, w')
             /\ w_log w'
                = w_log w5 ++ (if open_browser
                               then [BrowserOpened "http://127.0.0.1:5000"] else [])).
  { unfold _open_browser_if_needed. destruct open_browser.
    - unfold try_except, webbrowser_open. rewrite at_rest_prim by exact Hq.
      eexists. split; reflexivity.
    - exists w5. split; [reflexivity |]. now rewrite app_nil_r. }
  destruct E6 as (w' & E6 & Hl6).
  exists w'. cbv zeta. split.
  - unfold run_web_server.
    unfold bind at 1. unfold os_path_abspath at 1. fold abs.
    rewrite (bind_ok _ _ _ _ _ E1).
    unfold bind at 1. unfold new_output_lines at 1.
    rewrite (bind_ok _ _ _ _ _ E3).
    assert (Ew : wait_for_port (S fuel) process 0%float max_wait w3
                 = (Ok (inr (Some (server_url_of 5000))), w5)).
    { cbn [wait_for_port]. rewrite Hw.
      rewrite (bind_ok _ _ _ _ _ E4). now rewrite (bind_ok _ _ _ _ _ E5). }
    rewrite (bind_ok _ _ _ _ _ Ew). now rewrite (bind_ok _ _ _ _ _ E6).
  - rewrite Hl6. subst w5 w4 w3 w1. simpl. rewrite <- !app_assoc. reflexivity.
Qed.

(** Port 5000 is taken before the server is spawned. *)
Lemma probe_takes_any_listener_witness :
  let w := Stage.port_in_use in
  at_rest w
  /\ w_fault w = None
  /\ existsb (String.eqb (dirname (abspath (w_cwd w) "/app/main.py"))) (w_exists w) = true
  /\ PrimFloat.ltb 0%float max_wait_default = true
  /\ In 5000 (w_listen w)
  /\ exists w',
       let process := fresh_pid (w_procs w) in
       run_web_server 1 "/app/main.py" false max_wait_default w
       = (Ok (mkdict [("success", VBool true);
                      ("process", VProc process);
                      ("url", VStr "http://127.0.0.1:5000");
                      ("output_lines", VLines)]), w')
       /\ w_log w'
          = w_log w ++ [Spawned process (abspath (w_cwd w) "/app/main.py");
                        Polled process None; Connected 5000 true]
                    ++ (if false then [BrowserOpened "http://127.0.0.1:5000"] else []).
Proof.
  cbv zeta.
  assert (Hq : at_rest Stage.port_in_use) by (split; reflexivity).
  assert (Hin : In 5000 (w_listen Stage.port_in_use)) by (left; reflexivity).
  split; [exact Hq |]. split; [reflexivity |]. split; [reflexivity |].
  split; [reflexivity |]. split; [exact Hin |].
  exact (probe_takes_any_listener 0 "/app/main.py" false max_wait_default
           Stage.port_in_use Hq eq_refl eq_refl eq_refl Hin).
Defined.

(** ** The caller: [run_project] *)

Lemma and_then_ok_inv {A B} (m : M (own_exn + A)) (k : A -> M (own_exn + B)) w b w' :
  and_then m k w = (Ok (inr b), w') ->
  exists a w1, m w = (Ok (inr a), w1) /\ k a w1 = (Ok (inr b), w').
Proof.
  unfold and_then. intros H. apply bind_ok_inv in H.
  destruct H as ([e | a] & w1 & Hm & H); [discriminate | eauto].
Qed.

Lemma main_path_is_true root : truth_of [] (VStr (root +:+ "/main.py")) = true.
Proof. destruct root; reflexivity. Qed.

(** The clean up on a handle: a liveness check, which touches neither
    the list nor the dictionary. *)
Lemma cleanup_handle process w w' :
  cleanup (VProc process) w = (Ok (inr tt), w') ->
  untouched w w'
  /\ exists t, w_log w' = w_log w ++ t /\ liveness_check process t.
Proof.
  unfold cleanup, truth. cbn [truth_of]. unfold bind at 1. intros H.
  apply bind_ok_inv in H. destruct H as (code & w1 & Hp & H).
  apply poll_ok_untouched in Hp. destruct Hp as [Hu1 Hl1].
  destruct code as [c |].
  - inversion H; subst. split; [exact Hu1 |].
    exists [Polled process (Some c)]. split; [exact Hl1 |]. left. eauto.
  - apply bind_ok_inv in H. destruct H as ([] & w2 & Hk & H).
    inversion H; subst.
    apply kill_process_tree_trace in Hk. destruct Hk as (Hu2 & k & Hl2 & Hk).
    split; [eapply untouched_trans; eauto |].
    exists (Polled process None :: k). split.
    + rewrite Hl2, Hl1, <- app_assoc. reflexivity.
    + right. eauto.
Qed.

Lemma cleanup_none w : cleanup VNone w = (Ok (inr tt), w).
Proof. reflexivity. Qed.

(** After the start of the server the trace only grows. *)
Lemma after_start_log fuel main_path open_browser run_timeout rc w info w1 r w' :
  run_web_server fuel main_path open_browser max_wait_default
    (W.set_container (fun _ => default ∅ rc) w) = (Ok info, w1) ->
  run_main_web_app fuel main_path open_browser run_timeout rc w = (r, w') ->
  exists t, w_log w' = w_log w1 ++ t.
Proof.
  intros Hs H.
  apply run_main_web_app_cases in H. cbv zeta in H. rewrite Hs in H.
  destruct H as [(rs & Hrs & [(e & -> & _) | (-> & _)]) | (info' & w1' & Hs' & H)];
    try discriminate.
  inversion Hs'; subst info' w1'. clear Hs'.
  destruct H as [(_ & _ & ->) | (_ & [(e & Ht & _) | (st & w2 & r0 & w3 & Ht & Hl & H)])].
  - exists []. simpl. now rewrite app_nil_r.
  - apply time_time_spec in Ht. destruct Ht as [_ Hl]. exists [].
    rewrite app_nil_r. exact Hl.
  - apply time_time_spec in Ht. destruct Ht as [_ Hl2]. simpl in Hl2.
    assert (Hg : grows_by any_call w2 w3).
    { assert (Hp : preserves (grows_by any_call)
                     (serve_loop fuel (as_handle (get info "process")) run_timeout st 0)).
      { apply (preserves_serve_loop (grows_by any_call) (grows_by_refl any_call)
                 (grows_by_trans any_call) any_call (grows_by_same any_call)
                 (grows_by_event any_call)); all_calls.
        apply grows_by_container. }
      specialize (Hp w2). now rewrite Hl in Hp. }
    destruct Hg as (t3 & Hl3 & _).
    destruct H as [(_ & _ & ->) | (_ & Hi)].
    + exists t3. congruence.
    + apply on_interrupt_spec in Hi. destruct Hi as (_ & (t4 & Hl4 & _) & _).
      exists (t3 ++ t4). rewrite Hl4, Hl3, Hl2, app_assoc. reflexivity.
Qed.

(** A returned service run has spawned the process whose handle it left
    under ["server_process"]. *)
Lemma service_spawned fuel main_path open_browser run_timeout rc w b w' :
  run_main_web_app fuel main_path open_browser run_timeout rc w = (Ok b, w') ->
  exists process t,
    w_log w' = w_log w ++ Spawned process (abspath (w_cwd w) main_path) :: t
    /\ w_container w' !! "server_process" = Some (VProc process).
Proof.
  intros H. pose proof (service_container _ _ _ _ _ _ _ _ H) as (info & w1 & Hs & Hc).
  destruct (after_start_log _ _ _ _ _ _ _ _ _ _ Hs H) as (t2 & Hl2).
  apply run_web_server_ok in Hs.
  assert (Hinfo : exists process t1,
             get info "process" = VProc process
             /\ w_log w1 = w_log w ++ Spawned process (abspath (w_cwd w) main_path) :: t1).
  { destruct Hs as (process & k & _ & [(c & -> & Hl) | [(j & p & Hj & -> & Hl) | (-> & _ & Hl)]]);
      exists process; eexists; (split; [reflexivity |]); simpl in Hl; exact Hl. }
  destruct Hinfo as (process & t1 & Hp & Hl1).
  exists process, (t1 ++ t2). split.
  - rewrite Hl2, Hl1, <- app_assoc. reflexivity.
  - destruct Hc as [[-> _] | (x & _ & ->)].
    + now rewrite store_lookup_process, Hp.
    + rewrite lookup_insert_ne by discriminate. now rewrite store_lookup_process, Hp.
Qed.

(** [run_project] on a web project, step by step. *)
Lemma run_project_web_inv fuel result is_web_app open_browser run_timeout root w d w' :
  get result "project_root" = VStr root ->
  run_as_web result is_web_app = true ->
  run_project fuel result true is_web_app open_browser run_timeout w = (Ok (inr d), w') ->
  exists b w1 wa,
    run_main_web_app fuel (root +:+ "/main.py") (default true open_browser) run_timeout
      (Some ∅) w = (Ok b, w1)
    /\ let failed := negb b || has_key (w_container w1) "server_error" in
       let server_process := get_or (w_container w1) "server_process" VNone in
       let error_message :=
         if failed then get_or (w_container w1) "server_error" (VStr "failed to run web server")
         else VNone in
       (if failed then cleanup server_process w1 = (Ok (inr tt), wa) else wa = w1)
       /\ cleanup server_process wa = (Ok (inr tt), w')
       /\ d = if truth_of (w_output w') error_message
              then run_failed result error_message else run_succeeded.
Proof.
  intros Hroot Hweb H. unfold run_project in H. rewrite Hroot, Hweb in H.
  rewrite main_path_is_true in H. cbn [negb] in H.
  apply and_then_ok_inv in H. destruct H as ([sp em] & wa & H1 & H2).
  apply bind_ok_inv in H1. destruct H1 as (b & w1 & Hrun & H1).
  apply bind_ok_inv in H1. destruct H1 as (recorded & w1' & Hrec & H1).
  inversion Hrec; subst recorded w1'. clear Hrec.
  apply bind_ok_inv in H1. destruct H1 as (em' & w1' & Hem & H1).
  apply bind_ok_inv in H1. destruct H1 as (sp' & w1'' & Hsp & H1).
  apply and_then_ok_inv in H1. destruct H1 as ([] & wa' & Hc1 & H1).
  inversion H1; subst sp' em' wa'. clear H1.
  exists b, w1, wa. split; [exact Hrun |]. cbv zeta.
  cbn [fst snd] in H2.
  apply and_then_ok_inv in H2. destruct H2 as ([] & wb & Hc2 & H2).
  apply bind_ok_inv in H2. destruct H2 as (failed & wb' & Htr & H2).
  inversion Htr; subst failed wb'. clear Htr.
  destruct (negb b || has_key (w_container w1) "server_error") eqn:Hf.
  - inversion Hem; subst em w1'. inversion Hsp; subst sp w1''.
    split; [exact Hc1 |].
    destruct (truth_of (w_output wb) _) eqn:Ht; inversion H2; subst;
      (split; [exact Hc2 |]); now rewrite Ht.
  - inversion Hem; subst em w1'. inversion Hsp; subst sp w1''.
    inversion Hc1; subst wa.
    split; [reflexivity |].
    destruct (truth_of (w_output wb) _) eqn:Ht; inversion H2; subst;
      (split; [exact Hc2 |]); now rewrite Ht.
Qed.

(** X16 (what [run_project] reports of a web run). When [run_project]
    returns from a web project, it reports success exactly when
    [run_main_web_app] returned [True] and left no ["server_error"] in the
    dictionary; otherwise it reports a failure whose [error] is that
    ["server_error"], a text that is not empty. In particular a run that
    returned [True] after a crash was recorded is reported as failed, and
    every run that returned [False] is. *)
Theorem web_run_report :
  forall fuel result is_web_app open_browser run_timeout root w d w',
    get result "project_root" = VStr root ->
    run_as_web result is_web_app = true ->
    run_project fuel result true is_web_app open_browser run_timeout w = (Ok (inr d), w') ->
    exists b w1,
      run_main_web_app fuel (root +:+ "/main.py") (default true open_browser) run_timeout
        (Some ∅) w = (Ok b, w1)
      /\ ((b = true
           /\ w_container w1 !! "server_error" = None
           /\ d = run_succeeded)
          \/ exists x,
               x <> ""
               /\ w_container w1 !! "server_error" = Some (VStr x)
               /\ d = run_failed result (VStr x)).
Proof.
  intros fuel result is_web_app open_browser run_timeout root w d w' Hroot Hweb H.
  apply (run_project_web_inv _ _ _ _ _ _ _ _ _ Hroot Hweb) in H.
  destruct H as (b & w1 & wa & Hrun & H). cbv zeta in H.
  exists b, w1. split; [exact Hrun |].
  apply service_container in Hrun. destruct Hrun as (info & w0 & _ & Hc).
  change (default ∅ (Some ∅)) with (∅ : dict) in Hc.
  destruct Hc as [[Hc Hb] | (x & Hx & Hc)].
  - assert (Hnone : w_container w1 !! "server_error" = None).
    { rewrite Hc, store_lookup_error. apply lookup_empty. }
    destruct b.
    2:{ destruct (Hb eq_refl) as [v Hv]. rewrite lookup_empty in Hv. discriminate. }
    rewrite (has_key_none _ _ Hnone) in H. cbn [negb orb] in H.
    destruct H as (_ & _ & ->). left. auto.
  - assert (Hsome : w_container w1 !! "server_error" = Some (VStr x)).
    { rewrite Hc. apply lookup_insert_eq. }
    assert (Hk : has_key (w_container w1) "server_error" = true).
    { unfold has_key. apply bool_decide_eq_true. rewrite Hsome. eauto. }
    rewrite Hk, orb_true_r in H. destruct H as (_ & _ & ->).
    right. exists x. split; [exact Hx |]. split; [exact Hsome |].
    unfold get_or. rewrite Hsome. simpl.
    destruct (String.eqb x "") eqn:Ex; [apply String.eqb_eq in Ex; contradiction |].
    reflexivity.
Qed.

(** The web project whose server crashes. *)
Lemma web_run_report_witness :
  let run := run_project 100 Stage.web_project true None (Some false) None
               Scenario.crashes in
  let tb := "Traceback (most recent call last):" +:+ nl
            +:+ "ZeroDivisionError: division by zero" in
  get Stage.web_project "project_root" = VStr "/app"
  /\ run_as_web Stage.web_project None = true
  /\ run = (Ok (inr (run_failed Stage.web_project (VStr tb))), snd run)
  /\ exists b w1,
       run_main_web_app 100 ("/app" +:+ "/main.py") (default true (Some false)) None
         (Some ∅) Scenario.crashes = (Ok b, w1)
       /\ ((b = true
            /\ w_container w1 !! "server_error" = None
            /\ run_failed Stage.web_project (VStr tb) = run_succeeded)
           \/ exists x,
                x <> ""
                /\ w_container w1 !! "server_error" = Some (VStr x)
                /\ run_failed Stage.web_project (VStr tb)
                   = run_failed Stage.web_project (VStr x)).
Proof.
  cbv zeta.
  assert (H1 : get Stage.web_project "project_root" = VStr "/app") by reflexivity.
  assert (H2 : run_as_web Stage.web_project None = true) by reflexivity.
  assert (He : run_project 100 Stage.web_project true None (Some false) None
                 Scenario.crashes
               = (Ok (inr (run_failed Stage.web_project
                             (VStr ("Traceback (most recent call last):" +:+ nl
                                    +:+ "ZeroDivisionError: division by zero")))),
                  snd (run_project 100 Stage.web_project true None (Some false) None
                         Scenario.crashes)))
    by (apply pair_of_fst; vm_compute; reflexivity).
  split; [exact H1 |]. split; [exact H2 |]. split; [exact He |].
  exact (web_run_report 100 Stage.web_project None (Some false) None "/app"
           Scenario.crashes _ _ H1 H2 He).
Defined.

(** X17 (the last thing [run_project] does on a web run). When
    [run_project] returns from a web project, the process
    [run_main_web_app] spawned has been checked at the very end: the trace
    ends with a poll of that process that finds it ended, or with a poll
    that finds it running followed by the calls of the tree terminator on
    it; this, whatever [run_main_web_app] returned. *)
Theorem web_run_ends_with_a_liveness_check :
  forall fuel result is_web_app open_browser run_timeout root w d w',
    get result "project_root" = VStr root ->
    run_as_web result is_web_app = true ->
    run_project fuel result true is_web_app open_browser run_timeout w = (Ok (inr d), w') ->
    exists process t0 t1,
      w_log w'
      = w_log w ++ Spawned process (abspath (w_cwd w) (root +:+ "/main.py")) :: t0 ++ t1
      /\ liveness_check process t1.
Proof.
  intros fuel result is_web_app open_browser run_timeout root w d w' Hroot Hweb H.
  apply (run_project_web_inv _ _ _ _ _ _ _ _ _ Hroot Hweb) in H.
  destruct H as (b & w1 & wa & Hrun & H). cbv zeta in H.
  apply service_spawned in Hrun. destruct Hrun as (process & t & Hl1 & Hp).
  unfold get_or in H. rewrite Hp in H. cbn [default] in H.
  destruct H as (H1 & H2 & _).
  assert (Ha : exists ta, w_log wa = w_log w1 ++ ta).
  { destruct (negb b || has_key (w_container w1) "server_error").
    - apply cleanup_handle in H1. destruct H1 as (_ & ta & Hla & _). eauto.
    - subst wa. exists []. now rewrite app_nil_r. }
  destruct Ha as (ta & Hla).
  apply cleanup_handle in H2. destruct H2 as (_ & t1 & Hlb & Hcheck).
  exists process, (t ++ ta), t1. split; [| exact Hcheck].
  rewrite Hlb, Hla, Hl1, <- !app_assoc. reflexivity.
Qed.

(** The web project whose server never binds a port: [run_main_web_app]
    leaves it running, and each of the two clean ups of [run_project]
    finds it running and calls the terminator. *)
Lemma web_run_ends_with_a_liveness_check_witness :
  let run := run_project 100 Stage.web_project true None (Some false) None
               Scenario.never_binds in
  get Stage.web_project "project_root" = VStr "/app"
  /\ run_as_web Stage.web_project None = true
  /\ run = (Ok (inr (run_failed Stage.web_project (VStr "Server did not start in time"))),
            snd run)
  /\ signals (w_log (snd run)) = [SigTerm 2; SigTerm 2]
  /\ exists process t0 t1,
       w_log (snd run)
       = w_log Scenario.never_binds
           ++ Spawned process (abspath (w_cwd Scenario.never_binds) ("/app" +:+ "/main.py"))
              :: t0 ++ t1
       /\ liveness_check process t1.
Proof.
  cbv zeta.
  assert (H1 : get Stage.web_project "project_root" = VStr "/app") by reflexivity.
  assert (H2 : run_as_web Stage.web_project None = true) by reflexivity.
  assert (He : run_project 100 Stage.web_project true None (Some false) None
                 Scenario.never_binds
               = (Ok (inr (run_failed Stage.web_project
                             (VStr "Server did not start in time"))),
                  snd (run_project 100 Stage.web_project true None (Some false) None
                         Scenario.never_binds)))
    by (apply pair_of_fst; vm_compute; reflexivity).
  split; [exact H1 |]. split; [exact H2 |]. split; [exact He |].
  split; [vm_compute; reflexivity |].
  exact (web_run_ends_with_a_liveness_check 100 Stage.web_project None (Some false) None
           "/app" Scenario.never_binds _ _ H1 H2 He).
Defined.

(** Where the record of a console run comes from: the loop found the
    process ended, or reached the timeout, or raised an [Exception], which
    the handler turned into the record of a failure. *)
Lemma console_run_origin fuel main_path run_timeout w d w' :
  run_main_as_console_app fuel main_path run_timeout w = (Ok d, w') ->
  let abs_main := abspath (w_cwd w) main_path in
  (exists c, d = console_exited abs_main c (w_stderr w'))
  \/ d = console_timed_out abs_main run_timeout (w_stderr w')
  \/ exists e process w1 start_time w2 w3,
       Popen abs_main (dirname abs_main) w = (Ok process, w1)
       /\ time_time w1 = (Ok start_time, w2)
       /\ console_loop fuel process run_timeout start_time abs_main w2 = (Raise e, w3)
       /\ is_Exception e = true
       /\ d = console_failed abs_main e (w_stderr w').
Proof.
  intros H abs_main. unfold run_main_as_console_app in H.
  apply bind_ok_inv in H. destruct H as (abs & wa & Ha & H).
  unfold os_path_abspath in Ha. inversion Ha; subst abs wa. clear Ha.
  fold abs_main in H.
  apply bind_ok_inv in H. destruct H as (process & w1 & Hp & H).
  apply bind_ok_inv in H. destruct H as (st & w2 & Ht & H).
  unfold try_except in H.
  destruct (console_loop fuel process run_timeout st abs_main w2) as [r w3] eqn:El.
  pose proof (console_loop_outcome _ _ _ _ _ _ _ _ El) as (t & _ & Ho).
  destruct Ho as [(c & -> & _) | [(-> & _) | [(e & -> & He & _) | [-> | ->]]]];
    try discriminate.
  - inversion H; subst. left. eauto.
  - inversion H; subst. right. left. reflexivity.
  - rewrite He in H. unfold bind at 1 in H.
    destruct (kill process w3) as [rk w4] eqn:Ek.
    apply kill_spec in Ek. destruct Ek as [[-> _] | [[e' ->] _]]; [| discriminate].
    unfold bind in H. destruct (err_file_read w4) as [rr w5] eqn:Er.
    apply err_file_read_spec in Er. destruct Er as [_ [-> | ->]]; [| discriminate].
    inversion H; subst.
    right. right. exists e, process, w1, st, w2, w3. auto 10.
Qed.

(** X18 (what [run_project] reports of a console run). When
    [run_project] returns from a console project, it has done nothing
    after [run_main_as_console_app] returned; it reports success when the
    record says so; when the record says failure it reports the child's
    stderr if there is any, else the record's [error] text if there is
    any, and success when both texts are empty. The [error] text of the
    record is empty in one case only: the poll loop of this run raised an
    [Exception] whose text is empty, and the record is the one the
    handler built from it. *)
Theorem console_run_report :
  forall fuel result is_web_app open_browser run_timeout root w d w',
    get result "project_root" = VStr root ->
    run_as_web result is_web_app = false ->
    run_project fuel result true is_web_app open_browser run_timeout w = (Ok (inr d), w') ->
    let abs_main := abspath (w_cwd w) (root +:+ "/main.py") in
    exists cr,
      run_main_as_console_app fuel (root +:+ "/main.py") run_timeout w = (Ok cr, w')
      /\ get cr "stderr" = VStr (w_stderr w')
      /\ ((get cr "success" = VBool true /\ d = run_succeeded)
          \/ exists msg,
               get cr "success" = VBool false
               /\ get cr "error" = VStr msg
               /\ d = (if negb (String.eqb (w_stderr w') "")
                       then run_failed result (VStr (w_stderr w'))
                       else if negb (String.eqb msg "")
                            then run_failed result (VStr msg)
                            else run_succeeded)
               /\ (msg = "" ->
                   exists e process w1 start_time w2 w3,
                     Popen abs_main (dirname abs_main) w = (Ok process, w1)
                     /\ time_time w1 = (Ok start_time, w2)
                     /\ console_loop fuel process run_timeout start_time abs_main w2
                        = (Raise e, w3)
                     /\ is_Exception e = true
                     /\ str_exn e = ""
                     /\ cr = console_failed abs_main e (w_stderr w'))).
Proof.
  intros fuel result is_web_app open_browser run_timeout root w d w' Hroot Hweb H abs_main.
  unfold run_project in H. rewrite Hroot, Hweb in H.
  rewrite main_path_is_true in H. cbn [negb] in H.
  apply and_then_ok_inv in H. destruct H as ([sp em] & wa & H1 & H2).
  apply bind_ok_inv in H1. destruct H1 as (cr & w1 & Hrun & H1).
  exists cr.
  pose proof (console_run_origin _ _ _ _ _ _ Hrun) as Hshape.
  cbv zeta in Hshape. fold abs_main in Hshape.
  assert (Hfin : forall em0,
             sp = VNone -> em = em0 -> wa = w1 ->
             w' = w1
             /\ d = if truth_of (w_output w1) em0 then run_failed result em0
                    else run_succeeded).
  { clear H1. intros em0 -> -> ->. cbn [fst snd] in H2.
    apply and_then_ok_inv in H2. destruct H2 as ([] & wb & Hc & H2).
    rewrite cleanup_none in Hc. inversion Hc; subst wb.
    apply bind_ok_inv in H2. destruct H2 as (failed & wb' & Htr & H2).
    inversion Htr; subst failed wb'.
    destruct (truth_of (w_output w1) em0); inversion H2; subst; auto. }
  destruct Hshape
    as [(c & ->) | [-> | (e & process & wp & st & wt & wl & Hpo & Hti & Hlo & He & ->)]].
  - (* the child ended *)
    change (console_exited abs_main c (w_stderr w1) !! "success")
      with (Some (VBool (c =? 0))) in H1.
    apply bind_ok_inv in H1. destruct H1 as (ok & w1' & Hok & H1).
    inversion Hok; subst ok w1'. clear Hok. cbn [truth_of] in H1.
    destruct (c =? 0) eqn:Ec.
    + inversion H1; subst sp em wa.
      destruct (Hfin VNone eq_refl eq_refl eq_refl) as [-> ->].
      split; [exact Hrun |]. split; [reflexivity |]. left.
      split; [| reflexivity].
      change (VBool (c =? 0) = VBool true). now rewrite Ec.
    + apply bind_ok_inv in H1. destruct H1 as (has_stderr & w1' & Hhs & H1).
      inversion Hhs; subst has_stderr w1'. clear Hhs.
      inversion H1; subst sp wa.
      destruct (Hfin em eq_refl eq_refl eq_refl) as [-> ->].
      split; [exact Hrun |]. split; [reflexivity |]. right.
      exists "failed to run".
      split; [change (VBool (c =? 0) = VBool false); now rewrite Ec |].
      split; [change ((if c =? 0 then VNone else VStr "failed to run")
                      = VStr "failed to run"); now rewrite Ec |].
      split; [| discriminate].
      subst em.
      change (get (console_exited abs_main c (w_stderr w1)) "stderr")
        with (VStr (w_stderr w1)).
      change (get_or (console_exited abs_main c (w_stderr w1)) "error"
                (VStr "failed to run"))
        with (if c =? 0 then VNone else VStr "failed to run").
      rewrite Ec. cbn [truth_of].
      destruct (negb (String.eqb (w_stderr w1) "")) eqn:Es; cbn [truth_of];
        rewrite ?Es; reflexivity.
  - (* the timeout *)
    change (console_timed_out abs_main run_timeout (w_stderr w1) !! "success")
      with (Some (VBool false)) in H1.
    apply bind_ok_inv in H1. destruct H1 as (ok & w1' & Hok & H1).
    inversion Hok; subst ok w1'. clear Hok. cbn [truth_of] in H1.
    apply bind_ok_inv in H1. destruct H1 as (has_stderr & w1' & Hhs & H1).
    inversion Hhs; subst has_stderr w1'. clear Hhs.
    inversion H1; subst sp wa.
    destruct (Hfin em eq_refl eq_refl eq_refl) as [-> ->].
    split; [exact Hrun |]. split; [reflexivity |]. right.
    exists ("time out" +:+ str_opt_int run_timeout +:+ "seconds. terminate now").
    split; [reflexivity |]. split; [reflexivity |]. split; [| discriminate].
    subst em.
    change (get (console_timed_out abs_main run_timeout (w_stderr w1)) "stderr")
      with (VStr (w_stderr w1)).
    change (get_or (console_timed_out abs_main run_timeout (w_stderr w1)) "error"
              (VStr "failed to run"))
      with (VStr ("time out" +:+ str_opt_int run_timeout +:+ "seconds. terminate now")).
    cbn [truth_of].
    destruct (negb (String.eqb (w_stderr w1) "")) eqn:Es; cbn [truth_of];
      rewrite ?Es; reflexivity.
  - (* an exception *)
    change (console_failed abs_main e (w_stderr w1) !! "success")
      with (Some (VBool false)) in H1.
    apply bind_ok_inv in H1. destruct H1 as (ok & w1' & Hok & H1).
    inversion Hok; subst ok w1'. clear Hok. cbn [truth_of] in H1.
    apply bind_ok_inv in H1. destruct H1 as (has_stderr & w1' & Hhs & H1).
    inversion Hhs; subst has_stderr w1'. clear Hhs.
    inversion H1; subst sp wa.
    destruct (Hfin em eq_refl eq_refl eq_refl) as [-> ->].
    split; [exact Hrun |]. split; [reflexivity |]. right.
    exists (str_exn e).
    split; [reflexivity |]. split; [reflexivity |].
    split; [| intros Hm; exists e, process, wp, st, wt, wl; auto 10].
    subst em.
    change (get (console_failed abs_main e (w_stderr w1)) "stderr")
      with (VStr (w_stderr w1)).
    change (get_or (console_failed abs_main e (w_stderr w1)) "error"
              (VStr "failed to run"))
      with (VStr (str_exn e)).
    cbn [truth_of].
    destruct (negb (String.eqb (w_stderr w1) "")) eqn:Es; cbn [truth_of];
      rewrite ?Es; [reflexivity |].
    destruct (negb (String.eqb (str_exn e) "")); reflexivity.
Qed.

(** The console project whose entry file is missing: the error reported
    is what the interpreter wrote to its stderr. *)
Lemma console_run_report_witness :
  let run := run_project 100 Stage.console_project true None None None
               Scenario.missing_entry in
  let d := run_failed Stage.console_project (VStr "can't open file '/app/main.py'") in
  get Stage.console_project "project_root" = VStr "/app"
  /\ run_as_web Stage.console_project None = false
  /\ run = (Ok (inr d), snd run)
  /\ exists cr,
       run_main_as_console_app 100 ("/app" +:+ "/main.py") None Scenario.missing_entry
       = (Ok cr, snd run)
       /\ get cr "stderr" = VStr (w_stderr (snd run))
       /\ ((get cr "success" = VBool true /\ d = run_succeeded)
           \/ exists msg,
                get cr "success" = VBool false
                /\ get cr "error" = VStr msg
                /\ d = (if negb (String.eqb (w_stderr (snd run)) "")
                        then run_failed Stage.console_project (VStr (w_stderr (snd run)))
                        else if negb (String.eqb msg "")
                             then run_failed Stage.console_project (VStr msg)
                             else run_succeeded)
                /\ (msg = "" ->
                    exists e process w1 start_time w2 w3,
                      Popen (abspath (w_cwd Scenario.missing_entry) ("/app" +:+ "/main.py"))
                        (dirname (abspath (w_cwd Scenario.missing_entry)
                                    ("/app" +:+ "/main.py")))
                        Scenario.missing_entry = (Ok process, w1)
                      /\ time_time w1 = (Ok start_time, w2)
                      /\ console_loop 100 process None start_time
                           (abspath (w_cwd Scenario.missing_entry) ("/app" +:+ "/main.py")) w2
                         = (Raise e, w3)
                      /\ is_Exception e = true
                      /\ str_exn e = ""
                      /\ cr = console_failed
                                (abspath (w_cwd Scenario.missing_entry) ("/app" +:+ "/main.py"))
                                e (w_stderr (snd run)))).
Proof.
  cbv zeta.
  assert (H1 : get Stage.console_project "project_root" = VStr "/app") by reflexivity.
  assert (H2 : run_as_web Stage.console_project None = false) by reflexivity.
  assert (He : run_project 100 Stage.console_project true None None None
                 Scenario.missing_entry
               = (Ok (inr (run_failed Stage.console_project
                             (VStr "can't open file '/app/main.py'"))),
                  snd (run_project 100 Stage.console_project true None None None
                         Scenario.missing_entry)))
    by (apply pair_of_fst; vm_compute; reflexivity).
  split; [exact H1 |]. split; [exact H2 |]. split; [exact He |].
  exact (console_run_report 100 Stage.console_project None None None "/app"
           Scenario.missing_entry _ _ H1 H2 He).
Defined.

(** A console run cut short by an exception without text, the child
    having written nothing to its stderr: the supervisor's record says
    failure, [run_project] reports success. *)
Example silent_console_failure :
  let inner := run_main_as_console_app 100 "/app/main.py" None Stage.silent_fault in
  let run := run_project 100 Stage.console_project true None None None
               Stage.silent_fault in
  fst inner = Ok (console_failed "/app/main.py" (OSError "") "")
  /\ fst run = Ok (inr run_succeeded).
Proof. cbv zeta. split; vm_compute; reflexivity. Qed.

(** X19 (a record without a project root). Given a record whose
    ["project_root"] is missing or is not a text, as the record the
    generator returns when it could not create the project, [run_project]
    asked to run it raises [TypeError] at once, whatever the other
    arguments: nothing has been spawned, polled or signalled, and no
    failure record is built. *)
Theorem missing_project_root_raises :
  forall fuel result is_web_app open_browser run_timeout w,
    (forall root, get result "project_root" <> VStr root) ->
    run_project fuel result true is_web_app open_browser run_timeout w
    = (Ok (inl TypeError), w).
Proof.
  intros fuel result is_web_app open_browser run_timeout w Hroot.
  unfold run_project, and_then.
  destruct (get result "project_root") as [| b | n | root | pid | l |] eqn:E;
    try reflexivity.
  now elim (Hroot root).
Qed.

(** The record of a failed creation: [run_project] raises, and the world
    is as it was. *)
Lemma missing_project_root_raises_witness :
  (forall root, get Stage.failed_creation "project_root" <> VStr root)
  /\ run_project 100 Stage.failed_creation true None None None Scenario.never_binds
     = (Ok (inl TypeError), Scenario.never_binds).
Proof.
  assert (H : forall root, get Stage.failed_creation "project_root" <> VStr root)
    by (intros root; discriminate).
  split; [exact H |].
  exact (missing_project_root_raises 100 Stage.failed_creation None None None
           Scenario.never_binds H).
Defined.

